(** * Execution Protocol Integration API: polling core

    A shallow embedding of the read-only polling core of the repository
    (the Express controller [ExecutionProtocolController], the repository
    [PostgresExecutionProtocolRepository], the domain entity
    [ExecutionProtocol] and the validation helper [isValidUUID]) together
    with the properties its specification states about them.  The
    authentication middleware, the seed script's transaction and the
    protocol-execution demo (model and controller) are embedded after
    them, with properties read off their code.

    Conventions of the model:
    - JavaScript values that reach a response body are terms of [JS.value];
      [undefined] and [null] are distinct constructors.
    - A promise that settles is an [outcome]: fulfilled with a value or
      rejected with an error.
    - The table [execution_protocols] is a list of rows in the order the
      storage engine scans them for a query.  SQL gives no order to rows
      that tie on the [ORDER BY] key, and nothing relates the scan order of
      one query to that of the next; properties that must hold for every
      execution are therefore stated for every scan order (every
      permutation of the table).
    - Strings are sequences of bytes, the UTF-8 encoding of the JavaScript
      string.
    - The timestamps of [execution_protocols] count microseconds since the
      epoch, as a [TIMESTAMPTZ] column does.  A JavaScript [Date] holds
      whole milliseconds: the Date the driver builds from a column is
      written on the column's scale, as the multiple of 1000 below it
      (see [Driver.date]).
    - The text-to-value conversions of the two runtimes ([new Date(s)] in
      JavaScript, the [uuid] and [timestamptz] input functions of the
      storage engine) are taken as parameters, see [Runtime]. *)

From Stdlib Require Import ZArith List String Ascii Bool Lia.
From Stdlib Require Import Sorting.Sorted Sorting.Permutation.
Import ListNotations.

Set Warnings "-register-all".

Open Scope string_scope.
Open Scope Z_scope.

(* ===================================================================== *)
(** ** JavaScript values and built-ins *)
(* ===================================================================== *)

Module JS.

(** Values as they are handed to [res.json]. *)
Inductive value : Type :=
| VUndefined
| VNull
| VBool (b : bool)
| VNumber (z : Z)
| VString (s : string)
| VDate (t : Z)
| VArray (l : list value)
| VObject (fields : list (string * value)).

(** [ToBoolean]: what [if (v)] and [!v] test. *)
Definition truthy (v : value) : bool :=
  match v with
  | VUndefined | VNull => false
  | VBool b => b
  | VNumber z => negb (z =? 0)
  | VString s => negb (s =? "")%string
  | VDate _ | VArray _ | VObject _ => true
  end.

(** Property read [o.k]: [undefined] when the key is absent or when [o]
    is not an object. *)
Fixpoint assoc (k : string) (fields : list (string * value)) : value :=
  match fields with
  | [] => VUndefined
  | (k', v) :: rest => if (k' =? k)%string then v else assoc k rest
  end.

Definition get (k : string) (o : value) : value :=
  match o with
  | VObject fields => assoc k fields
  | _ => VUndefined
  end.

Definition has_key (k : string) (o : value) : bool :=
  match o with
  | VObject fields => existsb (fun kv => (fst kv =? k)%string) fields
  | _ => false
  end.

Definition keys (o : value) : list string :=
  match o with
  | VObject fields => map fst fields
  | _ => []
  end.

(** An optional string ([undefined] or a string) as a value. *)
Definition of_opt_string (o : option string) : value :=
  match o with
  | None => VUndefined
  | Some s => VString s
  end.

Definition of_opt_date (o : option Z) : value :=
  match o with
  | None => VUndefined
  | Some t => VDate t
  end.

(** *** [parseInt(s, 10)] *)

(** The white space [parseInt] skips ([StrWhiteSpaceChar]), in UTF-8:
    TAB, LF, VT, FF, CR and the space take one byte each. *)
Definition is_space (c : ascii) : bool :=
  let n := nat_of_ascii c in
  ((9 <=? n) && (n <=? 13))%nat || (n =? 32)%nat.

(** U+00A0 takes two bytes. *)
Definition is_space2 (c1 c2 : ascii) : bool :=
  ((nat_of_ascii c1 =? 194) && (nat_of_ascii c2 =? 160))%nat.

(** U+1680, U+2000 to U+200A, U+2028, U+2029, U+202F, U+205F, U+3000 and
    U+FEFF take three. *)
Definition is_space3 (c1 c2 c3 : ascii) : bool :=
  let n1 := nat_of_ascii c1 in
  let n2 := nat_of_ascii c2 in
  let n3 := nat_of_ascii c3 in
  ((n1 =? 225) && (n2 =? 154) && (n3 =? 128)
   || (n1 =? 226) && (n2 =? 128)
      && ((128 <=? n3) && (n3 <=? 138) || (n3 =? 168) || (n3 =? 169)
          || (n3 =? 175))
   || (n1 =? 226) && (n2 =? 129) && (n3 =? 159)
   || (n1 =? 227) && (n2 =? 128) && (n3 =? 128)
   || (n1 =? 239) && (n2 =? 187) && (n3 =? 191))%nat.

Definition digit_of (c : ascii) : option Z :=
  let n := nat_of_ascii c in
  if ((48 <=? n) && (n <=? 57))%nat then Some (Z.of_nat (n - 48)) else None.

Fixpoint skip_spaces (s : string) : string :=
  match s with
  | String c1 s1 =>
      if is_space c1 then skip_spaces s1
      else
        match s1 with
        | String c2 s2 =>
            if is_space2 c1 c2 then skip_spaces s2
            else
              match s2 with
              | String c3 s3 =>
                  if is_space3 c1 c2 c3 then skip_spaces s3 else s
              | EmptyString => s
              end
        | EmptyString => s
        end
  | EmptyString => s
  end.

(** Reads the longest prefix of decimal digits; [acc] is the value of the
    digits read so far and [seen] tells whether there was one. *)
Fixpoint read_digits (s : string) (seen : bool) (acc : Z) : option Z :=
  match s with
  | String c s' =>
      match digit_of c with
      | Some d => read_digits s' true (10 * acc + d)
      | None => if seen then Some acc else None
      end
  | EmptyString => if seen then Some acc else None
  end.

(** The Number an integer is read as: a double holds 53 significant
    bits, an integer of more bits is rounded to the nearest one that
    fits, a tie to the one whose last kept bit is 0.  (An integer beyond
    the largest double is read as [Infinity]; it is left as it is here:
    the code only compares such a number, in [Math.min], [Math.max] and
    the engine's range check, and every comparison comes out the same.) *)
Definition to_Number (z : Z) : Z :=
  let a := Z.abs z in
  if a <? 2 ^ 53 then z
  else
    let e := Z.log2 a - 52 in
    let q := a / 2 ^ e in
    let r := a mod 2 ^ e in
    let half := 2 ^ (e - 1) in
    let q' := if r <? half then q
              else if half <? r then q + 1
              else if Z.even q then q else q + 1 in
    Z.sgn z * (q' * 2 ^ e).

(** [parseInt(s, 10)]; [None] is [NaN].  Leading white space is skipped,
    one sign is accepted, the digits that follow are read and whatever
    comes after them is ignored. *)
Definition parseInt (s : string) : option Z :=
  option_map to_Number
    match skip_spaces s with
    | String "-" s' => option_map Z.opp (read_digits s' false 0)
    | String "+" s' => read_digits s' false 0
    | s' => read_digits s' false 0
    end.

(** *** Strings and arrays as objects *)

(** [s.length]: the UTF-16 code units of the string, one for each
    character of up to three bytes and two for each character of four. *)
Fixpoint utf16_length (s : string) : nat :=
  match s with
  | String c s' =>
      let n := nat_of_ascii c in
      ((if (n <? 128) || (192 <=? n) && (n <? 240) then 1
        else if 240 <=? n then 2 else 0)
       + utf16_length s')%nat
  | EmptyString => 0%nat
  end.

Fixpoint numeral (s : string) (acc : Z) : option Z :=
  match s with
  | String c s' =>
      match digit_of c with
      | Some d => numeral s' (10 * acc + d)
      | None => None
      end
  | EmptyString => Some acc
  end.

(** The index a property name denotes, if any: the name is the decimal
    numeral of the index, without a leading zero. *)
Definition index_of (key : string) : option nat :=
  match key with
  | EmptyString => None
  | String "0" (String _ _) => None
  | _ => option_map Z.to_nat (numeral key 0)
  end.

(** [x || d] for a number [x]: [NaN] and [0] are falsy. *)
Definition or_number (x : option Z) (d : Z) : Z :=
  match x with
  | Some z => if z =? 0 then d else z
  | None => d
  end.

End JS.

Import JS.

(* ===================================================================== *)
(** ** utils/validation: [isValidUUID] *)
(* ===================================================================== *)

Module Validation.

(** The character classes the regular expression uses, under its [i]
    flag. *)
Inductive cls : Type :=
| Hex                 (* [0-9a-f] *)
| Lit (c : ascii)     (* a literal character *)
| Variant.            (* [89ab] *)

Definition is_hex (c : ascii) : bool :=
  let n := nat_of_ascii c in
  ((48 <=? n) && (n <=? 57) || (97 <=? n) && (n <=? 102)
   || (65 <=? n) && (n <=? 70))%nat.

Definition is_variant (c : ascii) : bool :=
  let n := nat_of_ascii c in
  ((n =? 56) || (n =? 57) || (n =? 97) || (n =? 98)
   || (n =? 65) || (n =? 66))%nat.

Definition cls_test (k : cls) (c : ascii) : bool :=
  match k with
  | Hex => is_hex c
  | Lit l => Ascii.eqb l c
  | Variant => is_variant c
  end.

(** A sequence of classes anchored at both ends ([^...$]). *)
Fixpoint test (p : list cls) (s : string) : bool :=
  match p, s with
  | [], EmptyString => true
  | k :: p', String c s' => cls_test k c && test p' s'
  | _, _ => false
  end.

(** [/^[0-9a-f]{8}-[0-9a-f]{4}-4[0-9a-f]{3}-[89ab][0-9a-f]{3}-[0-9a-f]{12}$/i] *)
Definition uuidRegex : list cls :=
  (repeat Hex 8 ++ [Lit "-"] ++ repeat Hex 4 ++ [Lit "-"]
   ++ [Lit "4"] ++ repeat Hex 3 ++ [Lit "-"]
   ++ [Variant] ++ repeat Hex 3 ++ [Lit "-"] ++ repeat Hex 12)%list.

(** The route parameter is always a string, so [typeof id !== "string"]
    never holds; [!id] is the empty string. *)
Definition isValidUUID (id : string) : bool :=
  if negb (truthy (VString id)) then false else test uuidRegex id.

End Validation.

Import Validation.

(* ===================================================================== *)
(** ** The runtimes' text conversions *)
(* ===================================================================== *)

(** [Date_getTime s] is [new Date(s).getTime()], in milliseconds, [None]
    being [NaN].  [uuid_in] and [timestamptz_in] are the storage engine's
    input functions for a text parameter compared with a [UUID] or a
    [TIMESTAMPTZ] column; [None] is the engine's "invalid input syntax"
    error.  [uuid_in] yields the canonical text of the identifier, the one
    the column holds, [timestamptz_in] the microseconds the column would
    hold. *)
Record Runtime : Type := {
  Date_getTime : string -> option Z;
  uuid_in : string -> option string;
  timestamptz_in : string -> option Z
}.

(** A settled promise. *)
Inductive outcome (A : Type) : Type :=
| Fulfilled (a : A)
| Rejected (e : string).

Arguments Fulfilled {A} a.
Arguments Rejected {A} e.

(* ===================================================================== *)
(** ** db: the table [execution_protocols] *)
(* ===================================================================== *)

Module Row.

(** One row; the columns of [CREATE TABLE execution_protocols].
    [closed_at] is the only nullable column. *)
Record t : Type := {
  id : string;
  site_id : string;
  plant_id : string;
  tenant_id : string;
  status : string;
  snapshot : value;
  created_at : Z;
  closed_at : option Z;
  updated_at : Z
}.

(** [{ ...row, snapshot: v }] *)
Definition with_snapshot (r : t) (v : value) : t :=
  {| id := id r; site_id := site_id r; plant_id := plant_id r;
     tenant_id := tenant_id r; status := status r; snapshot := v;
     created_at := created_at r; closed_at := closed_at r;
     updated_at := updated_at r |}.

End Row.

(** The table as one query scans it. *)
Definition table : Type := list Row.t.

(** [id UUID PRIMARY KEY] *)
Definition primary_key (db : table) : Prop := NoDup (map Row.id db).

(* ===================================================================== *)
(** ** pg: the rows of a query result *)
(* ===================================================================== *)

Module Driver.

(** The [Date] the driver parses out of a [TIMESTAMPTZ] value: the
    column counts microseconds, the Date milliseconds, and what lies
    below the millisecond is dropped. *)
Definition date (t : Z) : Z := 1000 * (t / 1000).

(** An element of [result.rows]: the columns as JavaScript values, the
    three timestamps as Dates. *)
Definition row (r : Row.t) : Row.t :=
  {| Row.id := Row.id r; Row.site_id := Row.site_id r;
     Row.plant_id := Row.plant_id r; Row.tenant_id := Row.tenant_id r;
     Row.status := Row.status r; Row.snapshot := Row.snapshot r;
     Row.created_at := date (Row.created_at r);
     Row.closed_at := option_map date (Row.closed_at r);
     Row.updated_at := date (Row.updated_at r) |}.

End Driver.

(* ===================================================================== *)
(** ** domain/executionProtocol *)
(* ===================================================================== *)

Module ExecutionProtocol.

(** The entity.  A field read through [data.x_y || data.xY] is
    [undefined] ([None]) when the column is falsy, since the rows carry
    no camel-case property. *)
Record t : Type := {
  id : string;
  siteId : option string;
  plantId : option string;
  tenantId : option string;
  status : string;
  createdAt : option Z;
  closedAt : option Z;
  updatedAt : option Z;
  snapshot : value
}.

(** [s || undefined] for a string column. *)
Definition or_undefined (s : string) : option string :=
  if truthy (VString s) then Some s else None.

Definition fromRepositoryData (data : Row.t) : t :=
  {| id := Row.id data;
     siteId := or_undefined (Row.site_id data);
     plantId := or_undefined (Row.plant_id data);
     tenantId := or_undefined (Row.tenant_id data);
     status := Row.status data;
     createdAt := Some (Row.created_at data);
     closedAt := Row.closed_at data;
     updatedAt := Some (Row.updated_at data);
     snapshot := Row.snapshot data |}.


Definition toListMetadata (p : t) : value :=
  VObject
    [ ("id", VString (id p));
      ("siteId", of_opt_string (siteId p));
      ("plantId", of_opt_string (plantId p));
      ("status", VString (status p));
      ("closedAt", of_opt_date (closedAt p));
      ("updatedAt", of_opt_date (updatedAt p)) ].

End ExecutionProtocol.

(* ===================================================================== *)
(** ** repository/executionProtocolRepository: the interface *)
(* ===================================================================== *)

(** The argument object of [getAllForPolling]; [None] is a property left
    [undefined]. *)
Module Opts.
Record t : Type := {
  tenantId : string;
  updatedAfter : option string;
  limit : option Z;
  offset : option Z
}.
End Opts.

(** [{ data, total }] *)
Module Page.
Record t : Type := {
  data : list ExecutionProtocol.t;
  total : Z
}.
End Page.

(** The three operations of the abstract class.  [getById] resolves to
    [null] ([None]) or an entity; [getSnapshotById] resolves to [null]
    ([VNull]) or the snapshot document. *)
Record ExecutionProtocolRepository : Type := {
  getAllForPolling : Opts.t -> outcome Page.t;
  getById : string -> string -> outcome (option ExecutionProtocol.t);
  getSnapshotById : string -> string -> outcome value
}.

(** The abstract class itself: every method throws. *)
Definition AbstractRepository : ExecutionProtocolRepository :=
  {| getAllForPolling := fun _ =>
       Rejected "Method getAllForPolling() must be implemented by subclass";
     getById := fun _ _ =>
       Rejected "Method getById() must be implemented by subclass";
     getSnapshotById := fun _ _ =>
       Rejected "Method getSnapshotById() must be implemented by subclass" |}.

(** Sequencing of awaited promises: a rejection propagates. *)
Definition bind {A B} (m : outcome A) (k : A -> outcome B) : outcome B :=
  match m with
  | Fulfilled a => k a
  | Rejected e => Rejected e
  end.

Notation "'let*' x ':=' m 'in' k" := (bind m (fun x => k))
  (at level 10, x name, m at level 100, k at level 200).

(* ===================================================================== *)
(** ** repository/postgresExecutionProtocolRepository *)
(* ===================================================================== *)

Module Postgres.

(** [WHERE tenant_id = $1 AND status = $2], and [AND updated_at > $3]
    when the cursor was pushed onto the parameters. *)
Definition polling_where (tenantId : string) (after : option Z) (r : Row.t)
  : bool :=
  (Row.tenant_id r =? tenantId)%string
  && (Row.status r =? "CLOSED")%string
  && match after with
     | Some t => t <? Row.updated_at r
     | None => true
     end.

(** [WHERE id = $1 AND tenant_id = $2 AND status = 'CLOSED'] *)
Definition by_id_where (uuid tenantId : string) (r : Row.t) : bool :=
  (Row.id r =? uuid)%string
  && (Row.tenant_id r =? tenantId)%string
  && (Row.status r =? "CLOSED")%string.

(** [ORDER BY updated_at ASC]: the rows sorted on that one key.  Rows that
    tie keep the order of the scan, whatever that was. *)
Fixpoint insert_by_updated_at (r : Row.t) (sorted : list Row.t)
  : list Row.t :=
  match sorted with
  | [] => [r]
  | x :: rest =>
      if Row.updated_at r <=? Row.updated_at x then r :: sorted
      else x :: insert_by_updated_at r rest
  end.

(** The order of the sort key. *)
Definition le_updated_at (a b : Row.t) : Prop :=
  Row.updated_at a <= Row.updated_at b.

Definition order_by_updated_at (rows : list Row.t) : list Row.t :=
  fold_right insert_by_updated_at [] rows.

(** The values of the engine's type [bigint]. *)
Definition bigint (z : Z) : bool := (- 2 ^ 63 <=? z) && (z <? 2 ^ 63).

(** [LIMIT $n OFFSET $m].  The driver sends each count as text and the
    engine reads it as a [bigint]: it refuses a number outside that type
    (a Number of 10^21 or more is even written with an exponent, which is
    no integer syntax), and it raises an error on a negative count.  (The
    text of a Number above 2^53 may differ from the Number in its last
    digits; either count lies beyond the end of any table.) *)
Definition limit_offset (lim off : Z) (rows : list Row.t)
  : outcome (list Row.t) :=
  if negb (bigint lim) || negb (bigint off)
  then Rejected "value is out of range for type bigint"
  else if off <? 0 then Rejected "OFFSET must not be negative"
  else if lim <? 0 then Rejected "LIMIT must not be negative"
  else Fulfilled (firstn (Z.to_nat lim) (skipn (Z.to_nat off) rows)).

(** [if (updatedAfter) params.push(updatedAfter)]: the cursor the query
    compares with, once the engine has read the text as a timestamp. *)
Definition cursor (rt : Runtime) (updatedAfter : option string)
  : outcome (option Z) :=
  match updatedAfter with
  | Some u =>
      if truthy (VString u) then
        match timestamptz_in rt u with
        | Some t => Fulfilled (Some t)
        | None =>
            Rejected "invalid input syntax for type timestamp with time zone"
        end
      else Fulfilled None
  | None => Fulfilled None
  end.

(** The callback of [result.rows.map] on a selected row: the entity of a
    row of the list, [fromRepositoryData({ ...row, snapshot: null })],
    [row] being what the driver made of the selected row. *)
Definition listed (row : Row.t) : ExecutionProtocol.t :=
  ExecutionProtocol.fromRepositoryData
    (Row.with_snapshot (Driver.row row) VNull).

(** The rows both queries of [getAllForPolling] select from. *)
Definition matching (db : table) (tenantId : string) (after : option Z)
  : list Row.t :=
  filter (polling_where tenantId after) db.

Definition getAllForPolling (rt : Runtime) (db : table) (o : Opts.t)
  : outcome Page.t :=
  let limit := match Opts.limit o with Some l => l | None => 50 end in
  let offset := match Opts.offset o with Some n => n | None => 0 end in
  let cappedLimit := Z.min limit 100 in
  let* after := cursor rt (Opts.updatedAfter o) in
  let* rows :=
    limit_offset cappedLimit offset
      (order_by_updated_at (matching db (Opts.tenantId o) after)) in
  let total :=
    Z.of_nat (List.length (matching db (Opts.tenantId o) after)) in
  let protocols := map listed rows in
  Fulfilled {| Page.data := protocols; Page.total := total |}.

(** The rows the two single-record queries select. *)
Definition select_by_id (rt : Runtime) (db : table) (id tenantId : string)
  : outcome (list Row.t) :=
  match uuid_in rt id with
  | Some uuid => Fulfilled (filter (by_id_where uuid tenantId) db)
  | None => Rejected "invalid input syntax for type uuid"
  end.

Definition getById (rt : Runtime) (db : table) (id tenantId : string)
  : outcome (option ExecutionProtocol.t) :=
  let* rows := select_by_id rt db id tenantId in
  match rows with
  | [] => Fulfilled None
  | row :: _ =>
      Fulfilled (Some (ExecutionProtocol.fromRepositoryData (Driver.row row)))
  end.

Definition getSnapshotById (rt : Runtime) (db : table) (id tenantId : string)
  : outcome value :=
  let* rows := select_by_id rt db id tenantId in
  match rows with
  | [] => Fulfilled VNull
  | row :: _ => Fulfilled (Row.snapshot row)
  end.

End Postgres.

(** The class [PostgresExecutionProtocolRepository] over a table. *)
Definition PostgresExecutionProtocolRepository (rt : Runtime) (db : table)
  : ExecutionProtocolRepository :=
  {| getAllForPolling := Postgres.getAllForPolling rt db;
     getById := Postgres.getById rt db;
     getSnapshotById := Postgres.getSnapshotById rt db |}.

(* ===================================================================== *)
(** ** controllers/executionProtocolController *)
(* ===================================================================== *)

(** What a handler reads of the request: [req.tenantId] (set by the
    authentication middleware), [req.params.id] and the three query
    parameters. *)
Module Req.
Record t : Type := {
  tenantId : option string;
  id : string;
  updatedAfter : option string;
  limit : option string;
  offset : option string
}.
End Req.

(** [res.status(code).json(body)] *)
Record response : Type := {
  statusCode : Z;
  body : value
}.

Definition error_response (code : Z) (error message : string) : response :=
  {| statusCode := code;
     body := VObject [("error", VString error); ("message", VString message)] |}.

Definition json (v : value) : response := {| statusCode := 200; body := v |}.

(** A call on [this.repository]. *)
Inductive call : Type -> Type :=
| GetAllForPolling (o : Opts.t) : call Page.t
| GetById (id tenantId : string) : call (option ExecutionProtocol.t)
| GetSnapshotById (id tenantId : string) : call value.

(** A handler either responds or awaits one repository call and goes on
    with the way its promise settled. *)
Inductive handler : Type :=
| Respond (r : response)
| Await (A : Type) (c : call A) (k : outcome A -> handler).

Arguments Await {A} c k.

Definition perform (repo : ExecutionProtocolRepository) {A} (c : call A)
  : outcome A :=
  match c in call T return outcome T with
  | GetAllForPolling o => getAllForPolling repo o
  | GetById id tenantId => getById repo id tenantId
  | GetSnapshotById id tenantId => getSnapshotById repo id tenantId
  end.

(** The response a handler sends when run against a repository. *)
Fixpoint run (repo : ExecutionProtocolRepository) (h : handler) : response :=
  match h with
  | Respond r => r
  | Await c k => run repo (k (perform repo c))
  end.

(** The repository methods a handler invokes, in order. *)
Inductive invocation : Type :=
| InvokedGetAllForPolling (o : Opts.t)
| InvokedGetById (id tenantId : string)
| InvokedGetSnapshotById (id tenantId : string).

Definition invocation_of {A} (c : call A) : invocation :=
  match c with
  | GetAllForPolling o => InvokedGetAllForPolling o
  | GetById id tenantId => InvokedGetById id tenantId
  | GetSnapshotById id tenantId => InvokedGetSnapshotById id tenantId
  end.

Fixpoint invocations (repo : ExecutionProtocolRepository) (h : handler)
  : list invocation :=
  match h with
  | Respond _ => []
  | Await c k => invocation_of c :: invocations repo (k (perform repo c))
  end.

Definition is_getById (i : invocation) : bool :=
  match i with
  | InvokedGetById _ _ => true
  | _ => false
  end.

Module Controller.

(** [Math.min(parseInt(limit, 10) || 50, 100)] with [limit = 50] when the
    query has none. *)
Definition parsedLimit (limit : option string) : Z :=
  let parsed := match limit with
                | Some s => parseInt s
                | None => Some 50
                end in
  Z.min (or_number parsed 50) 100.

(** [Math.max(parseInt(offset, 10) || 0, 0)] with [offset = 0] when the
    query has none. *)
Definition parsedOffset (offset : option string) : Z :=
  let parsed := match offset with
                | Some s => parseInt s
                | None => Some 0
                end in
  Z.max (or_number parsed 0) 0.

(** [updatedAfter && isNaN(new Date(updatedAfter).getTime())] *)
Definition invalid_cursor (rt : Runtime) (updatedAfter : option string)
  : bool :=
  match updatedAfter with
  | Some u =>
      truthy (VString u)
      && match Date_getTime rt u with
         | Some _ => false
         | None => true
         end
  | None => false
  end.

Definition unauthorized : response :=
  error_response 401 "Unauthorized" "Missing tenant context".

Definition list_response (limit offset : Z) (result : Page.t) : response :=
  json
    (VObject
       [ ("protocols",
          VArray (map ExecutionProtocol.toListMetadata (Page.data result)));
         ("pagination",
          VObject [ ("limit", VNumber limit);
                    ("offset", VNumber offset);
                    ("total", VNumber (Page.total result)) ]) ]).

Definition getAllForPolling (rt : Runtime) (req : Req.t) : handler :=
  match Req.tenantId req with
  | Some tenantId =>
      if negb (truthy (VString tenantId)) then Respond unauthorized
      else if invalid_cursor rt (Req.updatedAfter req) then
        Respond
          (error_response 400 "Bad request"
             "Invalid updatedAfter format. Use ISO 8601 timestamp (e.g., 2026-02-15T10:00:00Z)")
      else
        let limit := parsedLimit (Req.limit req) in
        let offset := parsedOffset (Req.offset req) in
        Await
          (GetAllForPolling
             {| Opts.tenantId := tenantId;
                Opts.updatedAfter := Req.updatedAfter req;
                Opts.limit := Some limit;
                Opts.offset := Some offset |})
          (fun settled =>
             match settled with
             | Fulfilled result => Respond (list_response limit offset result)
             | Rejected _ =>
                 Respond
                   (error_response 500 "Internal server error"
                      "Failed to retrieve execution protocols")
             end)
  | None => Respond unauthorized
  end.

(** [GET /:id] *)
Definition getById (req : Req.t) : handler :=
  match Req.tenantId req with
  | Some tenantId =>
      if negb (truthy (VString tenantId)) then Respond unauthorized
      else if negb (isValidUUID (Req.id req)) then
        Respond (error_response 404 "Not found" "Invalid protocol ID format")
      else
        Await (GetSnapshotById (Req.id req) tenantId)
          (fun settled =>
             match settled with
             | Fulfilled snapshot =>
                 if negb (truthy snapshot) then
                   Respond
                     (error_response 404 "Not found"
                        "Execution protocol not found")
                 else Respond (json snapshot)
             | Rejected _ =>
                 Respond
                   (error_response 500 "Internal server error"
                      "Failed to retrieve execution protocol")
             end)
  | None => Respond unauthorized
  end.

(** [GET /:id/snapshot] *)
Definition getSnapshotById (req : Req.t) : handler :=
  match Req.tenantId req with
  | Some tenantId =>
      if negb (truthy (VString tenantId)) then Respond unauthorized
      else if negb (isValidUUID (Req.id req)) then
        Respond (error_response 404 "Not found" "Invalid protocol ID format")
      else
        Await (GetSnapshotById (Req.id req) tenantId)
          (fun settled =>
             match settled with
             | Fulfilled snapshot =>
                 if negb (truthy snapshot) then
                   Respond
                     (error_response 404 "Not found"
                        "Execution protocol not found")
                 else Respond (json snapshot)
             | Rejected _ =>
                 Respond
                   (error_response 500 "Internal server error"
                      "Failed to retrieve execution protocol snapshot")
             end)
  | None => Respond unauthorized
  end.

End Controller.

(** Whether the promise of an invoked method was rejected. *)
Definition rejected (repo : ExecutionProtocolRepository) (i : invocation)
  : bool :=
  match i with
  | InvokedGetAllForPolling o =>
      match getAllForPolling repo o with
      | Rejected _ => true
      | Fulfilled _ => false
      end
  | InvokedGetById id tenantId =>
      match getById repo id tenantId with
      | Rejected _ => true
      | Fulfilled _ => false
      end
  | InvokedGetSnapshotById id tenantId =>
      match getSnapshotById repo id tenantId with
      | Rejected _ => true
      | Fulfilled _ => false
      end
  end.

(* ===================================================================== *)
(** ** routes/executionProtocols *)
(* ===================================================================== *)

Module Routes.

(** The three routes of the router: [/], [/:id] and [/:id/snapshot]. *)
Inductive endpoint : Type :=
| Root
| ById
| Snapshot.

(** [createExecutionProtocolRoutes(controller)]: the handler each route is
    bound to. *)
Definition createExecutionProtocolRoutes (rt : Runtime) (e : endpoint)
  : Req.t -> handler :=
  match e with
  | Root => Controller.getAllForPolling rt
  | ById => Controller.getById
  | Snapshot => Controller.getSnapshotById
  end.

End Routes.

(** The tenant a repository call is made for. *)
Definition tenant_of (i : invocation) : string :=
  match i with
  | InvokedGetAllForPolling o => Opts.tenantId o
  | InvokedGetById _ tenantId => tenantId
  | InvokedGetSnapshotById _ tenantId => tenantId
  end.

(* ===================================================================== *)
(** ** middleware/authMiddleware *)
(* ===================================================================== *)

Module Auth.

(** What [JSON.parse] makes of the text of [API_KEYS]: a syntax error, an
    object, or a value that is no object: [null], a boolean, a number, a
    string or an array.  (Which number it is plays no part: a number has
    no property of its own.) *)
Inductive parsed : Type :=
| SyntaxError
| Object (fields : list (string * value))
| Null
| Boolean (b : bool)
| Number
| Text (s : string)
| Array (l : list value).

(** The names every object inherits from [Object.prototype]; each is
    bound there to a function or an object, hence to a truthy value. *)
Definition Object_prototype : list string :=
  [ "constructor"; "__proto__"; "hasOwnProperty"; "isPrototypeOf";
    "propertyIsEnumerable"; "toLocaleString"; "toString"; "valueOf";
    "__defineGetter__"; "__defineSetter__"; "__lookupGetter__";
    "__lookupSetter__" ].

(** The value of [req.tenantId] once the middleware has set it: a value
    of the configuration, or what a prototype binds a name to; and, when
    the configuration is no object but a string or an array, its length,
    one of its elements, or one of its code units (the unit [i] of the
    string [s]). *)
Inductive tenant : Type :=
| Configured (v : value)
| Prototype (name : string)
| Length (n : nat)
| Element (v : value)
| Unit (s : string) (i : nat).

(** [apiKeys[apiKey]] on an object: the object's own property first, then
    its prototype; [None] is [undefined]. *)
Definition lookup (fields : list (string * value)) (apiKey : string)
  : option tenant :=
  if existsb (fun kv => (fst kv =? apiKey)%string) fields
  then Some (Configured (assoc apiKey fields))
  else if existsb (String.eqb apiKey) Object_prototype
       then Some (Prototype apiKey)
       else None.

(** The outcome of reading a property: a [TypeError], [undefined], or a
    value. *)
Inductive access : Type :=
| Throws
| Undefined
| Found (t : tenant).

(** What a value that is no object inherits: the names of
    [Object.prototype] and those of its own prototype
    ([Boolean.prototype], [Number.prototype], [String.prototype] or
    [Array.prototype]), which the runtime tells: [builtin v name] holds
    when the own prototype of [v] binds [name]. *)
Definition inherited (builtin : parsed -> string -> bool) (v : parsed)
  (apiKey : string) : access :=
  if existsb (String.eqb apiKey) Object_prototype || builtin v apiKey
  then Found (Prototype apiKey)
  else Undefined.

(** [const tenantId = apiKeys[apiKey]] on what was parsed.  Reading a
    property of [null] throws.  A string and an array have a [length]
    and the properties named by the indices below it; every other name,
    and every name on a boolean or a number, is looked up in the
    prototypes. *)
Definition read (builtin : parsed -> string -> bool) (apiKeys : parsed)
  (apiKey : string) : access :=
  match apiKeys with
  | SyntaxError => Undefined
  | Object fields =>
      match lookup fields apiKey with
      | Some t => Found t
      | None => Undefined
      end
  | Null => Throws
  | Text s =>
      if (apiKey =? "length")%string then Found (Length (utf16_length s))
      else
        match index_of apiKey with
        | Some i =>
            if (i <? utf16_length s)%nat then Found (Unit s i)
            else inherited builtin apiKeys apiKey
        | None => inherited builtin apiKeys apiKey
        end
  | Array l =>
      if (apiKey =? "length")%string then Found (Length (List.length l))
      else
        match index_of apiKey with
        | Some i =>
            match nth_error l i with
            | Some x => Found (Element x)
            | None => inherited builtin apiKeys apiKey
            end
        | None => inherited builtin apiKeys apiKey
        end
  | Boolean _ | Number => inherited builtin apiKeys apiKey
  end.

(** [!tenantId] is false. *)
Definition tenant_truthy (t : tenant) : bool :=
  match t with
  | Configured v => truthy v
  | Prototype _ => true
  | Length n => negb (n =? 0)%nat
  | Element v => truthy v
  | Unit _ _ => true
  end.

(** The middleware either responds, or sets [req.tenantId] and calls
    [next()], or throws (the [TypeError] of reading a property of
    [null], which nothing in the middleware catches). *)
Inductive result : Type :=
| Responded (r : response)
| Next (tenantId : tenant)
| Thrown.

Definition error_only (code : Z) (error : string) : response :=
  {| statusCode := code; body := VObject [("error", VString error)] |}.

(** [process.env.API_KEYS || "{}"] *)
Definition API_KEYS_or_default (API_KEYS : option string) : string :=
  match API_KEYS with
  | Some text => if truthy (VString text) then text else "{}"
  | None => "{}"
  end.

(** [authMiddleware(req, res, next)], given [JSON.parse], the names the
    built-in prototypes bind, the environment's [API_KEYS] and the
    request's [x-api-key] header. *)
Definition authMiddleware (JSON_parse : string -> parsed)
  (builtin : parsed -> string -> bool)
  (API_KEYS : option string) (apiKey : option string) : result :=
  match apiKey with
  | Some key =>
      if negb (truthy (VString key)) then
        Responded (error_only 401 "Missing X-API-Key header")
      else
        match JSON_parse (API_KEYS_or_default API_KEYS) with
        | SyntaxError =>
            Responded
              (error_only 500 "Server misconfiguration: invalid API_KEYS")
        | apiKeys =>
            match read builtin apiKeys key with
            | Found tenantId =>
                if negb (tenant_truthy tenantId) then
                  Responded (error_only 401 "Invalid API key")
                else Next tenantId
            | Undefined => Responded (error_only 401 "Invalid API key")
            | Throws => Thrown
            end
        end
  | None => Responded (error_only 401 "Missing X-API-Key header")
  end.

End Auth.

(* ===================================================================== *)
(** ** domain/executionProtocol, over any data object *)
(* ===================================================================== *)

(** The class as JavaScript has it: every field holds whatever value the
    data object carried.  [ExecutionProtocol] above is the same class on
    the rows of the table, with the fields typed. *)
Module Domain.

(** An instance: the nine properties the constructor sets. *)
Record t : Type := {
  id : value;
  siteId : value;
  plantId : value;
  tenantId : value;
  status : value;
  createdAt : value;
  closedAt : value;
  updatedAt : value;
  snapshot : value
}.

(** [a || b] *)
Definition or (a b : value) : value := if truthy a then a else b.

(** [fromRepositoryData(data)] for a data object given by its own
    properties. *)
Definition fromRepositoryData (data : list (string * value)) : t :=
  {| id := assoc "id" data;
     siteId := or (assoc "site_id" data) (assoc "siteId" data);
     plantId := or (assoc "plant_id" data) (assoc "plantId" data);
     tenantId := or (assoc "tenant_id" data) (assoc "tenantId" data);
     status := assoc "status" data;
     createdAt := or (assoc "created_at" data) (assoc "createdAt" data);
     closedAt := or (assoc "closed_at" data) (assoc "closedAt" data);
     updatedAt := or (assoc "updated_at" data) (assoc "updatedAt" data);
     snapshot := assoc "snapshot" data |}.

Definition toListMetadata (p : t) : value :=
  VObject
    [ ("id", id p);
      ("siteId", siteId p);
      ("plantId", plantId p);
      ("status", status p);
      ("closedAt", closedAt p);
      ("updatedAt", updatedAt p) ].

(** The own properties of an instance, as a data object. *)
Definition properties (p : t) : list (string * value) :=
  [ ("id", id p); ("siteId", siteId p); ("plantId", plantId p);
    ("tenantId", tenantId p); ("status", status p);
    ("createdAt", createdAt p); ("closedAt", closedAt p);
    ("updatedAt", updatedAt p); ("snapshot", snapshot p) ].

(** A row as the driver hands it over: one property per column, a Date
    for a timestamp, [null] for SQL [NULL]. *)
Definition of_row (r : Row.t) : list (string * value) :=
  [ ("id", VString (Row.id r));
    ("site_id", VString (Row.site_id r));
    ("plant_id", VString (Row.plant_id r));
    ("tenant_id", VString (Row.tenant_id r));
    ("status", VString (Row.status r));
    ("snapshot", Row.snapshot r);
    ("created_at", VDate (Driver.date (Row.created_at r)));
    ("closed_at", match Row.closed_at r with
                  | Some t => VDate (Driver.date t)
                  | None => VNull
                  end);
    ("updated_at", VDate (Driver.date (Row.updated_at r))) ].

End Domain.

(* ===================================================================== *)
(** ** scripts/seedDatabase: [seed] *)
(* ===================================================================== *)

Module Seed.

(** One element of [generateSeedData()]; the three Dates by their
    [getTime()], in milliseconds. *)
Record record : Type := {
  id : string;
  siteId : string;
  plantId : string;
  tenantId : string;
  status : string;
  createdAt : Z;
  closedAt : option Z;
  updatedAt : Z;
  snapshot : value
}.

(** The [TIMESTAMPTZ] value of a Date parameter. *)
Definition timestamptz (ms : Z) : Z := 1000 * ms.

Fixpoint all_spaces (s : string) : bool :=
  match s with
  | String c s' => Ascii.eqb c " " && all_spaces s'
  | EmptyString => true
  end.

(** Assignment to a [VARCHAR(n)] column: a longer text is an error,
    unless all that exceeds [n] characters is spaces, which are cut off. *)
Definition varchar (n : nat) (s : string) : option string :=
  if (String.length s <=? n)%nat then Some s
  else if all_spaces (substring n (String.length s - n) s)
       then Some (substring 0 n s)
       else None.

(** The row the [VALUES] list proposes.  [jsonb v] is what the [JSONB]
    column holds once the text [JSON.stringify(v)] is stored ([None] when
    the engine refuses the text). *)
Definition proposed (rt : Runtime) (jsonb : value -> option value)
  (rec : record) : option Row.t :=
  match uuid_in rt (id rec), varchar 255 (siteId rec),
        varchar 255 (plantId rec), varchar 255 (tenantId rec),
        varchar 50 (status rec), jsonb (snapshot rec) with
  | Some uuid, Some site, Some plant, Some tenant, Some st, Some doc =>
      Some {| Row.id := uuid; Row.site_id := site; Row.plant_id := plant;
              Row.tenant_id := tenant; Row.status := st;
              Row.snapshot := doc;
              Row.created_at := timestamptz (createdAt rec);
              Row.closed_at := option_map timestamptz (closedAt rec);
              Row.updated_at := timestamptz (updatedAt rec) |}
  | _, _, _, _, _, _ => None
  end.

(** [DO UPDATE SET snapshot = EXCLUDED.snapshot,
    updated_at = EXCLUDED.updated_at] *)
Definition do_update (excluded : Row.t) (r : Row.t) : Row.t :=
  {| Row.id := Row.id r; Row.site_id := Row.site_id r;
     Row.plant_id := Row.plant_id r; Row.tenant_id := Row.tenant_id r;
     Row.status := Row.status r; Row.snapshot := Row.snapshot excluded;
     Row.created_at := Row.created_at r; Row.closed_at := Row.closed_at r;
     Row.updated_at := Row.updated_at excluded |}.

(** [INSERT INTO execution_protocols ... ON CONFLICT (id) DO UPDATE ...]
    for one record. *)
Definition insert (rt : Runtime) (jsonb : value -> option value)
  (db : table) (rec : record) : outcome table :=
  match proposed rt jsonb rec with
  | Some row =>
      if existsb (fun r => (Row.id r =? Row.id row)%string) db
      then Fulfilled
             (map (fun r => if (Row.id r =? Row.id row)%string
                            then do_update row r else r) db)
      else Fulfilled (db ++ [row])%list
  | None => Rejected "insert failed"
  end.

(** Reading a property of [undefined] or [null] throws a [TypeError]. *)
Definition nullish (v : value) : bool :=
  match v with
  | VUndefined | VNull => true
  | _ => false
  end.

(** The log line that follows each insert.  It reads
    [record.snapshot.site.name] and [record.snapshot.plant.name], and so
    throws when the snapshot, its [site] or its [plant] is [undefined] or
    [null]. *)
Definition log_line (rec : record) : outcome unit :=
  if nullish (snapshot rec)
     || nullish (get "site" (snapshot rec))
     || nullish (get "plant" (snapshot rec))
  then Rejected "TypeError: Cannot read properties of undefined"
  else Fulfilled tt.

(** The loop over [seedData]. *)
Fixpoint insert_all (rt : Runtime) (jsonb : value -> option value)
  (db : table) (seedData : list record) : outcome table :=
  match seedData with
  | [] => Fulfilled db
  | rec :: rest =>
      let* db' := insert rt jsonb db rec in
      let* logged := log_line rec in
      insert_all rt jsonb db' rest
  end.

(** What follows [COMMIT] inside the [try]: the summary query, which only
    reads the table, and a last log line that reads [seedData[0].id] and
    so throws when there is no first record. *)
Definition summary (seedData : list record) : outcome unit :=
  match seedData with
  | [] => Rejected "TypeError: Cannot read properties of undefined"
  | _ :: _ => Fulfilled tt
  end.

(** [seed()] on the records [generateSeedData()] returns: [BEGIN],
    [DELETE FROM execution_protocols], the inserts with their log lines,
    [COMMIT], the summary; on an error [ROLLBACK], and the error is
    thrown again.  The result is the table [seed] leaves and the way its
    promise settles: an error inside the loop leaves the table as it
    was, an error after [COMMIT] leaves the committed table, since the
    [ROLLBACK] of the [catch] then has no transaction to undo. *)
Definition seed (rt : Runtime) (jsonb : value -> option value)
  (seedData : list record) (db : table) : table * outcome unit :=
  match insert_all rt jsonb [] seedData with
  | Fulfilled seeded => (seeded, summary seedData)
  | Rejected e => (db, Rejected e)
  end.

End Seed.

(* ===================================================================== *)
(** ** models/protocolExecution and controllers/protocolExecutionController *)
(* ===================================================================== *)

Module Executions.

(** A row of the table [protocol_executions].  Its timestamps are held as
    the driver reads them, as Dates: the code only hands them on, it
    never compares them. *)
Record row : Type := {
  id : string;
  protocol_id : string;
  site_id : string;
  tenant_id : string;
  status : string;
  created_at : Z;
  updated_at : Z
}.

(** [id UUID PRIMARY KEY] *)
Definition keyed (db : list row) : Prop := NoDup (map id db).

(** [create({ id, protocolId, siteId, tenantId })]: the [INSERT] with
    status ['initialized'], [RETURNING *].  [now] is the engine's [NOW()]
    as the driver reads it back.
    An [undefined] tenant is sent as [NULL], which the column refuses, and
    so is an id the table already holds.  The result is the table and
    [result.rows[0]]. *)
Definition create (rt : Runtime) (now : Z) (db : list row)
  (id' protocolId siteId : string) (tenantId : option string)
  : outcome (list row * row) :=
  match uuid_in rt id', Seed.varchar 255 protocolId,
        Seed.varchar 255 siteId, tenantId with
  | Some uuid, Some protocol, Some site, Some tenant =>
      match Seed.varchar 255 tenant with
      | Some tenant' =>
          if existsb (fun r => (id r =? uuid)%string) db
          then Rejected "duplicate key value violates unique constraint"
          else
            let inserted :=
              {| id := uuid; protocol_id := protocol; site_id := site;
                 tenant_id := tenant'; status := "initialized";
                 created_at := now; updated_at := now |} in
            Fulfilled ((db ++ [inserted])%list, inserted)
      | None => Rejected "value too long for type character varying(255)"
      end
  | _, _, _, _ => Rejected "insert failed"
  end.

(** [SET status = $1, updated_at = NOW()] *)
Definition set_status (st : string) (now : Z) (r : row) : row :=
  {| id := id r; protocol_id := protocol_id r; site_id := site_id r;
     tenant_id := tenant_id r; status := st; created_at := created_at r;
     updated_at := now |}.

(** [updateStatus(id, status)]: the [UPDATE ... WHERE id = $2
    RETURNING *]; the result is the table and [result.rows[0]], which is
    [undefined] ([None]) when no row has the id. *)
Definition updateStatus (rt : Runtime) (now : Z) (db : list row)
  (id' status' : string) : outcome (list row * option row) :=
  match uuid_in rt id', Seed.varchar 50 status' with
  | Some uuid, Some st =>
      let db' := map (fun r => if (id r =? uuid)%string
                               then set_status st now r else r) db in
      Fulfilled (db', find (fun r => (id r =? uuid)%string) db')
  | _, _ => Rejected "update failed"
  end.

(** What [createExecution] reads of the request: three fields of the
    body (strings, or left out) and [req.tenantId]. *)
Record request : Type := {
  protocolId : option string;
  siteId : option string;
  webhookUrl : option string;
  tenantId : option string
}.

(** A call of [setTimeout]: the delay, the status the callback sets, and
    the name under which its webhook reports the time. *)
Record timer : Type := {
  delay : Z;
  next_status : string;
  time_key : string
}.

(** [if (webhookUrl)] *)
Definition truthy_webhook (webhookUrl : option string) : bool :=
  match webhookUrl with
  | Some url => truthy (VString url)
  | None => false
  end.

(** [createExecution(req, res)], given the id [uuidv4()] drew and the
    engine's clock: the response, the table afterwards, and the timers
    set. *)
Definition createExecution (rt : Runtime) (uuidv4 : string) (now : Z)
  (db : list row) (req : request) : response * list row * list timer :=
  match protocolId req, siteId req with
  | Some protocol, Some site =>
      if negb (truthy (VString protocol)) || negb (truthy (VString site))
      then (Auth.error_only 400
              "Missing required fields: protocolId, siteId", db, [])
      else
        match create rt now db uuidv4 protocol site (tenantId req) with
        | Fulfilled (db', execution) =>
            ({| statusCode := 201;
                body :=
                  VObject
                    [ ("executionId", VString (id execution));
                      ("status", VString (status execution));
                      ("tenantId", VString (tenant_id execution));
                      ("createdAt", VDate (created_at execution)) ] |},
             db',
             if truthy_webhook (webhookUrl req)
             then [ {| delay := 2000; next_status := "in_progress";
                       time_key := "updatedAt" |};
                    {| delay := 5000; next_status := "completed";
                       time_key := "completedAt" |} ]
             else [])
        | Rejected _ =>
            (Auth.error_only 500 "Internal server error", db, [])
        end
  | _, _ =>
      (Auth.error_only 400 "Missing required fields: protocolId, siteId",
       db, [])
  end.

(** [process.env.WEBHOOK_SECRET || "whsec_proto_default"] *)
Definition WEBHOOK_SECRET (env : option string) : string :=
  match env with
  | Some secret => if truthy (VString secret) then secret
                   else "whsec_proto_default"
  | None => "whsec_proto_default"
  end.

(** The request [sendWebhook] makes with [fetch]: the URL, the header
    [X-Webhook-Signature] and the body. *)
Record webhook : Type := {
  url : string;
  signature : string;
  content : string
}.

(** [signPayload(payload)]: the HMAC-SHA256 of [JSON.stringify(payload)]
    under the secret, in hexadecimal.  [hmac] and [stringify] are the
    runtime's. *)
Definition signPayload (hmac : string -> string -> string)
  (stringify : value -> string) (secret : string) (payload : value)
  : string :=
  hmac secret (stringify payload).

Definition sendWebhook (hmac : string -> string -> string)
  (stringify : value -> string) (secret : string) (url' : string)
  (payload : value) : webhook :=
  {| url := url';
     signature := "sha256=" ++ signPayload hmac stringify secret payload;
     content := stringify payload |}.

(** The callback of a timer for the execution [id']: the status update,
    then the webhook about the updated row.  Without a row,
    [updated.id] throws, the error is logged and no webhook is sent; so
    when the update is rejected. *)
Definition on_timer (rt : Runtime) (hmac : string -> string -> string)
  (stringify : value -> string) (secret : string) (now : Z)
  (db : list row) (id' url' : string) (t : timer)
  : list row * option webhook :=
  match updateStatus rt now db id' (next_status t) with
  | Fulfilled (db', Some updated) =>
      (db',
       Some (sendWebhook hmac stringify secret url'
               (VObject
                  [ ("executionId", VString (id updated));
                    ("status", VString (status updated));
                    ("tenantId", VString (tenant_id updated));
                    (time_key t, VDate (updated_at updated)) ])))
  | Fulfilled (db', None) => (db', None)
  | Rejected _ => (db, None)
  end.

End Executions.

(* ===================================================================== *)
(** ** The local constants of [getAllForPolling], by name *)
(* ===================================================================== *)

Module Polling.

(** [limit = 50] and [offset = 0] when the argument leaves them out. *)
Definition limit (o : Opts.t) : Z :=
  match Opts.limit o with Some l => l | None => 50 end.

Definition offset (o : Opts.t) : Z :=
  match Opts.offset o with Some n => n | None => 0 end.

(** [const cappedLimit = Math.min(limit, 100)] *)
Definition cappedLimit (o : Opts.t) : Z := Z.min (limit o) 100.

(** The rows, in order, that the first query selects before [LIMIT] and
    [OFFSET] cut the page out of them. *)
Definition ordered (db : table) (o : Opts.t) (after : option Z)
  : list Row.t :=
  Postgres.order_by_updated_at
    (Postgres.matching db (Opts.tenantId o) after).

End Polling.

(* ===================================================================== *)
(** ** The filter of the list, in the words of the specification *)
(* ===================================================================== *)

Module Spec.

(** A stored record matches when it is the tenant's, is [CLOSED] and, if
    a cursor is supplied, was updated strictly after it. *)
Definition matches (tenantId : string) (cursor : option Z) (r : Row.t)
  : Prop :=
  Row.tenant_id r = tenantId
  /\ Row.status r = "CLOSED"
  /\ match cursor with
     | Some t => t < Row.updated_at r
     | None => True
     end.

Definition matches_dec (tenantId : string) (cursor : option Z) (r : Row.t)
  : {matches tenantId cursor r} + {~ matches tenantId cursor r}.
Proof.
  unfold matches.
  destruct (string_dec (Row.tenant_id r) tenantId); [|right; tauto].
  destruct (string_dec (Row.status r) "CLOSED"); [|right; tauto].
  destruct cursor as [t|]; [|left; tauto].
  destruct (Z_lt_dec t (Row.updated_at r)); [left|right]; tauto.
Defined.

(** The count of all stored records that match. *)
Fixpoint count (tenantId : string) (cursor : option Z) (db : table) : nat :=
  match db with
  | [] => 0
  | r :: rest =>
      ((if matches_dec tenantId cursor r then 1 else 0)
       + count tenantId cursor rest)%nat
  end.

End Spec.

(* ===================================================================== *)
(** ** A runtime and a table to run the model on *)
(* ===================================================================== *)

(** One instance of [Runtime]: it reads the timestamps of the form
    [YYYY-MM-DDTHH:MM:SSZ] ([iso_timestamp] gives the milliseconds since
    the epoch, the engine holds a thousand times as much) and the
    identifiers written as five groups of hexadecimal digits, and rejects
    every other text.  The seed script's rows are given with it.  The
    properties below are proved for every [Runtime]; this one only serves
    to evaluate the model on concrete requests. *)
Module Sample.

Fixpoint take_digits (n : nat) (s : string) (acc : Z) : option (Z * string) :=
  match n with
  | O => Some (acc, s)
  | S n' =>
      match s with
      | String c s' =>
          match digit_of c with
          | Some d => take_digits n' s' (10 * acc + d)
          | None => None
          end
      | EmptyString => None
      end
  end.

Definition expect (c : ascii) (s : string) : option string :=
  match s with
  | String c' s' => if Ascii.eqb c c' then Some s' else None
  | EmptyString => None
  end.

Definition is_leap (y : Z) : bool :=
  ((y mod 4 =? 0) && negb (y mod 100 =? 0)) || (y mod 400 =? 0).

Definition days_in_month (y m : Z) : Z :=
  if m =? 2 then (if is_leap y then 29 else 28)
  else if (m =? 4) || (m =? 6) || (m =? 9) || (m =? 11) then 30
  else 31.

(** Days since 1970-01-01 of a date of the proleptic Gregorian calendar. *)
Definition days_from_civil (y m d : Z) : Z :=
  let y' := if m <=? 2 then y - 1 else y in
  let era := y' / 400 in
  let yoe := y' - era * 400 in
  let mp := (m + 9) mod 12 in
  let doy := (153 * mp + 2) / 5 + d - 1 in
  let doe := yoe * 365 + yoe / 4 - yoe / 100 + doy in
  era * 146097 + doe - 719468.

Definition bindo {A B} (m : option A) (k : A -> option B) : option B :=
  match m with
  | Some a => k a
  | None => None
  end.

Definition iso_timestamp (s : string) : option Z :=
  bindo (take_digits 4 s 0) (fun '(y, s) =>
  bindo (expect "-" s) (fun s =>
  bindo (take_digits 2 s 0) (fun '(mo, s) =>
  bindo (expect "-" s) (fun s =>
  bindo (take_digits 2 s 0) (fun '(d, s) =>
  bindo (expect "T" s) (fun s =>
  bindo (take_digits 2 s 0) (fun '(h, s) =>
  bindo (expect ":" s) (fun s =>
  bindo (take_digits 2 s 0) (fun '(mi, s) =>
  bindo (expect ":" s) (fun s =>
  bindo (take_digits 2 s 0) (fun '(sec, s) =>
  bindo (expect "Z" s) (fun s =>
    match s with
    | EmptyString =>
        if (1 <=? mo) && (mo <=? 12) && (1 <=? d)
           && (d <=? days_in_month y mo)
           && (h <? 24) && (mi <? 60) && (sec <? 60)
        then Some ((((days_from_civil y mo d * 24 + h) * 60 + mi) * 60
                    + sec) * 1000)
        else None
    | _ => None
    end)))))))))))).

Definition lower (c : ascii) : ascii :=
  let n := nat_of_ascii c in
  if ((65 <=? n) && (n <=? 90))%nat then ascii_of_nat (n + 32) else c.

Fixpoint lowercase (s : string) : string :=
  match s with
  | String c s' => String (lower c) (lowercase s')
  | EmptyString => EmptyString
  end.

Definition any_uuid : list cls :=
  (repeat Hex 8 ++ [Lit "-"] ++ repeat Hex 4 ++ [Lit "-"] ++ repeat Hex 4
   ++ [Lit "-"] ++ repeat Hex 4 ++ [Lit "-"] ++ repeat Hex 12)%list.

Definition uuid (s : string) : option string :=
  if test any_uuid s then Some (lowercase s) else None.

(** The column value of a Date of [ms] milliseconds. *)
Definition at_ms (ms : Z) : Z := 1000 * ms.

Definition runtime : Runtime :=
  {| Date_getTime := iso_timestamp;
     uuid_in := uuid;
     timestamptz_in := fun s => option_map at_ms (iso_timestamp s) |}.

(** [baseDate], 2026-02-01T00:00:00Z, and one day, in milliseconds. *)
Definition baseDate : Z := 1769904000000.
Definition day : Z := 86400000.

Definition seeded (n : string) (site plant tenant : string)
  (created closed : Z) (days : Z) : Row.t :=
  let id := "550e8400-e29b-41d4-a716-44665544000" ++ n in
  {| Row.id := id;
     Row.site_id := site;
     Row.plant_id := plant;
     Row.tenant_id := tenant;
     Row.status := "CLOSED";
     Row.snapshot :=
       VObject [ ("id", VString id); ("status", VString "CLOSED");
                 ("site", VObject [("id", VString site)]);
                 ("plant", VObject [("id", VString plant)]) ];
     Row.created_at := at_ms created;
     Row.closed_at := Some (at_ms closed);
     Row.updated_at := at_ms (baseDate + days * day) |}.

Definition acme1 : Row.t :=
  seeded "1" "L3" "T17" "tenant-acme" 1768464000000 1768473000000 1.
Definition acme2 : Row.t :=
  seeded "2" "L3" "T18" "tenant-acme" 1769936400000 1769946300000 5.
Definition globex3 : Row.t :=
  seeded "3" "L5" "T22" "tenant-globex" 1770732000000 1770736800000 10.
Definition acme4 : Row.t :=
  seeded "4" "L8" "T31" "tenant-acme" 1770890400000 1770898500000 12.
Definition globex5 : Row.t :=
  seeded "5" "L5" "T23" "tenant-globex" 1771057800000 1771063200000 14.

(** The table after [generateSeedData] was inserted. *)
Definition seedData : table := [acme1; acme2; globex3; acme4; globex5].

(** A row that is still open, and two rows of one tenant whose
    [updated_at] tie. *)
Definition open6 : Row.t :=
  {| Row.id := "550e8400-e29b-41d4-a716-446655440006";
     Row.site_id := "L3"; Row.plant_id := "T19";
     Row.tenant_id := "tenant-acme"; Row.status := "IN_PROGRESS";
     Row.snapshot := VObject [("status", VString "IN_PROGRESS")];
     Row.created_at := at_ms baseDate; Row.closed_at := None;
     Row.updated_at := at_ms (baseDate + 20 * day) |}.

Definition tieA : Row.t :=
  seeded "7" "L3" "T17" "tenant-acme" baseDate baseDate 3.
Definition tieB : Row.t :=
  seeded "8" "L3" "T18" "tenant-acme" baseDate baseDate 3.


Definition repository (db : table) : ExecutionProtocolRepository :=
  PostgresExecutionProtocolRepository runtime db.

(** An authenticated request of tenant [tenant]. *)
Definition list_request (tenant : string)
  (updatedAfter limit offset : option string) : Req.t :=
  {| Req.tenantId := Some tenant; Req.id := "";
     Req.updatedAfter := updatedAfter; Req.limit := limit;
     Req.offset := offset |}.

Definition snapshot_request (tenant : option string) (id : string) : Req.t :=
  {| Req.tenantId := tenant; Req.id := id;
     Req.updatedAfter := None; Req.limit := None; Req.offset := None |}.

Definition polling (tenant : string) (updatedAfter : option string)
  (limit offset : option Z) : Opts.t :=
  {| Opts.tenantId := tenant; Opts.updatedAfter := updatedAfter;
     Opts.limit := limit; Opts.offset := offset |}.

(** The identifiers of a page, in order. *)
Definition ids (p : outcome Page.t) : list string :=
  match p with
  | Fulfilled page => map ExecutionProtocol.id (Page.data page)
  | Rejected _ => []
  end.

End Sample.

(** A [JSON.parse] for the configurations used below: the default text,
    the one of the setup guide, and three texts that are JSON but no
    object; and the two names of [Array.prototype] that are used. *)
Module SampleAuth.

(** A string in double quotes. *)
Definition quoted (s : string) : string :=
  String (ascii_of_nat 34) (s ++ String (ascii_of_nat 34) "").

(** The text of [API_KEYS] in the setup guide: two keys, two tenants. *)
Definition API_KEYS : string :=
  "{" ++ quoted "test-key-acme" ++ ":" ++ quoted "tenant-acme" ++ ","
  ++ quoted "test-key-globex" ++ ":" ++ quoted "tenant-globex" ++ "}".

Definition JSON_parse (text : string) : Auth.parsed :=
  if (text =? "{}")%string then Auth.Object []
  else if (text =? API_KEYS)%string then
    Auth.Object [ ("test-key-acme", VString "tenant-acme");
                  ("test-key-globex", VString "tenant-globex") ]
  else if (text =? quoted "abc")%string then Auth.Text "abc"
  else if (text =? "[]")%string then Auth.Array []
  else if (text =? "null")%string then Auth.Null
  else Auth.SyntaxError.

Definition builtin (v : Auth.parsed) (name : string) : bool :=
  match v with
  | Auth.Array _ => (name =? "map")%string || (name =? "filter")%string
  | _ => false
  end.

End SampleAuth.

(** The records the sample table was seeded from, and an engine that
    stores every document as it is. *)
Module SampleSeed.

Definition record_of (r : Row.t) : Seed.record :=
  {| Seed.id := Row.id r; Seed.siteId := Row.site_id r;
     Seed.plantId := Row.plant_id r; Seed.tenantId := Row.tenant_id r;
     Seed.status := Row.status r; Seed.createdAt := Row.created_at r / 1000;
     Seed.closedAt := option_map (fun t => t / 1000) (Row.closed_at r);
     Seed.updatedAt := Row.updated_at r / 1000;
     Seed.snapshot := Row.snapshot r |}.

Definition seedData : list Seed.record := map record_of Sample.seedData.

Definition jsonb (v : value) : option value := Some v.

End SampleSeed.

(** A request to create an execution, and stand-ins for the runtime's
    [JSON.stringify] and HMAC that keep their arguments readable. *)
Module SampleExecutions.

Definition request : Executions.request :=
  {| Executions.protocolId := Some "VIS-4";
     Executions.siteId := Some "L3";
     Executions.webhookUrl := Some "http://localhost:4001/webhook-receiver";
     Executions.tenantId := Some "tenant-acme" |}.

Definition uuidv4 : string := "550e8400-e29b-41d4-a716-446655440009".

Definition stringify (v : value) : string :=
  match get "status" v with
  | VString st => st
  | _ => ""
  end.

Definition hmac (secret message : string) : string :=
  secret ++ ":" ++ message.

Definition created : Executions.row :=
  {| Executions.id := uuidv4; Executions.protocol_id := "VIS-4";
     Executions.site_id := "L3"; Executions.tenant_id := "tenant-acme";
     Executions.status := "initialized"; Executions.created_at := 10;
     Executions.updated_at := 10 |}.

End SampleExecutions.

(** Splits a goal on the 256 characters and computes each case. *)
Ltac each_ascii c :=
  destruct c as [[] [] [] [] [] [] [] []]; reflexivity.

(* ===================================================================== *)
(** * Properties *)
(* ===================================================================== *)

Open Scope list_scope.

(** ** Lists, filters and pages *)

Lemma filter_without {A} (f : A -> bool) (pre post : list A) (x : A) :
  f x = false -> filter f (pre ++ x :: post) = filter f (pre ++ post).
Proof.
  intros Hx. rewrite !filter_app. simpl. now rewrite Hx.
Qed.

Lemma in_firstn {A} (n : nat) (l : list A) (x : A) :
  In x (firstn n l) -> In x l.
Proof.
  intros H. rewrite <- (firstn_skipn n l). apply in_or_app. now left.
Qed.

Lemma in_skipn {A} (n : nat) (l : list A) (x : A) :
  In x (skipn n l) -> In x l.
Proof.
  intros H. rewrite <- (firstn_skipn n l). apply in_or_app. now right.
Qed.

Lemma in_page {A} (n m : nat) (l : list A) (x : A) :
  In x (firstn n (skipn m l)) -> In x l.
Proof.
  intros H. eapply in_skipn, in_firstn, H.
Qed.

(** A key that is unique in a list identifies its element. *)
Lemma NoDup_map_eq {A B} (f : A -> B) (l : list A) (x y : A) :
  NoDup (map f l) -> In x l -> In y l -> f x = f y -> x = y.
Proof.
  induction l as [|a l IH]; simpl; intros Hnd Hx Hy Hf; [contradiction|].
  inversion Hnd as [|? ? Hnotin Hnd']; subst.
  destruct Hx as [->|Hx], Hy as [->|Hy]; auto.
  - exfalso. apply Hnotin. rewrite Hf. now apply in_map.
  - exfalso. apply Hnotin. rewrite <- Hf. now apply in_map.
Qed.

(** ** Dates *)

Lemma date_le (t : Z) : Driver.date t <= t.
Proof.
  unfold Driver.date. apply Z.mul_div_le. lia.
Qed.






(** ** [ORDER BY updated_at ASC] *)

Lemma insert_by_updated_at_perm (r : Row.t) (l : list Row.t) :
  Permutation (Postgres.insert_by_updated_at r l) (r :: l).
Proof.
  induction l as [|x l IH]; simpl; [reflexivity|].
  destruct (Row.updated_at r <=? Row.updated_at x); [reflexivity|].
  rewrite IH. apply perm_swap.
Qed.

Lemma order_by_updated_at_perm (l : list Row.t) :
  Permutation (Postgres.order_by_updated_at l) l.
Proof.
  induction l as [|x l IH]; simpl; [reflexivity|].
  rewrite insert_by_updated_at_perm. now apply perm_skip.
Qed.

Lemma insert_by_updated_at_sorted (r : Row.t) (l : list Row.t) :
  StronglySorted Postgres.le_updated_at l ->
  StronglySorted Postgres.le_updated_at (Postgres.insert_by_updated_at r l).
Proof.
  induction 1 as [|x l Hs IH Hall]; simpl.
  - constructor; constructor.
  - destruct (Row.updated_at r <=? Row.updated_at x) eqn:E.
    + apply Z.leb_le in E. constructor.
      * now constructor.
      * constructor; [exact E|].
        eapply Forall_impl; [|exact Hall].
        unfold Postgres.le_updated_at. intros; lia.
    + apply Z.leb_gt in E. constructor; [exact IH|].
      eapply Permutation_Forall.
      * symmetry. apply insert_by_updated_at_perm.
      * constructor; [unfold Postgres.le_updated_at; lia | exact Hall].
Qed.

Lemma order_by_updated_at_sorted (l : list Row.t) :
  StronglySorted Postgres.le_updated_at (Postgres.order_by_updated_at l).
Proof.
  induction l as [|x l IH]; simpl.
  - constructor.
  - now apply insert_by_updated_at_sorted.
Qed.

Lemma in_order_by_updated_at (l : list Row.t) (r : Row.t) :
  In r (Postgres.order_by_updated_at l) <-> In r l.
Proof.
  split; apply Permutation_in;
    [|symmetry]; apply order_by_updated_at_perm.
Qed.



(** Two sorted arrangements of the same rows agree when the order leaves
    no two of them tied. *)
Lemma StronglySorted_unique {A} (R : A -> A -> Prop) (l1 l2 : list A) :
  (forall x y, In x l1 -> In y l1 -> R x y -> R y x -> x = y) ->
  StronglySorted R l1 -> StronglySorted R l2 -> Permutation l1 l2 ->
  l1 = l2.
Proof.
  intros Hanti H1. revert l2. induction H1 as [|a l1 Hs1 IH Hall1];
    intros l2 H2 Hp.
  - now apply Permutation_nil in Hp.
  - destruct H2 as [|b l2 Hs2 Hall2].
    + symmetry in Hp. now apply Permutation_nil in Hp.
    + assert (Hab : a = b).
      { assert (Ha : In a (b :: l2))
          by (eapply Permutation_in; [exact Hp | now left]).
        assert (Hb : In b (a :: l1))
          by (eapply Permutation_in; [symmetry; exact Hp | now left]).
        rewrite Forall_forall in Hall1, Hall2.
        destruct Ha as [Ha|Ha]; [now symmetry|].
        destruct Hb as [Hb|Hb]; [exact Hb|].
        apply Hanti; [now left | now right | now apply Hall1
                     | now apply Hall2]. }
      subst b. f_equal. apply IH; auto.
      * intros x y Hx Hy. apply Hanti; now right.
      * eapply Permutation_cons_inv, Hp.
Qed.

(** ** The repository over a table *)

Section Repository.

Variable rt : Runtime.

Lemma polling_where_true (tenantId : string) (after : option Z) (r : Row.t) :
  Postgres.polling_where tenantId after r = true <->
  Row.tenant_id r = tenantId /\ Row.status r = "CLOSED"
  /\ (forall t, after = Some t -> t < Row.updated_at r).
Proof.
  unfold Postgres.polling_where.
  rewrite !andb_true_iff, !String.eqb_eq.
  destruct after as [t|].
  - rewrite Z.ltb_lt. split.
    + intros [[H1 H2] H3]. repeat split; auto. now intros t' [= <-].
    + intros (H1 & H2 & H3). auto.
  - split.
    + intros [[H1 H2] _]. repeat split; auto. discriminate.
    + intros (H1 & H2 & _). auto.
Qed.

Lemma by_id_where_true (uuid tenantId : string) (r : Row.t) :
  Postgres.by_id_where uuid tenantId r = true <->
  Row.id r = uuid /\ Row.tenant_id r = tenantId /\ Row.status r = "CLOSED".
Proof.
  unfold Postgres.by_id_where.
  rewrite !andb_true_iff, !String.eqb_eq. tauto.
Qed.

Lemma in_matching (db : table) (tenantId : string) (after : option Z)
  (r : Row.t) :
  In r (Postgres.matching db tenantId after) <->
  In r db /\ Row.tenant_id r = tenantId /\ Row.status r = "CLOSED"
  /\ (forall t, after = Some t -> t < Row.updated_at r).
Proof.
  unfold Postgres.matching. now rewrite filter_In, polling_where_true.
Qed.

Lemma bigint_true (z : Z) :
  Postgres.bigint z = true <-> - 2 ^ 63 <= z < 2 ^ 63.
Proof.
  unfold Postgres.bigint. rewrite andb_true_iff, Z.leb_le, Z.ltb_lt. tauto.
Qed.

(** The page is cut out exactly when both counts are [bigint]s that are
    not negative. *)
Lemma limit_offset_inv (lim off : Z) (rows out : list Row.t) :
  Postgres.limit_offset lim off rows = Fulfilled out ->
  0 <= lim < 2 ^ 63 /\ 0 <= off < 2 ^ 63
  /\ out = firstn (Z.to_nat lim) (skipn (Z.to_nat off) rows).
Proof.
  unfold Postgres.limit_offset.
  destruct (Postgres.bigint lim) eqn:Bl; [|discriminate].
  destruct (Postgres.bigint off) eqn:Bo; [|discriminate]. simpl.
  apply bigint_true in Bl, Bo.
  destruct (off <? 0) eqn:E1; [discriminate|].
  destruct (lim <? 0) eqn:E2; [discriminate|].
  apply Z.ltb_ge in E1, E2. intros [= <-]. repeat split; lia.
Qed.

Lemma limit_offset_fulfilled (lim off : Z) (rows : list Row.t) :
  0 <= lim < 2 ^ 63 -> 0 <= off < 2 ^ 63 ->
  Postgres.limit_offset lim off rows
  = Fulfilled (firstn (Z.to_nat lim) (skipn (Z.to_nat off) rows)).
Proof.
  intros Hl Ho. unfold Postgres.limit_offset.
  assert (Bl : Postgres.bigint lim = true) by (apply bigint_true; lia).
  assert (Bo : Postgres.bigint off = true) by (apply bigint_true; lia).
  rewrite Bl, Bo. simpl.
  destruct (off <? 0) eqn:E1; [apply Z.ltb_lt in E1; lia|].
  destruct (lim <? 0) eqn:E2; [apply Z.ltb_lt in E2; lia|].
  reflexivity.
Qed.

(** The query fails exactly on a count that is negative or no [bigint]. *)
Lemma limit_offset_rejected (lim off : Z) (rows : list Row.t) :
  (exists e, Postgres.limit_offset lim off rows = Rejected e)
  <-> lim < 0 \/ off < 0 \/ 2 ^ 63 <= lim \/ 2 ^ 63 <= off.
Proof.
  split.
  - intros [e He].
    destruct (Z_lt_dec lim 0); [tauto|]. destruct (Z_lt_dec off 0); [tauto|].
    destruct (Z_le_dec (2 ^ 63) lim); [tauto|].
    destruct (Z_le_dec (2 ^ 63) off); [tauto|].
    rewrite limit_offset_fulfilled in He by lia. discriminate.
  - intros H.
    destruct (Postgres.limit_offset lim off rows) as [out|e] eqn:E;
      [|now exists e].
    apply limit_offset_inv in E. lia.
Qed.

Lemma limit_offset_in (lim off : Z) (rows out : list Row.t) (r : Row.t) :
  Postgres.limit_offset lim off rows = Fulfilled out -> In r out -> In r rows.
Proof.
  intros H. apply limit_offset_inv in H. destruct H as (_ & _ & ->).
  apply in_page.
Qed.

(** What a fulfilled [getAllForPolling] went through. *)
Lemma getAllForPolling_inv (db : table) (o : Opts.t) (page : Page.t) :
  Postgres.getAllForPolling rt db o = Fulfilled page ->
  exists after rows,
    Postgres.cursor rt (Opts.updatedAfter o) = Fulfilled after
    /\ Postgres.limit_offset
         (Z.min (match Opts.limit o with Some l => l | None => 50 end) 100)
         (match Opts.offset o with Some n => n | None => 0 end)
         (Postgres.order_by_updated_at
            (Postgres.matching db (Opts.tenantId o) after))
       = Fulfilled rows
    /\ Page.data page = map Postgres.listed rows
    /\ Page.total page
       = Z.of_nat (List.length (Postgres.matching db (Opts.tenantId o) after)).
Proof.
  unfold Postgres.getAllForPolling, bind.
  destruct (Postgres.cursor rt (Opts.updatedAfter o)) as [after|];
    [|discriminate].
  destruct (Postgres.limit_offset _ _ _) as [rows|] eqn:E; [|discriminate].
  intros [= <-]. exists after, rows. auto.
Qed.

(** Every entity of a page was built from a row of the table that the
    [WHERE] clause selects. *)
Lemma getAllForPolling_rows (db : table) (o : Opts.t) (page : Page.t)
  (p : ExecutionProtocol.t) :
  Postgres.getAllForPolling rt db o = Fulfilled page ->
  In p (Page.data page) ->
  exists after r,
    Postgres.cursor rt (Opts.updatedAfter o) = Fulfilled after
    /\ p = Postgres.listed r
    /\ In r (Postgres.matching db (Opts.tenantId o) after).
Proof.
  intros H Hp. apply getAllForPolling_inv in H.
  destruct H as (after & rows & Hc & Hl & Hd & _).
  rewrite Hd in Hp. apply in_map_iff in Hp. destruct Hp as (r & <- & Hr).
  exists after, r. repeat split; auto.
  apply in_order_by_updated_at. eapply limit_offset_in; eauto.
Qed.

(** The result depends on the table only through the selected rows. *)
Lemma getAllForPolling_ext (db db' : table) (o : Opts.t) :
  (forall after,
     Postgres.matching db (Opts.tenantId o) after
     = Postgres.matching db' (Opts.tenantId o) after) ->
  Postgres.getAllForPolling rt db o = Postgres.getAllForPolling rt db' o.
Proof.
  intros H. unfold Postgres.getAllForPolling, bind.
  destruct (Postgres.cursor rt (Opts.updatedAfter o)) as [after|]; auto.
  now rewrite H.
Qed.

Lemma select_by_id_ext (db db' : table) (id tenantId : string) :
  (forall uuid,
     filter (Postgres.by_id_where uuid tenantId) db
     = filter (Postgres.by_id_where uuid tenantId) db') ->
  Postgres.select_by_id rt db id tenantId
  = Postgres.select_by_id rt db' id tenantId.
Proof.
  intros H. unfold Postgres.select_by_id.
  destruct (uuid_in rt id); auto. now rewrite H.
Qed.

(** What a fulfilled single-record query found. *)
Lemma getSnapshotById_inv (db : table) (id tenantId : string) (v : value) :
  Postgres.getSnapshotById rt db id tenantId = Fulfilled v ->
  v = VNull
  \/ exists r, In r db /\ uuid_in rt id = Some (Row.id r)
               /\ Row.tenant_id r = tenantId /\ Row.status r = "CLOSED"
               /\ v = Row.snapshot r.
Proof.
  unfold Postgres.getSnapshotById, Postgres.select_by_id, bind.
  destruct (uuid_in rt id) as [uuid|]; [|discriminate].
  destruct (filter _ db) as [|r rest] eqn:E.
  - intros [= <-]. now left.
  - intros [= <-]. right. exists r.
    assert (Hr : In r (filter (Postgres.by_id_where uuid tenantId) db))
      by (rewrite E; now left).
    apply filter_In in Hr. destruct Hr as [Hin Hw].
    apply by_id_where_true in Hw. destruct Hw as (<- & Ht & Hs). auto.
Qed.

Lemma getById_inv (db : table) (id tenantId : string)
  (p : ExecutionProtocol.t) :
  Postgres.getById rt db id tenantId = Fulfilled (Some p) ->
  exists r, In r db /\ uuid_in rt id = Some (Row.id r)
            /\ Row.tenant_id r = tenantId /\ Row.status r = "CLOSED"
            /\ p = ExecutionProtocol.fromRepositoryData (Driver.row r).
Proof.
  unfold Postgres.getById, Postgres.select_by_id, bind.
  destruct (uuid_in rt id) as [uuid|]; [|discriminate].
  destruct (filter _ db) as [|r rest] eqn:E; [discriminate|].
  intros [= <-]. exists r.
  assert (Hr : In r (filter (Postgres.by_id_where uuid tenantId) db))
    by (rewrite E; now left).
  apply filter_In in Hr. destruct Hr as [Hin Hw].
  apply by_id_where_true in Hw. destruct Hw as (<- & Ht & Hs). auto.
Qed.

Lemma filter_nil {A} (f : A -> bool) (l : list A) :
  (forall x, In x l -> f x = false) -> filter f l = [].
Proof.
  induction l as [|a l IH]; simpl; intros H; [reflexivity|].
  rewrite (H a) by now left. apply IH. intros x Hx. apply H. now right.
Qed.

End Repository.

(** ** Isolation by tenant and by status *)

Section Isolation.

Variable rt : Runtime.

Lemma polling_where_other_tenant (R : Row.t) (tenantId : string)
  (after : option Z) :
  Row.tenant_id R <> tenantId ->
  Postgres.polling_where tenantId after R = false.
Proof.
  intros H. destruct (Postgres.polling_where tenantId after R) eqn:E; auto.
  apply polling_where_true in E. tauto.
Qed.

Lemma by_id_where_other_tenant (R : Row.t) (uuid tenantId : string) :
  Row.tenant_id R <> tenantId ->
  Postgres.by_id_where uuid tenantId R = false.
Proof.
  intros H. destruct (Postgres.by_id_where uuid tenantId R) eqn:E; auto.
  apply by_id_where_true in E. tauto.
Qed.

Lemma polling_where_not_closed (R : Row.t) (tenantId : string)
  (after : option Z) :
  Row.status R <> "CLOSED" ->
  Postgres.polling_where tenantId after R = false.
Proof.
  intros H. destruct (Postgres.polling_where tenantId after R) eqn:E; auto.
  apply polling_where_true in E. tauto.
Qed.

Lemma by_id_where_not_closed (R : Row.t) (uuid tenantId : string) :
  Row.status R <> "CLOSED" ->
  Postgres.by_id_where uuid tenantId R = false.
Proof.
  intros H. destruct (Postgres.by_id_where uuid tenantId R) eqn:E; auto.
  apply by_id_where_true in E. tauto.
Qed.

(** A row that no [WHERE] clause of a tenant selects can be taken out of
    the table without any operation of that tenant changing. *)
Lemma unselected_row_unobservable (pre post : table) (R : Row.t)
  (tenantId : string) :
  (forall after, Postgres.polling_where tenantId after R = false) ->
  (forall uuid, Postgres.by_id_where uuid tenantId R = false) ->
  (forall o, Opts.tenantId o = tenantId ->
     Postgres.getAllForPolling rt (pre ++ R :: post) o
     = Postgres.getAllForPolling rt (pre ++ post) o)
  /\ (forall id,
        Postgres.getById rt (pre ++ R :: post) id tenantId
        = Postgres.getById rt (pre ++ post) id tenantId)
  /\ (forall id,
        Postgres.getSnapshotById rt (pre ++ R :: post) id tenantId
        = Postgres.getSnapshotById rt (pre ++ post) id tenantId).
Proof.
  intros Hp Hi. split; [|split].
  - intros o <-. apply getAllForPolling_ext. intros after.
    unfold Postgres.matching. now apply filter_without.
  - intros id. unfold Postgres.getById.
    rewrite (select_by_id_ext rt (pre ++ R :: post) (pre ++ post)); auto.
    intros uuid. now apply filter_without.
  - intros id. unfold Postgres.getSnapshotById.
    rewrite (select_by_id_ext rt (pre ++ R :: post) (pre ++ post)); auto.
    intros uuid. now apply filter_without.
Qed.

(** The controller's handlers see the table only through the repository
    calls made for the request's tenant. *)
Lemma run_getAllForPolling_ext (db db' : table) (req : Req.t) :
  (forall o, Some (Opts.tenantId o) = Req.tenantId req ->
     Postgres.getAllForPolling rt db o = Postgres.getAllForPolling rt db' o) ->
  run (PostgresExecutionProtocolRepository rt db)
      (Controller.getAllForPolling rt req)
  = run (PostgresExecutionProtocolRepository rt db')
      (Controller.getAllForPolling rt req).
Proof.
  intros H. unfold Controller.getAllForPolling.
  destruct (Req.tenantId req) as [tenantId|]; [|reflexivity].
  destruct (negb (truthy (VString tenantId))); [reflexivity|].
  destruct (Controller.invalid_cursor rt (Req.updatedAfter req));
    [reflexivity|].
  simpl. rewrite H by reflexivity.
  now destruct (Postgres.getAllForPolling rt db' _).
Qed.

Lemma run_getSnapshotById_ext (db db' : table) (req : Req.t) :
  (forall tenantId, Some tenantId = Req.tenantId req ->
     Postgres.getSnapshotById rt db (Req.id req) tenantId
     = Postgres.getSnapshotById rt db' (Req.id req) tenantId) ->
  run (PostgresExecutionProtocolRepository rt db)
      (Controller.getSnapshotById req)
  = run (PostgresExecutionProtocolRepository rt db')
      (Controller.getSnapshotById req).
Proof.
  intros H. unfold Controller.getSnapshotById.
  destruct (Req.tenantId req) as [tenantId|]; [|reflexivity].
  destruct (negb (truthy (VString tenantId))); [reflexivity|].
  destruct (negb (isValidUUID (Req.id req))); [reflexivity|].
  simpl. rewrite H by reflexivity.
  destruct (Postgres.getSnapshotById rt db' _ _) as [v|]; [|reflexivity].
  now destruct (negb (truthy v)).
Qed.

(** C1. Tenant isolation: a row [R] owned by another tenant than [T2] is
    never part of what the list operation returns under [T2] and the
    snapshot lookup of its identifier under [T2] reports the uniform
    not-found outcome; the repository and the controller answer [T2]
    exactly as they do on the table without [R], so nothing reveals that
    [R] exists. *)
Theorem tenant_isolation :
  forall (pre post : table) (R : Row.t) (T2 : string),
    Row.tenant_id R <> T2 ->
    primary_key (pre ++ R :: post) ->
    let db := (pre ++ R :: post)%list in
    let without := (pre ++ post)%list in
    (* the repository's list *)
    (forall o, Opts.tenantId o = T2 ->
       Postgres.getAllForPolling rt db o
       = Postgres.getAllForPolling rt without o
       /\ forall page p,
            Postgres.getAllForPolling rt db o = Fulfilled page ->
            In p (Page.data page) ->
            ExecutionProtocol.id p <> Row.id R)
    (* the repository's snapshot lookup *)
    /\ (forall id,
          Postgres.getSnapshotById rt db id T2
          = Postgres.getSnapshotById rt without id T2
          /\ (uuid_in rt id = Some (Row.id R) ->
              Postgres.getSnapshotById rt db id T2 = Fulfilled VNull))
    (* the controller's two handlers *)
    /\ (forall req, Req.tenantId req = Some T2 ->
          run (PostgresExecutionProtocolRepository rt db)
              (Controller.getAllForPolling rt req)
          = run (PostgresExecutionProtocolRepository rt without)
              (Controller.getAllForPolling rt req)
          /\ run (PostgresExecutionProtocolRepository rt db)
                 (Controller.getSnapshotById req)
             = run (PostgresExecutionProtocolRepository rt without)
                 (Controller.getSnapshotById req)
          /\ (T2 <> "" -> isValidUUID (Req.id req) = true ->
              uuid_in rt (Req.id req) = Some (Row.id R) ->
              run (PostgresExecutionProtocolRepository rt db)
                  (Controller.getSnapshotById req)
              = error_response 404 "Not found"
                  "Execution protocol not found")).
Proof.
  intros pre post R T2 Hten Hpk db without.
  destruct (unselected_row_unobservable pre post R T2) as (Hlist & _ & Hsnap).
  { intros after. now apply polling_where_other_tenant. }
  { intros uuid. now apply by_id_where_other_tenant. }
  assert (Hnull : forall id, uuid_in rt id = Some (Row.id R) ->
            Postgres.getSnapshotById rt db id T2 = Fulfilled VNull).
  { intros id Hid. unfold Postgres.getSnapshotById, Postgres.select_by_id.
    rewrite Hid. simpl. rewrite filter_nil; [reflexivity|].
    intros x Hx. destruct (Postgres.by_id_where (Row.id R) T2 x) eqn:E; auto.
    apply by_id_where_true in E. destruct E as (Hidx & Htx & _).
    assert (x = R).
    { apply (NoDup_map_eq Row.id db); auto.
      unfold db. apply in_or_app. right. now left. }
    subst x. contradiction. }
  split; [|split].
  - intros o Ho. split; [now apply Hlist|].
    intros page p Hpage Hp Heq.
    destruct (getAllForPolling_rows rt db o page p Hpage Hp)
      as (after & r & _ & -> & Hr).
    apply in_matching in Hr. destruct Hr as (Hin & Htr & _).
    assert (r = R).
    { apply (NoDup_map_eq Row.id db); auto.
      unfold db. apply in_or_app. right. now left. }
    subst r. congruence.
  - intros id. split; [apply Hsnap | apply Hnull].
  - intros req Hreq. split; [|split].
    + apply run_getAllForPolling_ext. intros o Ho. apply Hlist. congruence.
    + apply run_getSnapshotById_ext. intros t Ht.
      assert (t = T2) by congruence. subst t. apply Hsnap.
    + intros Hne Hvalid Hid.
      unfold Controller.getSnapshotById.
      rewrite Hreq, Hvalid.
      assert (Htruthy : truthy (VString T2) = true).
      { simpl. apply negb_true_iff. now apply String.eqb_neq. }
      rewrite Htruthy. simpl. fold db. now rewrite (Hnull _ Hid).
Qed.

(** C2. Status filtering: a stored row whose status is not [CLOSED] is
    returned by none of [getAllForPolling], [getById] and
    [getSnapshotById], whichever tenant asks (its own included): each
    operation answers as on the table without the row, every entity
    returned has status [CLOSED], and a snapshot returned is that of a
    [CLOSED] row. *)
Theorem status_filtering :
  forall (pre post : table) (R : Row.t),
    Row.status R <> "CLOSED" ->
    let db := (pre ++ R :: post)%list in
    let without := (pre ++ post)%list in
    (forall o,
       Postgres.getAllForPolling rt db o
       = Postgres.getAllForPolling rt without o
       /\ forall page p,
            Postgres.getAllForPolling rt db o = Fulfilled page ->
            In p (Page.data page) ->
            ExecutionProtocol.status p = "CLOSED")
    /\ (forall id tenantId,
          Postgres.getById rt db id tenantId
          = Postgres.getById rt without id tenantId
          /\ forall p,
               Postgres.getById rt db id tenantId = Fulfilled (Some p) ->
               ExecutionProtocol.status p = "CLOSED")
    /\ (forall id tenantId,
          Postgres.getSnapshotById rt db id tenantId
          = Postgres.getSnapshotById rt without id tenantId
          /\ forall v,
               Postgres.getSnapshotById rt db id tenantId = Fulfilled v ->
               v = VNull
               \/ exists r, In r without /\ Row.status r = "CLOSED"
                            /\ Row.tenant_id r = tenantId
                            /\ v = Row.snapshot r).
Proof.
  intros pre post R Hst db without.
  assert (Hun : forall tenantId,
            (forall after, Postgres.polling_where tenantId after R = false)
            /\ (forall uuid, Postgres.by_id_where uuid tenantId R = false)).
  { intros tenantId. split; intros.
    - now apply polling_where_not_closed.
    - now apply by_id_where_not_closed. }
  split; [|split].
  - intros o. destruct (Hun (Opts.tenantId o)) as [Hp Hi].
    destruct (unselected_row_unobservable pre post R _ Hp Hi) as (Hl & _ & _).
    split; [now apply Hl|].
    intros page p Hpage Hin.
    destruct (getAllForPolling_rows rt db o page p Hpage Hin)
      as (after & r & _ & -> & Hr).
    apply in_matching in Hr. now destruct Hr as (_ & _ & Hs & _).
  - intros id tenantId. destruct (Hun tenantId) as [Hp Hi].
    destruct (unselected_row_unobservable pre post R _ Hp Hi) as (_ & Hg & _).
    split; [apply Hg|].
    intros p Hget. apply getById_inv in Hget.
    now destruct Hget as (r & _ & _ & _ & Hs & ->).
  - intros id tenantId. destruct (Hun tenantId) as [Hp Hi].
    destruct (unselected_row_unobservable pre post R _ Hp Hi) as (_ & _ & Hg).
    split; [apply Hg|].
    intros v Hget. fold db in Hg. rewrite Hg in Hget.
    apply getSnapshotById_inv in Hget.
    destruct Hget as [->|(r & Hin & _ & Ht & Hs & ->)]; [now left|].
    right. exists r. auto.
Qed.

End Isolation.

(** ** Cursor, order and total of the list *)

Section Polling.

Variable rt : Runtime.

Lemma cursor_supplied (u : string) :
  u <> "" ->
  Postgres.cursor rt (Some u)
  = match timestamptz_in rt u with
    | Some t => Fulfilled (Some t)
    | None =>
        Rejected "invalid input syntax for type timestamp with time zone"
    end.
Proof.
  intros Hu. unfold Postgres.cursor. simpl.
  apply String.eqb_neq in Hu. now rewrite Hu.
Qed.

Lemma Permutation_filter {A} (f : A -> bool) (l l' : list A) :
  Permutation l l' -> Permutation (filter f l) (filter f l').
Proof.
  induction 1 as [|x l l' Hp IH|x y l|l l' l'' H1 IH1 H2 IH2]; simpl.
  - constructor.
  - destruct (f x); auto.
  - destruct (f x), (f y); auto. apply perm_swap.
  - now transitivity (filter f l').
Qed.

Lemma matching_perm (db db' : table) (tenantId : string) (after : option Z) :
  Permutation db db' ->
  Permutation (Postgres.matching db tenantId after)
              (Postgres.matching db' tenantId after).
Proof.
  apply Permutation_filter.
Qed.

(** The cursor the query compares with. *)
Lemma cursor_inv (updatedAfter : option string) (after : option Z) :
  Postgres.cursor rt updatedAfter = Fulfilled after ->
  ((updatedAfter = None \/ updatedAfter = Some "") /\ after = None)
  \/ (exists u ts, updatedAfter = Some u /\ u <> ""
                   /\ timestamptz_in rt u = Some ts /\ after = Some ts).
Proof.
  destruct updatedAfter as [u|];
    [|simpl; intros H; injection H as <-; left; split; auto].
  destruct (string_dec u "") as [->|Hne].
  - simpl. intros H. injection H as <-. left. split; auto.
  - rewrite (cursor_supplied u Hne).
    destruct (timestamptz_in rt u) as [ts|] eqn:E; [|discriminate].
    intros H. injection H as <-. right. exists u, ts. auto.
Qed.

(** A cursor is readable when it is left out, empty, or a text the engine
    reads as a timestamp. *)
Lemma cursor_readable (updatedAfter : option string) :
  (forall u, updatedAfter = Some u -> u <> "" -> timestamptz_in rt u <> None)
  -> exists after, Postgres.cursor rt updatedAfter = Fulfilled after.
Proof.
  intros H. destruct updatedAfter as [u|]; [|now exists None].
  destruct (string_dec u "") as [->|Hne]; [now exists None|].
  rewrite (cursor_supplied u Hne).
  destruct (timestamptz_in rt u) as [ts|] eqn:E; [now exists (Some ts)|].
  exfalso. now apply (H u).
Qed.

(** The call is fulfilled whenever the cursor reads as a timestamp, the
    limit is not negative and the offset is a [bigint] that is not
    negative. *)
Lemma getAllForPolling_fulfilled (db : table) (o : Opts.t) (after : option Z) :
  Postgres.cursor rt (Opts.updatedAfter o) = Fulfilled after ->
  0 <= Polling.limit o ->
  0 <= Polling.offset o < 2 ^ 63 ->
  exists page,
    Postgres.getAllForPolling rt db o = Fulfilled page
    /\ Page.total page
       = Z.of_nat (List.length (Postgres.matching db (Opts.tenantId o) after)).
Proof.
  unfold Polling.limit, Polling.offset.
  intros Hc Hl Ho. unfold Postgres.getAllForPolling, bind. rewrite Hc.
  rewrite limit_offset_fulfilled by lia. eexists. split; reflexivity.
Qed.

(** The rows the [WHERE] clause selects are the records that match, in
    the words of the specification. *)
Lemma polling_where_matches (tenantId : string) (cursor : option Z)
  (r : Row.t) :
  Postgres.polling_where tenantId cursor r = true
  <-> Spec.matches tenantId cursor r.
Proof.
  rewrite polling_where_true. unfold Spec.matches.
  destruct cursor as [t|].
  - split.
    + intros (H1 & H2 & H3). auto.
    + intros (H1 & H2 & H3). repeat split; auto. now intros t' [= <-].
  - split.
    + intros (H1 & H2 & _). auto.
    + intros (H1 & H2 & _). repeat split; auto. discriminate.
Qed.

Lemma count_matching (db : table) (tenantId : string) (cursor : option Z) :
  Spec.count tenantId cursor db
  = List.length (Postgres.matching db tenantId cursor).
Proof.
  unfold Postgres.matching.
  induction db as [|r db IH]; simpl; [reflexivity|]. rewrite IH.
  destruct (Spec.matches_dec tenantId cursor r) as [Hm|Hm];
    destruct (Postgres.polling_where tenantId cursor r) eqn:E;
    try reflexivity.
  - apply polling_where_matches in Hm. congruence.
  - apply polling_where_matches in E. contradiction.
Qed.


(** C7. The [total] that [getAllForPolling] returns beside the items is
    the count of all stored records that are the tenant's, are [CLOSED]
    and, when a cursor is supplied, were updated strictly after it;
    [limit] and [offset] have no part in it, nor has the order in which
    the rows are scanned.  (The call does return, given a readable cursor,
    a limit that is not negative and an offset that is a [bigint] and not
    negative.) *)
Theorem total_counts_matching_rows :
  (* without a cursor *)
  (forall (db : table) (o : Opts.t) (page : Page.t),
     Opts.updatedAfter o = None \/ Opts.updatedAfter o = Some "" ->
     Postgres.getAllForPolling rt db o = Fulfilled page ->
     Page.total page = Z.of_nat (Spec.count (Opts.tenantId o) None db))
  (* with a cursor *)
  /\ (forall (db : table) (o : Opts.t) (u : string) (page : Page.t),
        Opts.updatedAfter o = Some u -> u <> "" ->
        Postgres.getAllForPolling rt db o = Fulfilled page ->
        exists ts,
          timestamptz_in rt u = Some ts
          /\ Page.total page
             = Z.of_nat (Spec.count (Opts.tenantId o) (Some ts) db))
  (* whatever the page asked for *)
  /\ (forall (db db' : table) (o : Opts.t) (limit' offset' : option Z)
        (page page' : Page.t),
        Permutation db db' ->
        Postgres.getAllForPolling rt db o = Fulfilled page ->
        Postgres.getAllForPolling rt db'
          {| Opts.tenantId := Opts.tenantId o;
             Opts.updatedAfter := Opts.updatedAfter o;
             Opts.limit := limit';
             Opts.offset := offset' |} = Fulfilled page' ->
        Page.total page = Page.total page')
  (* the call returns *)
  /\ (forall (db : table) (o : Opts.t),
        (forall u, Opts.updatedAfter o = Some u -> u <> "" ->
                   timestamptz_in rt u <> None) ->
        0 <= Polling.limit o ->
        0 <= Polling.offset o < 2 ^ 63 ->
        exists page, Postgres.getAllForPolling rt db o = Fulfilled page).
Proof.
  assert (Htotal : forall db o page,
            Postgres.getAllForPolling rt db o = Fulfilled page ->
            exists after,
              Postgres.cursor rt (Opts.updatedAfter o) = Fulfilled after
              /\ Page.total page
                 = Z.of_nat (Spec.count (Opts.tenantId o) after db)).
  { intros db o page Hpage. apply getAllForPolling_inv in Hpage.
    destruct Hpage as (after & rows & Hc & _ & _ & Ht).
    exists after. split; [exact Hc|]. now rewrite count_matching. }
  repeat split.
  - intros db o page Hu Hpage.
    destruct (Htotal db o page Hpage) as (after & Hc & ->).
    apply cursor_inv in Hc.
    destruct Hc as [[_ ->]|(u & ts & Hu' & Hne & _)]; [reflexivity|].
    destruct Hu as [Hu|Hu]; congruence.
  - intros db o u page Hu Hne Hpage.
    destruct (Htotal db o page Hpage) as (after & Hc & ->).
    apply cursor_inv in Hc.
    destruct Hc as [[[Hu'|Hu'] _]|(u' & ts & Hu' & _ & Hts & ->)];
      try congruence.
    exists ts. split; [congruence | reflexivity].
  - intros db db' o limit' offset' page page' Hperm Hpage Hpage'.
    destruct (Htotal db o page Hpage) as (after & Hc & ->).
    destruct (Htotal db' _ page' Hpage') as (after' & Hc' & ->).
    simpl in Hc'. rewrite Hc in Hc'. injection Hc' as <-. simpl.
    rewrite !count_matching. f_equal.
    apply Permutation_length. now apply matching_perm.
  - intros db o Hread Hl Ho.
    destruct (cursor_readable (Opts.updatedAfter o) Hread) as (after & Hc).
    destruct (getAllForPolling_fulfilled db o after Hc Hl Ho)
      as (page & Hp & _).
    now exists page.
Qed.

End Polling.

Section Ordering.

Variable rt : Runtime.




(** Rows of one tenant that are [CLOSED] and pairwise differ in
    [updated_at] are listed in one order, however they are scanned. *)
Lemma order_by_updated_at_scan (db db' : table) (tenantId : string)
  (after : option Z) :
  Permutation db db' ->
  NoDup (map Row.updated_at (Postgres.matching db tenantId None)) ->
  Postgres.order_by_updated_at (Postgres.matching db tenantId after)
  = Postgres.order_by_updated_at (Postgres.matching db' tenantId after).
Proof.
  intros Hperm Hnd. apply (StronglySorted_unique Postgres.le_updated_at).
  - intros x y Hx Hy Hxy Hyx.
    apply in_order_by_updated_at, in_matching in Hx, Hy.
    destruct Hx as (Hx & Htx & Hsx & _), Hy as (Hy & Hty & Hsy & _).
    apply (NoDup_map_eq Row.updated_at
             (Postgres.matching db tenantId None)); auto.
    + apply in_matching. repeat split; auto. discriminate.
    + apply in_matching. repeat split; auto. discriminate.
    + unfold Postgres.le_updated_at in *. lia.
  - apply order_by_updated_at_sorted.
  - apply order_by_updated_at_sorted.
  - rewrite !order_by_updated_at_perm. now apply matching_perm.
Qed.


End Ordering.

(** ** The controller *)

Section Handlers.

Variable rt : Runtime.

Lemma truthy_string (s : string) : truthy (VString s) = true <-> s <> "".
Proof.
  simpl. rewrite negb_true_iff. apply String.eqb_neq.
Qed.

(** The three outcomes of the checks that come before the repository is
    called. *)
Lemma getAllForPolling_cases (req : Req.t) :
  (Controller.getAllForPolling rt req = Respond Controller.unauthorized
   /\ (Req.tenantId req = None \/ Req.tenantId req = Some ""))
  \/ (Controller.getAllForPolling rt req
      = Respond
          (error_response 400 "Bad request"
             "Invalid updatedAfter format. Use ISO 8601 timestamp (e.g., 2026-02-15T10:00:00Z)")
      /\ exists tenantId u,
           Req.tenantId req = Some tenantId /\ tenantId <> ""
           /\ Req.updatedAfter req = Some u /\ u <> ""
           /\ Date_getTime rt u = None)
  \/ (exists tenantId,
        Req.tenantId req = Some tenantId /\ tenantId <> ""
        /\ Controller.invalid_cursor rt (Req.updatedAfter req) = false
        /\ forall repo,
             run repo (Controller.getAllForPolling rt req)
             = match getAllForPolling repo
                       {| Opts.tenantId := tenantId;
                          Opts.updatedAfter := Req.updatedAfter req;
                          Opts.limit :=
                            Some (Controller.parsedLimit (Req.limit req));
                          Opts.offset :=
                            Some (Controller.parsedOffset (Req.offset req)) |}
               with
               | Fulfilled result =>
                   Controller.list_response
                     (Controller.parsedLimit (Req.limit req))
                     (Controller.parsedOffset (Req.offset req)) result
               | Rejected _ =>
                   error_response 500 "Internal server error"
                     "Failed to retrieve execution protocols"
               end).
Proof.
  unfold Controller.getAllForPolling.
  destruct (Req.tenantId req) as [tenantId|]; [|left; auto].
  destruct (truthy (VString tenantId)) eqn:Et; simpl.
  - apply truthy_string in Et.
    destruct (Controller.invalid_cursor rt (Req.updatedAfter req)) eqn:Ec.
    + right; left. split; [reflexivity|].
      unfold Controller.invalid_cursor in Ec.
      destruct (Req.updatedAfter req) as [u|]; [|discriminate].
      apply andb_true_iff in Ec. destruct Ec as [Hu Hd].
      apply truthy_string in Hu.
      exists tenantId, u. repeat split; auto.
      now destruct (Date_getTime rt u).
    + right; right. exists tenantId. repeat split; auto.
      intros repo. simpl.
      now destruct (getAllForPolling repo _).
  - left. split; [reflexivity|]. right. f_equal.
    simpl in Et. apply negb_false_iff in Et. now apply String.eqb_eq.
Qed.

(** C9, as the code has it.  For a request that carries a tenant
    identity, the list operation answers [BadRequest] if and only if
    [updatedAfter] is present, is not the empty string and does not parse
    as a timestamp; the handler then responds without calling the
    repository.  (An empty [updatedAfter] is taken as no cursor at all, and
    a request with no tenant identity is [Unauthorized] whatever its
    cursor.) *)
Theorem bad_request_iff_unparsable_cursor :
  forall (repo : ExecutionProtocolRepository) (req : Req.t),
    (statusCode (run repo (Controller.getAllForPolling rt req)) = 400
     <-> exists tenantId u,
           Req.tenantId req = Some tenantId /\ tenantId <> ""
           /\ Req.updatedAfter req = Some u /\ u <> ""
           /\ Date_getTime rt u = None)
    /\ (statusCode (run repo (Controller.getAllForPolling rt req)) = 400 ->
        invocations repo (Controller.getAllForPolling rt req) = []
        /\ exists r, Controller.getAllForPolling rt req = Respond r).
Proof.
  intros repo req.
  destruct (getAllForPolling_cases req)
    as [[Heq Hten]|[[Heq Hbad]|(tenantId & Hten & Hne & Hc & Hrun)]].
  - rewrite Heq. simpl. split; [split|]; try discriminate.
    intros (t & u & Ht & Hne & _). destruct Hten; congruence.
  - rewrite Heq. simpl. split; [tauto|]. intros _. split; eauto.
  - rewrite Hrun.
    assert (Hnot : statusCode
                     match getAllForPolling repo
                             {| Opts.tenantId := tenantId;
                                Opts.updatedAfter := Req.updatedAfter req;
                                Opts.limit :=
                                  Some (Controller.parsedLimit (Req.limit req));
                                Opts.offset :=
                                  Some (Controller.parsedOffset
                                          (Req.offset req)) |}
                     with
                     | Fulfilled result =>
                         Controller.list_response
                           (Controller.parsedLimit (Req.limit req))
                           (Controller.parsedOffset (Req.offset req)) result
                     | Rejected _ =>
                         error_response 500 "Internal server error"
                           "Failed to retrieve execution protocols"
                     end <> 400).
    { destruct (getAllForPolling repo _); simpl; discriminate. }
    split; [split|]; try tauto.
    intros (t & u & Ht & _ & Hu & Hune & Hd). exfalso.
    unfold Controller.invalid_cursor in Hc. rewrite Hu, Hd in Hc.
    apply truthy_string in Hune. rewrite Hune in Hc. discriminate.
Qed.

(** C8, as the code has it.  A snapshot request whose id does not match
    the UUID v4 format is answered [NotFound] (status 404, error
    [Not found]) without the repository being called, never [BadRequest]
    nor [InternalError].  A well-formed id that no [CLOSED] row of the
    tenant carries (absent, another tenant's, or not [CLOSED]) is answered
    with the same status and the same error; the two responses differ in
    their message. *)
Theorem malformed_id_is_not_found :
  forall (repo : ExecutionProtocolRepository) (req : Req.t)
    (tenantId : string),
    Req.tenantId req = Some tenantId -> tenantId <> "" ->
    isValidUUID (Req.id req) = false ->
    run repo (Controller.getSnapshotById req)
    = error_response 404 "Not found" "Invalid protocol ID format"
    /\ invocations repo (Controller.getSnapshotById req) = []
    /\ forall (db : table) (req' : Req.t) (uuid : string),
         Req.tenantId req' = Some tenantId ->
         isValidUUID (Req.id req') = true ->
         uuid_in rt (Req.id req') = Some uuid ->
         (forall r, In r db -> Row.id r = uuid ->
                    Row.tenant_id r <> tenantId \/ Row.status r <> "CLOSED") ->
         let res' :=
           run (PostgresExecutionProtocolRepository rt db)
               (Controller.getSnapshotById req') in
         res' = error_response 404 "Not found" "Execution protocol not found"
         /\ statusCode res'
            = statusCode (run repo (Controller.getSnapshotById req))
         /\ get "error" (body res')
            = get "error" (body (run repo (Controller.getSnapshotById req))).
Proof.
  intros repo req tenantId Hten Hne Hbad.
  assert (Hresp : Controller.getSnapshotById req
                  = Respond (error_response 404 "Not found"
                               "Invalid protocol ID format")).
  { unfold Controller.getSnapshotById.
    apply truthy_string in Hne. now rewrite Hten, Hne, Hbad. }
  rewrite Hresp. simpl. split; [reflexivity|]. split; [reflexivity|].
  intros db req' uuid Hten' Hok Huuid Hnone.
  assert (Hres : run (PostgresExecutionProtocolRepository rt db)
                     (Controller.getSnapshotById req')
                 = error_response 404 "Not found"
                     "Execution protocol not found").
  { unfold Controller.getSnapshotById.
    apply truthy_string in Hne. rewrite Hten', Hne, Hok. simpl.
    unfold Postgres.getSnapshotById, Postgres.select_by_id.
    rewrite Huuid. simpl. rewrite filter_nil; [reflexivity|].
    intros x Hx.
    destruct (Postgres.by_id_where uuid tenantId x) eqn:E; auto.
    apply by_id_where_true in E. destruct E as (Hid & Ht & Hs).
    destruct (Hnone x Hx Hid); contradiction. }
  rewrite Hres. auto.
Qed.

(** C10, as the code has it.  The controller's [getById] handler and its
    [getSnapshotById] handler make the same checks and the same single
    call, [repository.getSnapshotById(id, tenantId)], and answer with the
    same status; their responses are identical unless that call is
    rejected, in which case both answer 500 with the error
    [Internal server error] and a message of their own.  No handler
    invokes the repository's [getById]. *)
Theorem getById_handler_is_getSnapshotById_handler :
  forall (repo : ExecutionProtocolRepository) (req : Req.t),
    invocations repo (Controller.getById req)
    = invocations repo (Controller.getSnapshotById req)
    /\ (invocations repo (Controller.getById req) = []
        \/ exists tenantId,
             Req.tenantId req = Some tenantId
             /\ invocations repo (Controller.getById req)
                = [InvokedGetSnapshotById (Req.id req) tenantId])
    /\ statusCode (run repo (Controller.getById req))
       = statusCode (run repo (Controller.getSnapshotById req))
    /\ (run repo (Controller.getById req)
        = run repo (Controller.getSnapshotById req)
        \/ exists tenantId e,
             Req.tenantId req = Some tenantId
             /\ getSnapshotById repo (Req.id req) tenantId = Rejected e
             /\ run repo (Controller.getById req)
                = error_response 500 "Internal server error"
                    "Failed to retrieve execution protocol"
             /\ run repo (Controller.getSnapshotById req)
                = error_response 500 "Internal server error"
                    "Failed to retrieve execution protocol snapshot")
    /\ forall e : Routes.endpoint,
         forallb (fun i => negb (is_getById i))
           (invocations repo (Routes.createExecutionProtocolRoutes rt e req))
         = true.
Proof.
  intros repo req.
  assert (Hlist : forallb (fun i => negb (is_getById i))
                    (invocations repo (Controller.getAllForPolling rt req))
                  = true).
  { unfold Controller.getAllForPolling.
    destruct (Req.tenantId req) as [t|]; [|reflexivity].
    destruct (negb (truthy (VString t))); [reflexivity|].
    destruct (Controller.invalid_cursor rt (Req.updatedAfter req));
      [reflexivity|].
    simpl. now destruct (getAllForPolling repo _). }
  assert (Hroutes : forallb (fun i => negb (is_getById i))
                      (invocations repo (Controller.getById req)) = true ->
                    forallb (fun i => negb (is_getById i))
                      (invocations repo (Controller.getSnapshotById req))
                    = true ->
                    forall e : Routes.endpoint,
                      forallb (fun i => negb (is_getById i))
                        (invocations repo
                           (Routes.createExecutionProtocolRoutes rt e req))
                      = true).
  { intros H1 H2 [| |]; simpl; assumption. }
  unfold Controller.getById, Controller.getSnapshotById in *.
  destruct (Req.tenantId req) as [t|]; [|simpl in *; auto 10].
  destruct (negb (truthy (VString t))); [simpl in *; auto 10|].
  destruct (negb (isValidUUID (Req.id req))); [simpl in *; auto 10|].
  simpl in *. destruct (getSnapshotById repo (Req.id req) t) as [v|e] eqn:E.
  - destruct (negb (truthy v)); simpl in *; repeat split; eauto.
  - simpl in *. repeat split; eauto. right. exists t, e. auto.
Qed.

(** C6, as the code has it.  On success the body of the list operation
    is [{protocols, pagination: {limit, offset, total}}]: [protocols]
    holds, for each entity the repository returned and in the same order,
    its list metadata [{id, siteId, plantId, status, closedAt, updatedAt}],
    in which there is no snapshot; [limit] and [offset] are the normalized
    values and [total] is the repository's. *)
Theorem list_response_shape :
  forall (repo : ExecutionProtocolRepository) (req : Req.t),
    statusCode (run repo (Controller.getAllForPolling rt req)) = 200 ->
    exists tenantId page,
      Req.tenantId req = Some tenantId
      /\ getAllForPolling repo
           {| Opts.tenantId := tenantId;
              Opts.updatedAfter := Req.updatedAfter req;
              Opts.limit := Some (Controller.parsedLimit (Req.limit req));
              Opts.offset := Some (Controller.parsedOffset (Req.offset req)) |}
         = Fulfilled page
      /\ body (run repo (Controller.getAllForPolling rt req))
         = VObject
             [ ("protocols",
                VArray (map ExecutionProtocol.toListMetadata (Page.data page)));
               ("pagination",
                VObject
                  [ ("limit",
                     VNumber (Controller.parsedLimit (Req.limit req)));
                    ("offset",
                     VNumber (Controller.parsedOffset (Req.offset req)));
                    ("total", VNumber (Page.total page)) ]) ]
      /\ forall p, In p (Page.data page) ->
           let item := ExecutionProtocol.toListMetadata p in
           keys item
           = ["id"; "siteId"; "plantId"; "status"; "closedAt"; "updatedAt"]
           /\ get "id" item = VString (ExecutionProtocol.id p)
           /\ get "siteId" item = of_opt_string (ExecutionProtocol.siteId p)
           /\ get "plantId" item = of_opt_string (ExecutionProtocol.plantId p)
           /\ get "status" item = VString (ExecutionProtocol.status p)
           /\ get "closedAt" item = of_opt_date (ExecutionProtocol.closedAt p)
           /\ get "updatedAt" item
              = of_opt_date (ExecutionProtocol.updatedAt p)
           /\ has_key "snapshot" item = false.
Proof.
  intros repo req H200.
  destruct (getAllForPolling_cases req)
    as [[Heq _]|[[Heq _]|(tenantId & Hten & Hne & Hc & Hrun)]].
  - rewrite Heq in H200. discriminate.
  - rewrite Heq in H200. discriminate.
  - rewrite Hrun in *.
    destruct (getAllForPolling repo _) as [page|e] eqn:E; [|discriminate].
    exists tenantId, page. repeat split; auto.
Qed.

End Handlers.

(* ===================================================================== *)
(** * The model on the seeded table *)
(* ===================================================================== *)

Example parseInt_500 : parseInt "500" = Some 500.
Proof. reflexivity. Qed.

Example parseInt_signed_prefix : parseInt "  -5xyz" = Some (-5).
Proof. reflexivity. Qed.

Example parseInt_nan : parseInt "abc" = None.
Proof. reflexivity. Qed.

(** U+00A0 before the digits. *)
Example parseInt_no_break_space :
  parseInt (String (ascii_of_nat 194) (String (ascii_of_nat 160) "7"))
  = Some 7.
Proof. reflexivity. Qed.

Example parseInt_rounds_to_double :
  parseInt "9007199254740993" = Some 9007199254740992.
Proof. reflexivity. Qed.

Example parseInt_rounds_up_to_2_63 :
  parseInt "9223372036854775807" = Some (2 ^ 63).
Proof. reflexivity. Qed.

Example isValidUUID_seed :
  isValidUUID "550e8400-e29b-41d4-a716-446655440001" = true.
Proof. reflexivity. Qed.

Example isValidUUID_upper_case :
  isValidUUID "550E8400-E29B-41D4-A716-446655440001" = true.
Proof. reflexivity. Qed.

Example isValidUUID_not_version_4 :
  isValidUUID "00000000-0000-0000-0000-000000000000" = false.
Proof. reflexivity. Qed.

Example isValidUUID_not_a_uuid : isValidUUID "not-a-uuid" = false.
Proof. reflexivity. Qed.

Example baseDate_is_february_1 :
  Sample.iso_timestamp "2026-02-01T00:00:00Z" = Some Sample.baseDate.
Proof. reflexivity. Qed.

(** The scenario of the testing guide: three rows of [tenant-acme]
    (February 2, 6 and 13) and two of [tenant-globex]. *)
Example scenario_no_cursor :
  Sample.ids
    (Postgres.getAllForPolling Sample.runtime Sample.seedData
       (Sample.polling "tenant-acme" None None None))
  = [ "550e8400-e29b-41d4-a716-446655440001";
      "550e8400-e29b-41d4-a716-446655440002";
      "550e8400-e29b-41d4-a716-446655440004" ].
Proof. reflexivity. Qed.

Example scenario_after_february_5 :
  Sample.ids
    (Postgres.getAllForPolling Sample.runtime Sample.seedData
       (Sample.polling "tenant-acme" (Some "2026-02-05T00:00:00Z") None None))
  = [ "550e8400-e29b-41d4-a716-446655440002";
      "550e8400-e29b-41d4-a716-446655440004" ].
Proof. reflexivity. Qed.

Example scenario_after_february_20 :
  Postgres.getAllForPolling Sample.runtime Sample.seedData
    (Sample.polling "tenant-acme" (Some "2026-02-20T00:00:00Z") None None)
  = Fulfilled {| Page.data := []; Page.total := 0 |}.
Proof. reflexivity. Qed.

Example scenario_other_tenant_snapshot :
  run (Sample.repository Sample.seedData)
      (Controller.getSnapshotById
         (Sample.snapshot_request (Some "tenant-globex")
            "550e8400-e29b-41d4-a716-446655440001"))
  = run (Sample.repository Sample.seedData)
      (Controller.getSnapshotById
         (Sample.snapshot_request (Some "tenant-globex")
            "550e8400-e29b-41d4-a716-446655449999")).
Proof. reflexivity. Qed.

Lemma primary_key_seedData : primary_key Sample.seedData.
Proof.
  unfold primary_key. simpl.
  repeat (constructor; [simpl; intuition discriminate|]). constructor.
Qed.

(** ** Pagination normalization *)

Lemma parsedLimit_missing : Controller.parsedLimit None = 50.
Proof. reflexivity. Qed.

Lemma parsedLimit_at_most_100 (limit : option string) :
  Controller.parsedLimit limit <= 100.
Proof. unfold Controller.parsedLimit. lia. Qed.

Lemma parsedLimit_positive (s : string) (z : Z) :
  parseInt s = Some z -> 1 <= z ->
  Controller.parsedLimit (Some s) = Z.min z 100
  /\ 1 <= Controller.parsedLimit (Some s) <= 100.
Proof.
  intros Hs Hz. unfold Controller.parsedLimit, or_number. rewrite Hs.
  destruct (z =? 0) eqn:E; [apply Z.eqb_eq in E; lia|]. lia.
Qed.

Lemma parsedLimit_zero_or_nan (s : string) :
  parseInt s = Some 0 \/ parseInt s = None ->
  Controller.parsedLimit (Some s) = 50.
Proof.
  unfold Controller.parsedLimit. now intros [-> | ->].
Qed.

(** A negative [limit] passes through: [Math.min] bounds it from above
    only. *)
Lemma parsedLimit_negative (s : string) (z : Z) :
  parseInt s = Some z -> z < 0 -> Controller.parsedLimit (Some s) = z.
Proof.
  intros Hs Hz. unfold Controller.parsedLimit, or_number. rewrite Hs.
  destruct (z =? 0) eqn:E; [apply Z.eqb_eq in E; lia|]. lia.
Qed.

Lemma parsedOffset_missing : Controller.parsedOffset None = 0.
Proof. reflexivity. Qed.

Lemma parsedOffset_floor (offset : option string) :
  0 <= Controller.parsedOffset offset.
Proof. unfold Controller.parsedOffset. lia. Qed.

Lemma parsedOffset_negative (s : string) (z : Z) :
  parseInt s = Some z -> z <= 0 -> Controller.parsedOffset (Some s) = 0.
Proof.
  intros Hs Hz. unfold Controller.parsedOffset, or_number. rewrite Hs.
  destruct (z =? 0); lia.
Qed.

(** C5 at [limit=-5].  The normalized limit is [-5], not the default 50
    and not a value of [1..100]; the storage engine rejects the negative
    [LIMIT] and the request that is answered 200 without a limit is
    answered 500.  The other cases of the claim hold: [limit=500] is
    [limit=100], [limit=0] is the default, [offset=-5] is [offset=0]. *)
Theorem negative_limit_is_not_clamped :
  Controller.parsedLimit (Some "-5") = -5
  /\ Controller.parsedLimit None = 50
  /\ statusCode
       (run (Sample.repository Sample.seedData)
          (Controller.getAllForPolling Sample.runtime
             (Sample.list_request "tenant-acme" None (Some "-5") None)))
     = 500
  /\ statusCode
       (run (Sample.repository Sample.seedData)
          (Controller.getAllForPolling Sample.runtime
             (Sample.list_request "tenant-acme" None None None)))
     = 200
  /\ Controller.parsedLimit (Some "500") = Controller.parsedLimit (Some "100")
  /\ Controller.parsedLimit (Some "0") = Controller.parsedLimit None
  /\ Controller.parsedOffset (Some "-5") = Controller.parsedOffset (Some "0")
  /\ Controller.parsedOffset None = 0.
Proof.
  repeat split; reflexivity.
Qed.

(** ** Instances and counterexamples *)

(** C1 on the seeded table: [globex3] asked for by [tenant-acme]. *)
Lemma tenant_isolation_seeded :
  Row.tenant_id Sample.globex3 <> "tenant-acme"
  /\ primary_key Sample.seedData
  /\ Postgres.getSnapshotById Sample.runtime Sample.seedData
       "550e8400-e29b-41d4-a716-446655440003" "tenant-acme"
     = Fulfilled VNull.
Proof.
  assert (H1 : Row.tenant_id Sample.globex3 <> "tenant-acme")
    by discriminate.
  pose proof
    (tenant_isolation Sample.runtime [Sample.acme1; Sample.acme2]
       [Sample.acme4; Sample.globex5] Sample.globex3 "tenant-acme"
       H1 primary_key_seedData) as H.
  cbv zeta in H. destruct H as (_ & Hsnap & _).
  split; [exact H1|]. split; [exact primary_key_seedData|].
  apply (Hsnap "550e8400-e29b-41d4-a716-446655440003"). reflexivity.
Defined.

(** C2 on a table with a row that is still open. *)
Lemma status_filtering_open_row :
  Row.status Sample.open6 <> "CLOSED"
  /\ Postgres.getById Sample.runtime
       [Sample.acme1; Sample.open6; Sample.acme2]
       "550e8400-e29b-41d4-a716-446655440006" "tenant-acme"
     = Postgres.getById Sample.runtime [Sample.acme1; Sample.acme2]
         "550e8400-e29b-41d4-a716-446655440006" "tenant-acme".
Proof.
  assert (H1 : Row.status Sample.open6 <> "CLOSED") by discriminate.
  pose proof
    (status_filtering Sample.runtime [Sample.acme1] [Sample.acme2]
       Sample.open6 H1) as H.
  cbv zeta in H. destruct H as (_ & Hget & _).
  split; [exact H1|]. apply Hget.
Defined.



(** C7 on the seeded table: two of [tenant-acme]'s rows are after
    February 5, whatever the page. *)
Lemma total_counts_matching_rows_seeded :
  Spec.count "tenant-acme" (Some (Sample.at_ms 1770249600000))
    Sample.seedData = 2%nat
  /\ exists page,
       Postgres.getAllForPolling Sample.runtime Sample.seedData
         (Sample.polling "tenant-acme" (Some "2026-02-05T00:00:00Z")
            (Some 1) (Some 1)) = Fulfilled page
       /\ Page.total page = 2.
Proof.
  split; [reflexivity|].
  destruct (total_counts_matching_rows Sample.runtime)
    as (_ & Hcursor & _ & Hret).
  destruct (Hret Sample.seedData
              (Sample.polling "tenant-acme" (Some "2026-02-05T00:00:00Z")
                 (Some 1) (Some 1))) as (page & Hpage).
  - intros u [= <-] _. discriminate.
  - unfold Polling.limit. simpl. lia.
  - unfold Polling.offset. simpl. lia.
  - exists page. split; [exact Hpage|].
    destruct (Hcursor Sample.seedData
                (Sample.polling "tenant-acme" (Some "2026-02-05T00:00:00Z")
                   (Some 1) (Some 1))
                "2026-02-05T00:00:00Z" page eq_refl
                ltac:(discriminate) Hpage) as (ts & Hts & ->).
    vm_compute in Hts. injection Hts as <-. reflexivity.
Defined.


(** C6 fails on the name of the first key: the body has [protocols], and
    no [items]. *)
Lemma list_body_has_no_items :
  statusCode
    (run (Sample.repository Sample.seedData)
       (Controller.getAllForPolling Sample.runtime
          (Sample.list_request "tenant-acme" None None None))) = 200
  /\ keys
       (body
          (run (Sample.repository Sample.seedData)
             (Controller.getAllForPolling Sample.runtime
                (Sample.list_request "tenant-acme" None None None))))
     = ["protocols"; "pagination"]
  /\ get "items"
       (body
          (run (Sample.repository Sample.seedData)
             (Controller.getAllForPolling Sample.runtime
                (Sample.list_request "tenant-acme" None None None))))
     = VUndefined.
Proof.
  repeat split; reflexivity.
Qed.

(** C6 on the seeded table. *)
Lemma list_response_shape_seeded :
  statusCode
    (run (Sample.repository Sample.seedData)
       (Controller.getAllForPolling Sample.runtime
          (Sample.list_request "tenant-acme" None (Some "2") None))) = 200
  /\ exists page,
       Postgres.getAllForPolling Sample.runtime Sample.seedData
         (Sample.polling "tenant-acme" None (Some 2) (Some 0))
       = Fulfilled page
       /\ get "protocols"
            (body
               (run (Sample.repository Sample.seedData)
                  (Controller.getAllForPolling Sample.runtime
                     (Sample.list_request "tenant-acme" None (Some "2")
                        None))))
          = VArray (map ExecutionProtocol.toListMetadata (Page.data page)).
Proof.
  split; [reflexivity|].
  destruct (list_response_shape Sample.runtime
              (Sample.repository Sample.seedData)
              (Sample.list_request "tenant-acme" None (Some "2") None)
              eq_refl) as (tenantId & page & Hten & Hpage & Hbody & _).
  injection Hten as <-. exists page. split; [exact Hpage|].
  rewrite Hbody. reflexivity.
Defined.

(** C8 fails on the message: a malformed id and a well-formed id that is
    absent are both answered 404 [Not found], with different bodies. *)
Lemma malformed_id_is_distinguishable :
  run (Sample.repository Sample.seedData)
      (Controller.getSnapshotById
         (Sample.snapshot_request (Some "tenant-acme") "not-a-uuid"))
  = error_response 404 "Not found" "Invalid protocol ID format"
  /\ run (Sample.repository Sample.seedData)
         (Controller.getSnapshotById
            (Sample.snapshot_request (Some "tenant-acme")
               "550e8400-e29b-41d4-a716-446655449999"))
     = error_response 404 "Not found" "Execution protocol not found"
  /\ run (Sample.repository Sample.seedData)
         (Controller.getSnapshotById
            (Sample.snapshot_request (Some "tenant-acme") "not-a-uuid"))
     <> run (Sample.repository Sample.seedData)
          (Controller.getSnapshotById
             (Sample.snapshot_request (Some "tenant-acme")
                "550e8400-e29b-41d4-a716-446655449999")).
Proof.
  repeat split; try reflexivity. discriminate.
Qed.

(** C8 on the seeded table. *)
Lemma malformed_id_is_not_found_seeded :
  isValidUUID "not-a-uuid" = false
  /\ run (Sample.repository Sample.seedData)
         (Controller.getSnapshotById
            (Sample.snapshot_request (Some "tenant-acme") "not-a-uuid"))
     = error_response 404 "Not found" "Invalid protocol ID format"
  /\ invocations (Sample.repository Sample.seedData)
       (Controller.getSnapshotById
          (Sample.snapshot_request (Some "tenant-acme") "not-a-uuid"))
     = [].
Proof.
  split; [reflexivity|].
  assert (Hne : "tenant-acme" <> "") by discriminate.
  destruct (malformed_id_is_not_found Sample.runtime
              (Sample.repository Sample.seedData)
              (Sample.snapshot_request (Some "tenant-acme") "not-a-uuid")
              "tenant-acme" eq_refl Hne eq_refl) as (Hrun & Hinv & _).
  split; [exact Hrun | exact Hinv].
Defined.

(** C9 fails on an empty cursor: [updatedAfter=] is present and is no
    timestamp, and the request is answered as if it had no cursor. *)
Lemma empty_cursor_is_ignored :
  Date_getTime Sample.runtime "" = None
  /\ statusCode
       (run (Sample.repository Sample.seedData)
          (Controller.getAllForPolling Sample.runtime
             (Sample.list_request "tenant-acme" (Some "") None None)))
     = 200
  /\ run (Sample.repository Sample.seedData)
         (Controller.getAllForPolling Sample.runtime
            (Sample.list_request "tenant-acme" (Some "") None None))
     = run (Sample.repository Sample.seedData)
         (Controller.getAllForPolling Sample.runtime
            (Sample.list_request "tenant-acme" None None None))
  /\ invocations (Sample.repository Sample.seedData)
       (Controller.getAllForPolling Sample.runtime
          (Sample.list_request "tenant-acme" (Some "") None None))
     = [InvokedGetAllForPolling
          (Sample.polling "tenant-acme" (Some "") (Some 50) (Some 0))].
Proof.
  repeat split; reflexivity.
Qed.

(** C10 fails when the repository call is rejected, as every call on the
    abstract repository is: the two handlers answer with different
    messages. *)
Lemma rejected_call_tells_the_handlers_apart :
  run AbstractRepository
      (Controller.getById
         (Sample.snapshot_request (Some "tenant-acme")
            "550e8400-e29b-41d4-a716-446655440001"))
  = error_response 500 "Internal server error"
      "Failed to retrieve execution protocol"
  /\ run AbstractRepository
         (Controller.getSnapshotById
            (Sample.snapshot_request (Some "tenant-acme")
               "550e8400-e29b-41d4-a716-446655440001"))
     = error_response 500 "Internal server error"
         "Failed to retrieve execution protocol snapshot"
  /\ run AbstractRepository
         (Controller.getById
            (Sample.snapshot_request (Some "tenant-acme")
               "550e8400-e29b-41d4-a716-446655440001"))
     <> run AbstractRepository
          (Controller.getSnapshotById
             (Sample.snapshot_request (Some "tenant-acme")
                "550e8400-e29b-41d4-a716-446655440001")).
Proof.
  repeat split; try reflexivity. discriminate.
Qed.


(** C9 on a cursor that is no timestamp. *)
Lemma bad_request_iff_unparsable_cursor_seeded :
  statusCode
    (run (Sample.repository Sample.seedData)
       (Controller.getAllForPolling Sample.runtime
          (Sample.list_request "tenant-acme" (Some "yesterday") None None)))
  = 400
  /\ invocations (Sample.repository Sample.seedData)
       (Controller.getAllForPolling Sample.runtime
          (Sample.list_request "tenant-acme" (Some "yesterday") None None))
     = [].
Proof.
  split; [reflexivity|].
  exact (proj1
           (proj2 (bad_request_iff_unparsable_cursor Sample.runtime
                     (Sample.repository Sample.seedData)
                     (Sample.list_request "tenant-acme" (Some "yesterday")
                        None None))
              eq_refl)).
Defined.

(* ===================================================================== *)
(** * Further properties of the repository *)
(* ===================================================================== *)

Section Pages.

Variable rt : Runtime.

(** A fulfilled call, spelled out: the page is cut out of the ordered
    matching rows, and neither count was negative. *)
Lemma getAllForPolling_page (db : table) (o : Opts.t) (page : Page.t) :
  Postgres.getAllForPolling rt db o = Fulfilled page ->
  exists after,
    Postgres.cursor rt (Opts.updatedAfter o) = Fulfilled after
    /\ 0 <= Polling.cappedLimit o /\ 0 <= Polling.offset o
    /\ Page.data page
       = map Postgres.listed
           (firstn (Z.to_nat (Polling.cappedLimit o))
              (skipn (Z.to_nat (Polling.offset o))
                 (Polling.ordered db o after)))
    /\ Page.total page
       = Z.of_nat (List.length (Polling.ordered db o after)).
Proof.
  intros H. apply getAllForPolling_inv in H.
  destruct H as (after & rows & Hc & Hl & Hd & Ht).
  exists after. split; [exact Hc|].
  apply limit_offset_inv in Hl.
  fold (Polling.limit o) (Polling.offset o) in Hl.
  fold (Polling.cappedLimit o) in Hl.
  destruct Hl as (E2 & E1 & ->).
  repeat split; auto; try lia.
  rewrite Ht. unfold Polling.ordered.
  now rewrite (Permutation_length (order_by_updated_at_perm _)).
Qed.


Lemma firstn_plus {A} (n m : nat) (l : list A) :
  firstn (n + m) l = firstn n l ++ firstn m (skipn n l).
Proof.
  revert l. induction n as [|n IH]; intros [|x l]; simpl; auto.
  - now rewrite firstn_nil.
  - now rewrite IH.
Qed.

Lemma NoDup_map_filter {A B} (f : A -> B) (g : A -> bool) (l : list A) :
  NoDup (map f l) -> NoDup (map f (filter g l)).
Proof.
  induction l as [|a l IH]; simpl; intros H; [constructor|].
  inversion H as [|? ? Hnotin Hnd]; subst.
  destruct (g a); simpl; auto. constructor; auto.
  intros Hin. apply Hnotin. apply in_map_iff in Hin.
  destruct Hin as (x & Hx & Hin). apply filter_In in Hin.
  apply in_map_iff. exists x. tauto.
Qed.

Lemma NoDup_page {A} (n m : nat) (l : list A) :
  NoDup l -> NoDup (firstn n (skipn m l)).
Proof.
  intros H. rewrite <- (firstn_skipn m l) in H.
  apply NoDup_app_remove_l in H.
  rewrite <- (firstn_skipn n (skipn m l)) in H.
  now apply NoDup_app_remove_r in H.
Qed.

(** The rows the first query selects, in order, have pairwise different
    identifiers. *)
Lemma ordered_keyed (db : table) (o : Opts.t) (after : option Z) :
  primary_key db -> NoDup (map Row.id (Polling.ordered db o after)).
Proof.
  intros Hpk. unfold Polling.ordered.
  eapply Permutation_NoDup.
  - apply Permutation_map. symmetry. apply order_by_updated_at_perm.
  - now apply NoDup_map_filter.
Qed.

(** X2. Pages are adjacent when no two of the tenant's [CLOSED] rows share
    an [updated_at]: whatever order each of the two queries scans the
    table in, the page at [offset] followed by the page at
    [offset + cappedLimit] is the page of both limits together, and no
    record is in it twice.  So stepping the offset by the page size
    neither skips nor repeats a record.  (Rows that tie have no fixed
    order, and a record can then be repeated or skipped.) *)
Theorem consecutive_pages_are_adjacent :
  forall (db1 db2 : table) (o1 o2 : Opts.t) (page1 page2 : Page.t),
    primary_key db1 -> Permutation db1 db2 ->
    NoDup (map Row.updated_at
             (Postgres.matching db1 (Opts.tenantId o1) None)) ->
    Opts.tenantId o2 = Opts.tenantId o1 ->
    Opts.updatedAfter o2 = Opts.updatedAfter o1 ->
    Polling.offset o2 = Polling.offset o1 + Polling.cappedLimit o1 ->
    Postgres.getAllForPolling rt db1 o1 = Fulfilled page1 ->
    Postgres.getAllForPolling rt db2 o2 = Fulfilled page2 ->
    (exists after,
       Postgres.cursor rt (Opts.updatedAfter o1) = Fulfilled after
       /\ Page.data page1 ++ Page.data page2
          = map Postgres.listed
              (firstn (Z.to_nat (Polling.cappedLimit o1
                                 + Polling.cappedLimit o2))
                 (skipn (Z.to_nat (Polling.offset o1))
                    (Polling.ordered db1 o1 after))))
    /\ NoDup (map ExecutionProtocol.id (Page.data page1 ++ Page.data page2)).
Proof.
  intros db1 db2 o1 o2 page1 page2 Hpk Hperm Hnd Ht Hu Hoff H1 H2.
  apply getAllForPolling_page in H1, H2.
  destruct H1 as (after & Hc1 & Hl1 & Ho1 & -> & _).
  destruct H2 as (after2 & Hc2 & Hl2 & Ho2 & -> & _).
  rewrite Hu, Hc1 in Hc2. injection Hc2 as <-.
  assert (Hord : Polling.ordered db2 o2 after = Polling.ordered db1 o1 after).
  { unfold Polling.ordered. rewrite Ht. symmetry.
    now apply order_by_updated_at_scan. }
  assert (Heq : map Postgres.listed
                  (firstn (Z.to_nat (Polling.cappedLimit o1))
                     (skipn (Z.to_nat (Polling.offset o1))
                        (Polling.ordered db1 o1 after)))
                ++ map Postgres.listed
                     (firstn (Z.to_nat (Polling.cappedLimit o2))
                        (skipn (Z.to_nat (Polling.offset o2))
                           (Polling.ordered db2 o2 after)))
                = map Postgres.listed
                    (firstn (Z.to_nat (Polling.cappedLimit o1
                                       + Polling.cappedLimit o2))
                       (skipn (Z.to_nat (Polling.offset o1))
                          (Polling.ordered db1 o1 after)))).
  { rewrite Hord, Hoff, <- map_app. f_equal.
    rewrite !Z2Nat.inj_add by lia.
    rewrite firstn_plus. f_equal.
    rewrite skipn_skipn. f_equal. f_equal. lia. }
  split.
  - exists after. split; [exact Hc1 | exact Heq].
  - rewrite Heq, map_map. simpl.
    rewrite <- firstn_map, <- skipn_map.
    apply NoDup_page. now apply ordered_keyed.
Qed.

(** X3. A page that starts at offset 0 and whose limit reaches the total
    lists every matching row exactly once: its items are, up to order,
    the entities of all rows of the tenant that are [CLOSED] and after the
    cursor. *)
Theorem full_page_lists_every_matching_row :
  forall (db : table) (o : Opts.t) (page : Page.t),
    Postgres.getAllForPolling rt db o = Fulfilled page ->
    Polling.offset o = 0 ->
    Page.total page <= Polling.cappedLimit o ->
    exists after,
      Postgres.cursor rt (Opts.updatedAfter o) = Fulfilled after
      /\ Permutation (Page.data page)
           (map Postgres.listed
              (Postgres.matching db (Opts.tenantId o) after)).
Proof.
  intros db o page H Hoff Htot. apply getAllForPolling_page in H.
  destruct H as (after & Hc & Hl & Ho & -> & Ht).
  exists after. split; [exact Hc|].
  rewrite Hoff. simpl. rewrite firstn_all2 by lia.
  apply Permutation_map. apply order_by_updated_at_perm.
Qed.

Lemma StronglySorted_app_le {A} (R : A -> A -> Prop) (l1 l2 : list A)
  (x y : A) :
  StronglySorted R (l1 ++ l2) -> In x l1 -> In y l2 -> R x y.
Proof.
  induction l1 as [|a l1 IH]; simpl; intros Hs Hx Hy; [contradiction|].
  inversion Hs as [|? ? Hs' Hall]; subst.
  destruct Hx as [->|Hx].
  - rewrite Forall_forall in Hall. apply Hall, in_or_app. now right.
  - now apply IH.
Qed.

(** X4. What a poll leaves for the next one.  After a poll from offset 0
    whose latest item has [updatedAt = m], every matching row is either in
    that page, or later than [m] and so selected by the next poll with the
    cursor at [m], or tied with [m].  Only rows that share the page's
    latest [updatedAt] and were cut off by the limit can be missed by a
    consumer that advances its cursor to [m]. *)
Theorem poll_misses_only_ties :
  forall (db : table) (o : Opts.t) (page : Page.t) (after : option Z)
    (pmax : ExecutionProtocol.t) (m : Z) (r : Row.t),
    Postgres.cursor rt (Opts.updatedAfter o) = Fulfilled after ->
    Postgres.getAllForPolling rt db o = Fulfilled page ->
    Polling.offset o = 0 ->
    In pmax (Page.data page) ->
    ExecutionProtocol.updatedAt pmax = Some m ->
    In r (Postgres.matching db (Opts.tenantId o) after) ->
    In (Postgres.listed r) (Page.data page)
    \/ Postgres.polling_where (Opts.tenantId o) (Some m) r = true
    \/ Row.updated_at r = m.
Proof.
  intros db o page after pmax m r Hc H Hoff Hpmax Hm Hr.
  apply getAllForPolling_page in H.
  destruct H as (after' & Hc' & Hl & Ho & Hd & _).
  rewrite Hc in Hc'. injection Hc' as <-.
  rewrite Hoff in Hd. simpl in Hd.
  set (n := Z.to_nat (Polling.cappedLimit o)) in *.
  set (rows := Polling.ordered db o after) in *.
  assert (Hin : In r rows) by (apply in_order_by_updated_at; exact Hr).
  rewrite <- (firstn_skipn n rows) in Hin. apply in_app_or in Hin.
  destruct Hin as [Hin|Hin].
  - left. rewrite Hd. now apply in_map.
  - right. rewrite Hd in Hpmax. apply in_map_iff in Hpmax.
    destruct Hpmax as (x & <- & Hx). simpl in Hm. injection Hm as <-.
    assert (Hle : Postgres.le_updated_at x r).
    { apply (StronglySorted_app_le _ (firstn n rows) (skipn n rows)); auto.
      rewrite firstn_skipn. apply order_by_updated_at_sorted. }
    unfold Postgres.le_updated_at in Hle.
    pose proof (date_le (Row.updated_at x)) as Hdate.
    destruct (Z.eq_dec (Row.updated_at r) (Driver.date (Row.updated_at x)))
      as [E|E]; [now right|left].
    apply in_matching in Hr. destruct Hr as (_ & Ht & Hs & _).
    apply polling_where_true. repeat split; auto.
    intros t [= <-]. lia.
Qed.

(** X5. [getSnapshotById] answers as [getById] does: the snapshot of the
    entity [getById] resolves to, [null] when it resolves to [null], and
    the same rejection. *)
Theorem getSnapshotById_is_snapshot_of_getById :
  forall (db : table) (id tenantId : string),
    Postgres.getSnapshotById rt db id tenantId
    = (let* found := Postgres.getById rt db id tenantId in
       Fulfilled match found with
                 | Some p => ExecutionProtocol.snapshot p
                 | None => VNull
                 end).
Proof.
  intros db id tenantId.
  unfold Postgres.getSnapshotById, Postgres.getById, bind.
  destruct (Postgres.select_by_id rt db id tenantId) as [[|row rows]|e];
    reflexivity.
Qed.

Lemma filter_unique {A B} (f : A -> B) (g : A -> bool) (l : list A) (r : A) :
  NoDup (map f l) -> In r l -> g r = true ->
  (forall x, g x = true -> f x = f r) ->
  filter g l = [r].
Proof.
  intros Hnd Hin Hg Hf. induction l as [|a l IH]; [contradiction|].
  simpl in Hnd. inversion Hnd as [|? ? Hnotin Hnd']; subst. simpl.
  destruct Hin as [->|Hin].
  - rewrite Hg. f_equal. apply filter_nil. intros x Hx.
    destruct (g x) eqn:E; auto. exfalso. apply Hnotin.
    rewrite <- (Hf x E). now apply in_map.
  - destruct (g a) eqn:E.
    + exfalso. apply Hnotin. rewrite (Hf a E). now apply in_map.
    + now apply IH.
Qed.

(** The single-record query selects a [CLOSED] row asked for under its
    own tenant, and nothing else. *)
Lemma select_by_id_own (db : table) (r : Row.t) (id : string) :
  primary_key db -> In r db -> Row.status r = "CLOSED" ->
  uuid_in rt id = Some (Row.id r) ->
  Postgres.select_by_id rt db id (Row.tenant_id r) = Fulfilled [r].
Proof.
  intros Hpk Hin Hst Hid.
  unfold Postgres.select_by_id. rewrite Hid. f_equal.
  apply (filter_unique Row.id); auto.
  - apply by_id_where_true. auto.
  - intros x Hx. now apply by_id_where_true in Hx.
Qed.

(** X6. A tenant reads its own record: for a [CLOSED] row of the table,
    asked for by its identifier under its own tenant, [getById] resolves
    to the entity of that row, snapshot included, and [getSnapshotById] to
    its snapshot. *)
Theorem own_closed_record_is_found :
  forall (db : table) (r : Row.t) (id : string),
    primary_key db -> In r db -> Row.status r = "CLOSED" ->
    uuid_in rt id = Some (Row.id r) ->
    Postgres.getById rt db id (Row.tenant_id r)
    = Fulfilled (Some (ExecutionProtocol.fromRepositoryData (Driver.row r)))
    /\ Postgres.getSnapshotById rt db id (Row.tenant_id r)
       = Fulfilled (Row.snapshot r).
Proof.
  intros db r id Hpk Hin Hst Hid.
  unfold Postgres.getById, Postgres.getSnapshotById.
  rewrite (select_by_id_own db r id Hpk Hin Hst Hid). auto.
Qed.

End Pages.

(* ===================================================================== *)
(** * Further properties of the controller *)
(* ===================================================================== *)

Section Endpoints.

Variable rt : Runtime.

(** X7. How the three routes map outcomes to status codes, whatever the
    repository behind them: the status is one of 200, 400, 401, 404 and
    500; it is 401 exactly when the request carries no tenant identity
    ([undefined] or the empty string); it is 500 exactly when the handler
    called the repository and the call was rejected; a handler calls the
    repository at most once, and not at all when it answers 400 or 401. *)
Theorem status_codes_of_the_routes :
  forall (repo : ExecutionProtocolRepository) (e : Routes.endpoint)
    (req : Req.t),
    let h := Routes.createExecutionProtocolRoutes rt e req in
    In (statusCode (run repo h)) [200; 400; 401; 404; 500]
    /\ (statusCode (run repo h) = 401
        <-> Req.tenantId req = None \/ Req.tenantId req = Some "")
    /\ (statusCode (run repo h) = 500
        <-> exists i, invocations repo h = [i] /\ rejected repo i = true)
    /\ (invocations repo h = []
        \/ exists i, invocations repo h = [i])
    /\ (statusCode (run repo h) = 400 \/ statusCode (run repo h) = 401 ->
        invocations repo h = []).
Proof.
  intros repo e req h. subst h.
  destruct e; simpl.
  - unfold Controller.getAllForPolling.
    destruct (Req.tenantId req) as [t|];
      [|simpl; intuition (try discriminate; eauto);
        destruct H as (i & Hi & _); discriminate].
    destruct (truthy (VString t)) eqn:Et; simpl.
    + apply truthy_string in Et.
      destruct (Controller.invalid_cursor rt (Req.updatedAfter req)); simpl.
      * intuition (try discriminate; try congruence).
        destruct H as (i & Hi & _); discriminate.
      * destruct (getAllForPolling repo _) as [page|err] eqn:E; simpl.
        -- intuition (try discriminate; try congruence; eauto).
           destruct H as (i & [= <-] & Hi). simpl in Hi.
           rewrite E in Hi. discriminate.
        -- intuition (try discriminate; try congruence; eauto).
           eexists. split; [reflexivity|]. simpl. now rewrite E.
    + simpl in Et. apply negb_false_iff, String.eqb_eq in Et. subst t.
      intuition (try discriminate; eauto).
      destruct H as (i & Hi & _); discriminate.
  - unfold Controller.getById.
    destruct (Req.tenantId req) as [t|];
      [|simpl; intuition (try discriminate; eauto);
        destruct H as (i & Hi & _); discriminate].
    destruct (truthy (VString t)) eqn:Et; simpl.
    + apply truthy_string in Et.
      destruct (isValidUUID (Req.id req)); simpl.
      * destruct (getSnapshotById repo _ _) as [v|err] eqn:E; simpl.
        -- destruct (truthy v); simpl;
             intuition (try discriminate; try congruence; eauto);
             destruct H as (i & [= <-] & Hi); simpl in Hi;
             rewrite E in Hi; discriminate.
        -- intuition (try discriminate; try congruence; eauto).
           eexists. split; [reflexivity|]. simpl. now rewrite E.
      * intuition (try discriminate; try congruence).
        destruct H as (i & Hi & _); discriminate.
    + simpl in Et. apply negb_false_iff, String.eqb_eq in Et. subst t.
      intuition (try discriminate; eauto).
      destruct H as (i & Hi & _); discriminate.
  - unfold Controller.getSnapshotById.
    destruct (Req.tenantId req) as [t|];
      [|simpl; intuition (try discriminate; eauto);
        destruct H as (i & Hi & _); discriminate].
    destruct (truthy (VString t)) eqn:Et; simpl.
    + apply truthy_string in Et.
      destruct (isValidUUID (Req.id req)); simpl.
      * destruct (getSnapshotById repo _ _) as [v|err] eqn:E; simpl.
        -- destruct (truthy v); simpl;
             intuition (try discriminate; try congruence; eauto);
             destruct H as (i & [= <-] & Hi); simpl in Hi;
             rewrite E in Hi; discriminate.
        -- intuition (try discriminate; try congruence; eauto).
           eexists. split; [reflexivity|]. simpl. now rewrite E.
      * intuition (try discriminate; try congruence).
        destruct H as (i & Hi & _); discriminate.
    + simpl in Et. apply negb_false_iff, String.eqb_eq in Et. subst t.
      intuition (try discriminate; eauto).
      destruct H as (i & Hi & _); discriminate.
Qed.

Lemma parsedLimit_capped (limit : option string) :
  Z.min (Controller.parsedLimit limit) 100 = Controller.parsedLimit limit.
Proof.
  unfold Controller.parsedLimit. lia.
Qed.

Lemma cursor_rejected (updatedAfter : option string) (e : string) :
  Postgres.cursor rt updatedAfter = Rejected e ->
  exists u, updatedAfter = Some u /\ u <> "" /\ timestamptz_in rt u = None.
Proof.
  unfold Postgres.cursor. destruct updatedAfter as [u|]; [|discriminate].
  destruct (truthy (VString u)) eqn:Eu; [|discriminate].
  apply truthy_string in Eu.
  destruct (timestamptz_in rt u) eqn:Ets; [discriminate|].
  intros _. exists u. auto.
Qed.

(** X8. When the list endpoint over the table fails.  For a request with
    a tenant identity whose cursor passed the controller's check, the
    answer is 200 or 500, and it is 500 exactly when the normalized limit
    is negative, the normalized offset is 2^63 or more (no [bigint]), or
    the storage engine does not read the cursor as a timestamp. *)
Theorem list_endpoint_failures :
  forall (db : table) (req : Req.t) (tenantId : string),
    Req.tenantId req = Some tenantId -> tenantId <> "" ->
    Controller.invalid_cursor rt (Req.updatedAfter req) = false ->
    let res := run (PostgresExecutionProtocolRepository rt db)
                   (Controller.getAllForPolling rt req) in
    (statusCode res = 200 \/ statusCode res = 500)
    /\ (statusCode res = 500
        <-> Controller.parsedLimit (Req.limit req) < 0
            \/ 2 ^ 63 <= Controller.parsedOffset (Req.offset req)
            \/ exists u, Req.updatedAfter req = Some u /\ u <> ""
                         /\ timestamptz_in rt u = None).
Proof.
  intros db req tenantId Hten Hne Hc res. subst res.
  destruct (getAllForPolling_cases rt req)
    as [[_ [H|H]]|[[_ H]|(t & Ht & _ & _ & Hrun)]].
  - congruence.
  - congruence.
  - destruct H as (t & u & _ & _ & Hu & Hune & Hd). exfalso.
    unfold Controller.invalid_cursor in Hc. rewrite Hu, Hd in Hc.
    apply truthy_string in Hune. rewrite Hune in Hc. discriminate.
  - rewrite Hrun. simpl.
    pose proof (parsedOffset_floor (Req.offset req)) as Hoff.
    pose proof (parsedLimit_at_most_100 (Req.limit req)) as Hlim.
    destruct (Postgres.getAllForPolling rt db _) as [page|e] eqn:E; simpl.
    + split; [now left|]. split; [discriminate|]. intros Hfail. exfalso.
      apply getAllForPolling_inv in E. simpl in E.
      destruct E as (after & rows & Hcur & Hl & _).
      apply limit_offset_inv in Hl. rewrite parsedLimit_capped in Hl.
      destruct Hfail as [H|[H|(u & Hu & Hune & Hts)]]; try lia.
      rewrite Hu, (cursor_supplied rt u Hune), Hts in Hcur. discriminate.
    + split; [now right|]. split; [|reflexivity]. intros _.
      unfold Postgres.getAllForPolling, bind in E. simpl in E.
      destruct (Postgres.cursor rt (Req.updatedAfter req)) as [after|e']
        eqn:Hcur.
      * destruct (Postgres.limit_offset _ _ _) as [rows|e'] eqn:Hl;
          [discriminate|].
        rewrite parsedLimit_capped in Hl.
        assert (Hrej : exists e0,
                   Postgres.limit_offset
                     (Controller.parsedLimit (Req.limit req))
                     (Controller.parsedOffset (Req.offset req))
                     (Postgres.order_by_updated_at
                        (Postgres.matching db t after)) = Rejected e0)
          by (now exists e').
        apply limit_offset_rejected in Hrej. lia.
      * right; right. now apply (cursor_rejected _ e').
Qed.

(** X9. The snapshot endpoints return the stored document verbatim.  For
    a [CLOSED] row of the requesting tenant and a well-formed id that
    denotes it, [GET /:id] and [GET /:id/snapshot] answer 200 with the
    row's snapshot as the whole body; unless the snapshot is a falsy JSON
    value ([null], [false], [0] or the empty string), which the handlers
    take for a missing record and answer 404. *)
Theorem snapshot_endpoints_return_the_snapshot :
  forall (db : table) (r : Row.t) (req : Req.t),
    primary_key db -> In r db -> Row.status r = "CLOSED" ->
    Req.tenantId req = Some (Row.tenant_id r) -> Row.tenant_id r <> "" ->
    isValidUUID (Req.id req) = true ->
    uuid_in rt (Req.id req) = Some (Row.id r) ->
    let expected :=
      if truthy (Row.snapshot r)
      then {| statusCode := 200; body := Row.snapshot r |}
      else error_response 404 "Not found" "Execution protocol not found" in
    run (PostgresExecutionProtocolRepository rt db)
        (Controller.getSnapshotById req) = expected
    /\ run (PostgresExecutionProtocolRepository rt db)
           (Controller.getById req) = expected.
Proof.
  intros db r req Hpk Hin Hst Hten Hne Hvalid Hid expected. subst expected.
  apply truthy_string in Hne.
  unfold Controller.getSnapshotById, Controller.getById.
  rewrite Hten, Hne, Hvalid. simpl. unfold Postgres.getSnapshotById.
  rewrite (select_by_id_own rt db r (Req.id req) Hpk Hin Hst Hid). simpl.
  destruct (truthy (Row.snapshot r)); auto.
Qed.

(** X10. The snapshot endpoints over the table do not fail: when the
    storage engine reads every id that [isValidUUID] accepts, the answer
    to [GET /:id] and [GET /:id/snapshot] is 200, 401 or 404, never 500;
    validating the id first keeps malformed text away from the query. *)
Theorem snapshot_endpoints_never_fail :
  forall (db : table) (req : Req.t),
    (forall s, isValidUUID s = true -> exists u, uuid_in rt s = Some u) ->
    In (statusCode (run (PostgresExecutionProtocolRepository rt db)
                      (Controller.getSnapshotById req))) [200; 401; 404]
    /\ In (statusCode (run (PostgresExecutionProtocolRepository rt db)
                         (Controller.getById req))) [200; 401; 404].
Proof.
  intros db req Hengine.
  unfold Controller.getSnapshotById, Controller.getById.
  destruct (Req.tenantId req) as [t|]; [|simpl; auto].
  destruct (truthy (VString t)); simpl; [|auto].
  destruct (isValidUUID (Req.id req)) eqn:Ev; simpl; [|auto 6].
  destruct (Hengine _ Ev) as (u & Hu).
  unfold Postgres.getSnapshotById, Postgres.select_by_id. rewrite Hu. simpl.
  destruct (filter _ db) as [|row rows]; simpl; [auto 6|].
  destruct (truthy (Row.snapshot row)); simpl; auto 6.
Qed.

End Endpoints.

(* ===================================================================== *)
(** * Further properties of the validation *)
(* ===================================================================== *)

Lemma test_length (p : list cls) (s : string) :
  test p s = true -> String.length s = List.length p.
Proof.
  revert s. induction p as [|k p IH]; intros [|c s]; simpl;
    try discriminate; auto.
  intros H. apply andb_true_iff in H. f_equal. now apply IH.
Qed.

Lemma test_nth (p : list cls) (s : string) (i : nat) (k : cls) :
  test p s = true -> nth_error p i = Some k ->
  exists c, String.get i s = Some c /\ cls_test k c = true.
Proof.
  revert s i. induction p as [|k' p IH]; intros [|c s] i; simpl;
    try discriminate.
  - now destruct i.
  - intros H Hn. apply andb_true_iff in H. destruct H as [Hc Hs].
    destruct i as [|i]; simpl in *.
    + injection Hn as <-. eauto.
    + now apply IH.
Qed.

Lemma test_weaken (p p' : list cls) (s : string) :
  Forall2
    (fun k k' => forall c, cls_test k c = true -> cls_test k' c = true)
    p p' ->
  test p s = true -> test p' s = true.
Proof.
  intros H. revert s. induction H as [|k k' p p' Hk _ IH]; intros [|c s];
    simpl; try discriminate; auto.
  intros Ht. apply andb_true_iff in Ht. destruct Ht as [Hc Hs].
  apply andb_true_iff. split; auto.
Qed.

Lemma test_lowercase (p : list cls) (s : string) :
  Forall (fun k => forall c, cls_test k (Sample.lower c) = cls_test k c) p ->
  test p (Sample.lowercase s) = test p s.
Proof.
  intros H. revert s. induction H as [|k p Hk _ IH]; intros [|c s]; simpl;
    auto.
  now rewrite Hk, IH.
Qed.

Lemma cls_test_lower (k : cls) (c : ascii) :
  In k uuidRegex -> cls_test k (Sample.lower c) = cls_test k c.
Proof.
  intros Hk.
  assert (Hcases : k = Hex \/ k = Lit "-" \/ k = Lit "4" \/ k = Variant).
  { unfold uuidRegex in Hk. simpl in Hk. intuition. }
  destruct Hcases as [->|[->|[->| ->]]]; each_ascii c.
Qed.

(** X11. What [isValidUUID] accepts: a string of exactly 36 characters
    with hyphens at positions 8, 13, 18 and 23, the version digit [4] at
    position 14 and one of [8], [9], [a], [b] (in either case) at position
    19; the empty string is refused. *)
Theorem isValidUUID_shape :
  forall s : string,
    isValidUUID s = true ->
    String.length s = 36%nat
    /\ String.get 8 s = Some "-"%char
    /\ String.get 13 s = Some "-"%char
    /\ String.get 14 s = Some "4"%char
    /\ String.get 18 s = Some "-"%char
    /\ String.get 23 s = Some "-"%char
    /\ (exists v, String.get 19 s = Some v /\ is_variant v = true)
    /\ s <> "".
Proof.
  intros s H. unfold isValidUUID in H.
  destruct (negb (truthy (VString s))) eqn:E; [discriminate|].
  assert (Hlit : forall i l, nth_error uuidRegex i = Some (Lit l) ->
                             String.get i s = Some l).
  { intros i l Hn. destruct (test_nth _ _ _ _ H Hn) as (c & Hc & Hl).
    simpl in Hl. apply Ascii.eqb_eq in Hl. now subst. }
  split; [exact (test_length _ _ H)|].
  repeat (split; [apply Hlit; reflexivity|]).
  split.
  - destruct (test_nth _ _ 19%nat Variant H eq_refl) as (c & Hc & Hv).
    exists c. auto.
  - apply negb_false_iff in E. now apply truthy_string in E.
Qed.

(** X12. [isValidUUID] does not look at the case of the letters: a
    string is accepted exactly when its lower-case form is. *)
Theorem isValidUUID_ignores_case :
  forall s : string, isValidUUID (Sample.lowercase s) = isValidUUID s.
Proof.
  intros s. unfold isValidUUID.
  rewrite test_lowercase.
  - destruct s; reflexivity.
  - apply Forall_forall. intros k Hk c. now apply cls_test_lower.
Qed.

(** Every id that [isValidUUID] accepts is read by the sample engine. *)
Lemma sample_engine_reads_valid_ids (s : string) :
  isValidUUID s = true -> exists u, uuid_in Sample.runtime s = Some u.
Proof.
  intros H. unfold isValidUUID in H.
  destruct (negb (truthy (VString s))); [discriminate|].
  simpl. unfold Sample.uuid.
  rewrite (test_weaken uuidRegex Sample.any_uuid s); eauto.
  unfold uuidRegex, Sample.any_uuid. simpl.
  repeat (constructor; [try (intros c Hc; exact Hc)|]);
    try constructor;
    intros c Hc; simpl in *;
    try (apply Ascii.eqb_eq in Hc; subst c; reflexivity);
    revert Hc; destruct c as [[] [] [] [] [] [] [] []];
    simpl; intros Hc; try discriminate; reflexivity.
Qed.

(* ===================================================================== *)
(** * Further properties: authentication and tenant scope *)
(* ===================================================================== *)

Lemma existsb_eqb_In (k : string) (names : list string) :
  existsb (String.eqb k) names = true <-> In k names.
Proof.
  rewrite existsb_exists. split.
  - intros (x & Hx & He). apply String.eqb_eq in He. now subst.
  - intros H. exists k. split; [exact H | apply String.eqb_refl].
Qed.

Lemma own_property_iff (fields : list (string * value)) (k : string) :
  existsb (fun kv => (fst kv =? k)%string) fields = true
  <-> In k (map fst fields).
Proof.
  rewrite existsb_exists, in_map_iff. split.
  - intros (kv & Hin & He). apply String.eqb_eq in He. eauto.
  - intros (kv & He & Hin). exists kv. split; [exact Hin|].
    now apply String.eqb_eq.
Qed.

(** The middleware with a key: it reads the property the key names off
    what was parsed. *)
Lemma authMiddleware_key (JSON_parse : string -> Auth.parsed)
  (builtin : Auth.parsed -> string -> bool) (API_KEYS : option string)
  (key : string) :
  key <> "" ->
  Auth.authMiddleware JSON_parse builtin API_KEYS (Some key)
  = match JSON_parse (Auth.API_KEYS_or_default API_KEYS) with
    | Auth.SyntaxError =>
        Auth.Responded
          (Auth.error_only 500 "Server misconfiguration: invalid API_KEYS")
    | apiKeys =>
        match Auth.read builtin apiKeys key with
        | Auth.Found t =>
            if Auth.tenant_truthy t then Auth.Next t
            else Auth.Responded (Auth.error_only 401 "Invalid API key")
        | Auth.Undefined =>
            Auth.Responded (Auth.error_only 401 "Invalid API key")
        | Auth.Throws => Auth.Thrown
        end
    end.
Proof.
  intros Hk. apply truthy_string in Hk.
  unfold Auth.authMiddleware. rewrite Hk. cbn [negb].
  destruct (JSON_parse _); try reflexivity;
    (destruct (Auth.read _ _ _) as [| |t]; [reflexivity | reflexivity |]);
    now destruct (Auth.tenant_truthy t).
Qed.

(** [apiKeys[apiKey]] on an object. *)
Lemma lookup_cases (fields : list (string * value)) (key : string)
  (t : Auth.tenant) :
  Auth.lookup fields key = Some t
  <-> (In key (map fst fields) /\ t = Auth.Configured (assoc key fields))
      \/ (~ In key (map fst fields) /\ In key Auth.Object_prototype
          /\ t = Auth.Prototype key).
Proof.
  unfold Auth.lookup.
  destruct (existsb (fun kv => (fst kv =? key)%string) fields) eqn:Eown.
  - apply own_property_iff in Eown. split.
    + intros [= <-]. now left.
    + intros [(_ & ->)|(H & _)]; [reflexivity | contradiction].
  - assert (Hnot : ~ In key (map fst fields)).
    { intros H. apply own_property_iff in H. congruence. }
    destruct (existsb (String.eqb key) Auth.Object_prototype) eqn:Ep.
    + apply existsb_eqb_In in Ep. split.
      * intros [= <-]. right. auto.
      * intros [(H & _)|(_ & _ & ->)]; [contradiction | reflexivity].
    + assert (Hnp : ~ In key Auth.Object_prototype).
      { intros H. apply existsb_eqb_In in H. congruence. }
      split; [discriminate|].
      intros [(H & _)|(_ & H & _)]; contradiction.
Qed.

(** What reading the key off an object gives. *)
Lemma read_object (builtin : Auth.parsed -> string -> bool)
  (fields : list (string * value)) (key : string) (t : Auth.tenant) :
  Auth.read builtin (Auth.Object fields) key = Auth.Found t
  <-> (In key (map fst fields) /\ t = Auth.Configured (assoc key fields))
      \/ (~ In key (map fst fields) /\ In key Auth.Object_prototype
          /\ t = Auth.Prototype key).
Proof.
  rewrite <- lookup_cases. simpl.
  destruct (Auth.lookup fields key) as [t0|]; split; congruence.
Qed.


Lemma authMiddleware_missing (JSON_parse : string -> Auth.parsed)
  (builtin : Auth.parsed -> string -> bool) (API_KEYS apiKey : option string) :
  apiKey = None \/ apiKey = Some "" ->
  Auth.authMiddleware JSON_parse builtin API_KEYS apiKey
  = Auth.Responded (Auth.error_only 401 "Missing X-API-Key header").
Proof.
  intros [-> | ->]; reflexivity.
Qed.

(** The key of a request that is not answered "Missing X-API-Key
    header". *)
Lemma authMiddleware_has_key (JSON_parse : string -> Auth.parsed)
  (builtin : Auth.parsed -> string -> bool) (API_KEYS apiKey : option string) :
  Auth.authMiddleware JSON_parse builtin API_KEYS apiKey
  <> Auth.Responded (Auth.error_only 401 "Missing X-API-Key header") ->
  exists key, apiKey = Some key /\ key <> "".
Proof.
  intros H. destruct apiKey as [key|].
  - exists key. split; [reflexivity|]. intros ->. now apply H.
  - exfalso. now apply H.
Qed.

Lemma authMiddleware_next (JSON_parse : string -> Auth.parsed)
  (builtin : Auth.parsed -> string -> bool) (API_KEYS apiKey : option string)
  (t : Auth.tenant) :
  Auth.authMiddleware JSON_parse builtin API_KEYS apiKey = Auth.Next t
  <-> exists key,
        apiKey = Some key /\ key <> ""
        /\ Auth.tenant_truthy t = true
        /\ Auth.read builtin
             (JSON_parse (Auth.API_KEYS_or_default API_KEYS)) key
           = Auth.Found t.
Proof.
  split.
  - intros H.
    destruct (authMiddleware_has_key JSON_parse builtin API_KEYS apiKey)
      as (key & -> & Hk); [rewrite H; discriminate|].
    exists key. split; [reflexivity|]. split; [exact Hk|].
    rewrite (authMiddleware_key _ _ _ _ Hk) in H.
    destruct (JSON_parse _); try discriminate;
      (destruct (Auth.read _ _ _) as [| |t0]; try discriminate;
       destruct (Auth.tenant_truthy t0) eqn:Et; try discriminate;
       injection H as <-; auto).
  - intros (key & -> & Hk & Ht & Hr).
    rewrite (authMiddleware_key _ _ _ _ Hk).
    destruct (JSON_parse _); try discriminate; now rewrite Hr, Ht.
Qed.

Lemma authMiddleware_thrown (JSON_parse : string -> Auth.parsed)
  (builtin : Auth.parsed -> string -> bool) (API_KEYS apiKey : option string) :
  Auth.authMiddleware JSON_parse builtin API_KEYS apiKey = Auth.Thrown
  <-> exists key,
        apiKey = Some key /\ key <> ""
        /\ JSON_parse (Auth.API_KEYS_or_default API_KEYS) = Auth.Null.
Proof.
  split.
  - intros H.
    destruct (authMiddleware_has_key JSON_parse builtin API_KEYS apiKey)
      as (key & -> & Hk); [rewrite H; discriminate|].
    exists key. split; [reflexivity|]. split; [exact Hk|].
    rewrite (authMiddleware_key _ _ _ _ Hk) in H.
    destruct (JSON_parse _) as [|fields| | | |s|l]; try discriminate;
      try reflexivity; exfalso; revert H; simpl; unfold Auth.inherited;
      repeat match goal with
             | |- context [Auth.tenant_truthy ?t] =>
                 destruct (Auth.tenant_truthy t)
             | |- context [if ?b then _ else _] => destruct b
             | |- context [match ?o with Some _ => _ | None => _ end] =>
                 destruct o
             end; discriminate.
  - intros (key & -> & Hk & Hp).
    rewrite (authMiddleware_key _ _ _ _ Hk). now rewrite Hp.
Qed.

Lemma authMiddleware_status (JSON_parse : string -> Auth.parsed)
  (builtin : Auth.parsed -> string -> bool) (API_KEYS apiKey : option string)
  (r : response) :
  Auth.authMiddleware JSON_parse builtin API_KEYS apiKey = Auth.Responded r ->
  statusCode r = 401 \/ statusCode r = 500.
Proof.
  unfold Auth.authMiddleware.
  destruct apiKey as [key|]; [|intros [= <-]; now left].
  destruct (negb (truthy (VString key))); [intros [= <-]; now left|].
  destruct (JSON_parse _); [intros [= <-]; now right|..];
    (destruct (Auth.read _ _ _) as [| |t0]; [discriminate| |];
     [intros [= <-]; now left|];
     destruct (negb (Auth.tenant_truthy t0)); [|discriminate];
     intros [= <-]; now left).
Qed.

(** X13. Which requests the authentication middleware lets through.  It
    calls [next()] exactly when the [x-api-key] header is a non-empty
    string, [API_KEYS] parses, and the property of the parsed value that
    the key names is truthy; that property becomes [req.tenantId].  On an
    object it is the own property of that name or, when the object has
    none, what [Object.prototype] binds the name to.  The parsed value
    need not be an object: a non-empty string lets the key [length]
    through, an array the index of each truthy element and every name
    its prototype binds, and [null] makes the middleware throw.  Otherwise the middleware responds 401, or 500
    when [API_KEYS] does not parse; a request without a key is answered
    401 before [API_KEYS] is read. *)
Theorem authMiddleware_lets_through :
  forall (JSON_parse : string -> Auth.parsed)
    (builtin : Auth.parsed -> string -> bool)
    (API_KEYS apiKey : option string),
    let apiKeys := JSON_parse (Auth.API_KEYS_or_default API_KEYS) in
    (forall t,
       Auth.authMiddleware JSON_parse builtin API_KEYS apiKey = Auth.Next t
       <-> exists key,
             apiKey = Some key /\ key <> ""
             /\ Auth.tenant_truthy t = true
             /\ Auth.read builtin apiKeys key = Auth.Found t)
    (* a configuration that is an object *)
    /\ (forall fields key t,
          apiKeys = Auth.Object fields ->
          (Auth.read builtin apiKeys key = Auth.Found t
           <-> (In key (map fst fields)
                /\ t = Auth.Configured (assoc key fields))
               \/ (~ In key (map fst fields)
                   /\ In key Auth.Object_prototype
                   /\ t = Auth.Prototype key)))
    (* a configuration that is no object *)
    /\ (forall s,
          apiKeys = Auth.Text s -> utf16_length s <> 0%nat ->
          apiKey = Some "length" ->
          Auth.authMiddleware JSON_parse builtin API_KEYS apiKey
          = Auth.Next (Auth.Length (utf16_length s)))
    /\ (forall l key i x,
          apiKeys = Auth.Array l ->
          apiKey = Some key -> index_of key = Some i ->
          nth_error l i = Some x -> truthy x = true ->
          Auth.authMiddleware JSON_parse builtin API_KEYS apiKey
          = Auth.Next (Auth.Element x))
    /\ (forall l key,
          apiKeys = Auth.Array l ->
          apiKey = Some key -> key <> "" ->
          key <> "length" -> index_of key = None ->
          In key Auth.Object_prototype \/ builtin (Auth.Array l) key = true ->
          Auth.authMiddleware JSON_parse builtin API_KEYS apiKey
          = Auth.Next (Auth.Prototype key))
    /\ (Auth.authMiddleware JSON_parse builtin API_KEYS apiKey = Auth.Thrown
        <-> exists key,
              apiKey = Some key /\ key <> "" /\ apiKeys = Auth.Null)
    (* the responses *)
    /\ (forall r,
          Auth.authMiddleware JSON_parse builtin API_KEYS apiKey
          = Auth.Responded r ->
          statusCode r = 401 \/ statusCode r = 500)
    /\ (apiKeys = Auth.SyntaxError -> forall key,
          apiKey = Some key -> key <> "" ->
          Auth.authMiddleware JSON_parse builtin API_KEYS apiKey
          = Auth.Responded
              (Auth.error_only 500 "Server misconfiguration: invalid API_KEYS"))
    /\ (apiKey = None \/ apiKey = Some "" ->
        Auth.authMiddleware JSON_parse builtin API_KEYS apiKey
        = Auth.Responded (Auth.error_only 401 "Missing X-API-Key header")).
Proof.
  intros JSON_parse builtin API_KEYS apiKey apiKeys. subst apiKeys.
  split; [|split; [|split; [|split; [|split; [|split; [|split; [|split]]]]]]].
  - intros t. apply authMiddleware_next.
  - intros fields key t ->. apply read_object.
  - intros s Hp Hs ->. apply authMiddleware_next.
    exists "length". split; [reflexivity|]. split; [discriminate|].
    rewrite Hp. split; [|reflexivity]. simpl.
    apply negb_true_iff. now apply Nat.eqb_neq.
  - intros l key i x Hp -> Hidx Hnth Hx. apply authMiddleware_next.
    exists key. split; [reflexivity|].
    split; [intros ->; discriminate|]. split; [exact Hx|].
    rewrite Hp. simpl.
    destruct (key =? "length")%string eqn:E.
    + apply String.eqb_eq in E. subst key. discriminate.
    + now rewrite Hidx, Hnth.
  - intros l key Hp -> Hk Hlen Hidx Hin. apply authMiddleware_next.
    exists key. split; [reflexivity|]. split; [exact Hk|].
    split; [reflexivity|]. rewrite Hp. simpl.
    apply String.eqb_neq in Hlen. rewrite Hlen, Hidx.
    unfold Auth.inherited. destruct Hin as [Hin|Hin].
    + apply existsb_eqb_In in Hin. now rewrite Hin.
    + now rewrite Hin, orb_true_r.
  - apply authMiddleware_thrown.
  - intros r. apply authMiddleware_status.
  - intros Hp key -> Hk. rewrite (authMiddleware_key _ _ _ _ Hk).
    now rewrite Hp.
  - apply authMiddleware_missing.
Qed.

Section Scope.

Variable rt : Runtime.

(** The tenant of a call a handler makes is the request's. *)
Lemma invocation_tenant (repo : ExecutionProtocolRepository)
  (e : Routes.endpoint) (req : Req.t) (i : invocation) :
  In i (invocations repo (Routes.createExecutionProtocolRoutes rt e req)) ->
  Req.tenantId req = Some (tenant_of i) /\ tenant_of i <> "".
Proof.
  destruct e; simpl;
    [unfold Controller.getAllForPolling | unfold Controller.getById
    | unfold Controller.getSnapshotById];
    (destruct (Req.tenantId req) as [t|]; [|simpl; contradiction]);
    (destruct (truthy (VString t)) eqn:Et; simpl; [|contradiction]);
    apply truthy_string in Et.
  - destruct (Controller.invalid_cursor rt (Req.updatedAfter req));
      simpl; [contradiction|].
    destruct (getAllForPolling repo _); simpl;
      intros [<-|[]]; simpl; auto.
  - destruct (isValidUUID (Req.id req)); simpl; [|contradiction].
    destruct (getSnapshotById repo _ _) as [v|]; simpl.
    + destruct (truthy v); simpl; intros [<-|[]]; simpl; auto.
    + intros [<-|[]]; simpl; auto.
  - destruct (isValidUUID (Req.id req)); simpl; [|contradiction].
    destruct (getSnapshotById repo _ _) as [v|]; simpl.
    + destruct (truthy v); simpl; intros [<-|[]]; simpl; auto.
    + intros [<-|[]]; simpl; auto.
Qed.



(** X14. Every repository call is scoped to the request's tenant: a call
    a handler makes, on any route, carries the [tenantId] of the request,
    unchanged and not empty. *)
Theorem repository_calls_carry_the_request_tenant :
  forall (repo : ExecutionProtocolRepository) (e : Routes.endpoint)
    (req : Req.t) (i : invocation),
    In i (invocations repo (Routes.createExecutionProtocolRoutes rt e req)) ->
    Req.tenantId req = Some (tenant_of i) /\ tenant_of i <> "".
Proof.
  intros repo e req i. apply invocation_tenant.
Qed.


End Scope.

(* ===================================================================== *)
(** * Further properties: the entity and the seeding of the table *)
(* ===================================================================== *)

(** X16. The factory reads both spellings.  An entity handed back to
    [fromRepositoryData] as a data object (its own camel-case properties)
    is rebuilt unchanged, whatever its fields hold. *)
Theorem fromRepositoryData_rebuilds_an_entity :
  forall p : Domain.t, Domain.fromRepositoryData (Domain.properties p) = p.
Proof.
  intros [i si pl te st cr cl up sn]. reflexivity.
Qed.

(** X17. The list metadata of a row.  Built from a row of the table, the
    metadata carries the row's [id] and [status], its [site_id] and
    [plant_id] unless they are empty (an empty text reads as
    [undefined]), [closed_at] as a Date or [undefined] when it is [NULL],
    and [updated_at] as a Date (the timestamps cut to whole
    milliseconds); the typed entity of the repository gives the same
    object. *)
Theorem list_metadata_of_a_row :
  forall r : Row.t,
    Domain.toListMetadata (Domain.fromRepositoryData (Domain.of_row r))
    = VObject
        [ ("id", VString (Row.id r));
          ("siteId", if (Row.site_id r =? "")%string then VUndefined
                     else VString (Row.site_id r));
          ("plantId", if (Row.plant_id r =? "")%string then VUndefined
                      else VString (Row.plant_id r));
          ("status", VString (Row.status r));
          ("closedAt", match Row.closed_at r with
                       | Some t => VDate (Driver.date t)
                       | None => VUndefined
                       end);
          ("updatedAt", VDate (Driver.date (Row.updated_at r))) ]
    /\ ExecutionProtocol.toListMetadata (Postgres.listed r)
       = Domain.toListMetadata (Domain.fromRepositoryData (Domain.of_row r)).
Proof.
  intros r. unfold Domain.toListMetadata, Domain.fromRepositoryData,
    ExecutionProtocol.toListMetadata, Postgres.listed,
    ExecutionProtocol.fromRepositoryData, ExecutionProtocol.or_undefined,
    Domain.or. cbn -[Driver.date].
  destruct (Row.site_id r =? "")%string, (Row.plant_id r =? "")%string,
    (Row.closed_at r); split; reflexivity.
Qed.

Section Seeding.

Variable rt : Runtime.
Variable jsonb : value -> option value.

Lemma proposed_id (rec : Seed.record) (row : Row.t) :
  Seed.proposed rt jsonb rec = Some row ->
  uuid_in rt (Seed.id rec) = Some (Row.id row).
Proof.
  unfold Seed.proposed.
  destruct (uuid_in rt (Seed.id rec)); [|discriminate].
  destruct (Seed.varchar 255 (Seed.siteId rec)); [|discriminate].
  destruct (Seed.varchar 255 (Seed.plantId rec)); [|discriminate].
  destruct (Seed.varchar 255 (Seed.tenantId rec)); [|discriminate].
  destruct (Seed.varchar 50 (Seed.status rec)); [|discriminate].
  destruct (jsonb (Seed.snapshot rec)); [|discriminate].
  now intros [= <-].
Qed.

Lemma conflict_iff (db : table) (uuid : string) :
  existsb (fun r => (Row.id r =? uuid)%string) db = true
  <-> In uuid (map Row.id db).
Proof.
  rewrite existsb_exists, in_map_iff. split.
  - intros (r & Hin & He). apply String.eqb_eq in He. eauto.
  - intros (r & He & Hin). exists r. split; auto. now apply String.eqb_eq.
Qed.

Lemma do_update_ids (row : Row.t) (db : table) :
  map Row.id
    (map (fun r => if (Row.id r =? Row.id row)%string
                   then Seed.do_update row r else r) db)
  = map Row.id db.
Proof.
  rewrite map_map. apply map_ext. intros r.
  now destruct (Row.id r =? Row.id row)%string.
Qed.

(** What one insert does to the table. *)
Lemma insert_inv (db db' : table) (rec : Seed.record) :
  Seed.insert rt jsonb db rec = Fulfilled db' ->
  exists row,
    Seed.proposed rt jsonb rec = Some row
    /\ ((In (Row.id row) (map Row.id db)
         /\ db' = map (fun r => if (Row.id r =? Row.id row)%string
                                then Seed.do_update row r else r) db)
        \/ (~ In (Row.id row) (map Row.id db) /\ db' = db ++ [row])).
Proof.
  unfold Seed.insert.
  destruct (Seed.proposed rt jsonb rec) as [row|]; [|discriminate].
  destruct (existsb _ db) eqn:E; intros [= <-]; exists row;
    (split; [reflexivity|]).
  - left. split; [now apply conflict_iff | reflexivity].
  - right. split; [|reflexivity]. intros H. apply conflict_iff in H.
    congruence.
Qed.

(** X18. One [INSERT ... ON CONFLICT (id) DO UPDATE] keeps the table
    keyed and touches one row at most: every row with another id stays as
    it was; a row with the id of the record keeps its site, plant, tenant,
    status and creation and closing times and takes only the snapshot and
    [updated_at] of the record; without such a row the proposed row is
    added. *)
Theorem insert_is_an_upsert :
  forall (db db' : table) (rec : Seed.record),
    primary_key db ->
    Seed.insert rt jsonb db rec = Fulfilled db' ->
    primary_key db'
    /\ exists row,
         Seed.proposed rt jsonb rec = Some row
         /\ (forall r, In r db -> Row.id r <> Row.id row -> In r db')
         /\ (forall r, In r db -> Row.id r = Row.id row ->
                       In (Seed.do_update row r) db'
                       /\ Row.tenant_id (Seed.do_update row r)
                          = Row.tenant_id r
                       /\ Row.status (Seed.do_update row r) = Row.status r
                       /\ Row.snapshot (Seed.do_update row r)
                          = Row.snapshot row
                       /\ Row.updated_at (Seed.do_update row r)
                          = Row.updated_at row)
         /\ (~ In (Row.id row) (map Row.id db) -> In row db')
         /\ List.length db'
            = if existsb (fun r => (Row.id r =? Row.id row)%string) db
              then List.length db else S (List.length db).
Proof.
  intros db db' rec Hpk Hins. apply insert_inv in Hins.
  destruct Hins as (row & Hrow & [(Hin & ->)|(Hnot & ->)]).
  - split.
    + unfold primary_key. now rewrite do_update_ids.
    + exists row. split; [exact Hrow|]. repeat split.
      * intros r Hr Hne. apply in_map_iff. exists r. split; auto.
        apply String.eqb_neq in Hne. now rewrite Hne.
      * apply in_map_iff. exists r. split; auto.
        apply String.eqb_eq in H0. now rewrite H0.
      * intros Hnot. contradiction.
      * apply conflict_iff in Hin. rewrite Hin. apply length_map.
  - split.
    + unfold primary_key. rewrite map_app. simpl.
      apply NoDup_app; auto.
      * repeat constructor. simpl. tauto.
      * intros x Hx [<-|[]]. contradiction.
    + exists row. split; [exact Hrow|]. repeat split.
      * intros r Hr _. apply in_or_app. now left.
      * exfalso. apply Hnot. rewrite <- H0. now apply in_map.
      * intros _. apply in_or_app. right. now left.
      * destruct (existsb _ db) eqn:E.
        -- apply conflict_iff in E. contradiction.
        -- rewrite length_app. simpl. lia.
Qed.

Lemma insert_primary_key (db db' : table) (rec : Seed.record) :
  primary_key db -> Seed.insert rt jsonb db rec = Fulfilled db' ->
  primary_key db'.
Proof.
  intros Hpk Hins. apply insert_inv in Hins.
  destruct Hins as (row & _ & [(_ & ->)|(Hnot & ->)]); unfold primary_key.
  - now rewrite do_update_ids.
  - rewrite map_app. simpl. apply NoDup_app; auto.
    + repeat constructor. simpl. tauto.
    + intros x Hx [<-|[]]. contradiction.
Qed.

Lemma insert_ids (db db' : table) (rec : Seed.record) (u : string) :
  Seed.insert rt jsonb db rec = Fulfilled db' ->
  In u (map Row.id db')
  <-> In u (map Row.id db) \/ uuid_in rt (Seed.id rec) = Some u.
Proof.
  intros Hins. apply insert_inv in Hins.
  destruct Hins as (row & Hrow & [(Hin & ->)|(Hnot & ->)]);
    apply proposed_id in Hrow; rewrite Hrow.
  - rewrite do_update_ids. split; [tauto|].
    intros [H|[= <-]]; auto.
  - rewrite map_app, in_app_iff. simpl. split.
    + intros [H|[<-|[]]]; auto.
    + intros [H|[= <-]]; auto.
Qed.

Lemma insert_other (db db' : table) (rec : Seed.record) (r : Row.t) :
  Seed.insert rt jsonb db rec = Fulfilled db' ->
  In r db -> uuid_in rt (Seed.id rec) <> Some (Row.id r) -> In r db'.
Proof.
  intros Hins Hr Hne. apply insert_inv in Hins.
  destruct Hins as (row & Hrow & [(_ & ->)|(_ & ->)]);
    apply proposed_id in Hrow.
  - apply in_map_iff. exists r. split; auto.
    destruct (Row.id r =? Row.id row)%string eqn:E; auto.
    apply String.eqb_eq in E. congruence.
  - apply in_or_app. now left.
Qed.

(** One turn of the loop that went through. *)
Lemma insert_all_cons (rec : Seed.record) (rest : list Seed.record)
  (db db' : table) :
  Seed.insert_all rt jsonb db (rec :: rest) = Fulfilled db' ->
  exists db1,
    Seed.insert rt jsonb db rec = Fulfilled db1
    /\ Seed.log_line rec = Fulfilled tt
    /\ Seed.insert_all rt jsonb db1 rest = Fulfilled db'.
Proof.
  simpl. unfold bind.
  destruct (Seed.insert rt jsonb db rec) as [db1|]; [|discriminate].
  destruct (Seed.log_line rec) as [[]|]; [|discriminate].
  intros H. exists db1. auto.
Qed.

Lemma insert_all_primary_key (seedData : list Seed.record) (db db' : table) :
  primary_key db -> Seed.insert_all rt jsonb db seedData = Fulfilled db' ->
  primary_key db'.
Proof.
  revert db. induction seedData as [|rec rest IH]; intros db Hpk H.
  - simpl in H. now injection H as <-.
  - apply insert_all_cons in H. destruct H as (db1 & E & _ & H).
    eapply IH; [|exact H]. eapply insert_primary_key; eauto.
Qed.

Lemma insert_all_ids (seedData : list Seed.record) (db db' : table)
  (u : string) :
  Seed.insert_all rt jsonb db seedData = Fulfilled db' ->
  In u (map Row.id db')
  <-> In u (map Row.id db)
      \/ exists rec, In rec seedData /\ uuid_in rt (Seed.id rec) = Some u.
Proof.
  revert db. induction seedData as [|rec rest IH]; intros db H.
  - simpl in H. injection H as <-. split; [tauto|].
    intros [H|(rec & [] & _)]; auto.
  - apply insert_all_cons in H. destruct H as (db1 & E & _ & H).
    rewrite (IH db1 H), (insert_ids db db1 rec u E). simpl. split.
    + intros [[H1|H1]|(rec' & Hin & Hu)]; eauto.
    + intros [H1|(rec' & [<-|Hin] & Hu)]; eauto.
Qed.

(** Every record the loop went through was proposed as a row, and its log
    line was written. *)
Lemma insert_all_proposed (seedData : list Seed.record) (db db' : table)
  (rec : Seed.record) :
  Seed.insert_all rt jsonb db seedData = Fulfilled db' ->
  In rec seedData ->
  (exists row, Seed.proposed rt jsonb rec = Some row)
  /\ Seed.log_line rec = Fulfilled tt.
Proof.
  revert db. induction seedData as [|rec0 rest IH]; intros db H Hin;
    [contradiction|].
  apply insert_all_cons in H. destruct H as (db1 & E & Hlog & H).
  destruct Hin as [->|Hin].
  - apply insert_inv in E. destruct E as (row & Hrow & _). eauto.
  - eapply IH; eauto.
Qed.

Lemma do_update_same (row : Row.t) : Seed.do_update row row = row.
Proof.
  now destruct row.
Qed.

(** A record whose identifier no other record shares ends up in the table
    as it was proposed. *)
Lemma insert_all_serves (seedData : list Seed.record) (db db' : table)
  (rec : Seed.record) (row : Row.t) :
  Seed.insert_all rt jsonb db seedData = Fulfilled db' ->
  (forall rec', In rec' seedData ->
                uuid_in rt (Seed.id rec') = uuid_in rt (Seed.id rec) ->
                rec' = rec) ->
  Seed.proposed rt jsonb rec = Some row ->
  In row db \/ (In rec seedData /\ ~ In (Row.id row) (map Row.id db)) ->
  In row db'.
Proof.
  intros H Hown Hrow. pose proof (proposed_id rec row Hrow) as Hid.
  revert db H. induction seedData as [|rec0 rest IH]; intros db H Hcase.
  - simpl in H. injection H as <-. destruct Hcase as [Hin|[[] _]]. exact Hin.
  - apply insert_all_cons in H. destruct H as (db1 & E & _ & H).
    apply (IH (fun rec' Hin' => Hown rec' (or_intror Hin')) db1 H).
    destruct (uuid_in rt (Seed.id rec0)) as [u0|] eqn:Eu0.
    + destruct (string_dec u0 (Row.id row)) as [->|Hne].
      * (* the record itself *)
        assert (rec0 = rec) by (apply Hown; [now left | congruence]).
        subst rec0. left. apply insert_inv in E.
        destruct E as (row' & Hrow' & Hcases).
        rewrite Hrow in Hrow'. injection Hrow' as <-.
        destruct Hcases as [(Hin & ->)|(Hnot & ->)].
        -- destruct Hcase as [Hin'|[_ Hfresh]]; [|contradiction].
           apply in_map_iff. exists row. split; [|exact Hin'].
           rewrite String.eqb_refl. apply do_update_same.
        -- apply in_or_app. right. now left.
      * (* another record *)
        destruct Hcase as [Hin|[Hin Hfresh]].
        -- left. apply (insert_other db db1 rec0); auto. congruence.
        -- right. split.
           ++ destruct Hin as [->|Hin]; [congruence | exact Hin].
           ++ intros Hc. apply (insert_ids db db1 rec0 _ E) in Hc.
              destruct Hc as [Hc|Hc]; [contradiction | congruence].
    + apply insert_inv in E. destruct E as (row' & Hrow' & _).
      apply proposed_id in Hrow'. congruence.
Qed.

(** X19. [seed] commits or rolls back.  When the loop fails, on an insert
    or on a log line (as for a record whose snapshot has no [site]), the
    promise is rejected and the table is what it was.  When the loop
    goes through, the table is committed: it no longer depends on what it
    held before, it is keyed by [id], and its ids are exactly the
    identifiers of the seed records; the promise is then fulfilled unless
    there is no seed record, in which case the emptied table stays
    committed and the promise is rejected.  So a rejected [seed] left
    the table as it was, or empty. *)
Theorem seed_commits_or_rolls_back :
  forall (seedData : list Seed.record) (db : table),
    (* fulfilled *)
    (snd (Seed.seed rt jsonb seedData db) = Fulfilled tt ->
     seedData <> []
     /\ primary_key (fst (Seed.seed rt jsonb seedData db))
     /\ (forall u,
           In u (map Row.id (fst (Seed.seed rt jsonb seedData db)))
           <-> exists rec, In rec seedData
                           /\ uuid_in rt (Seed.id rec) = Some u)
     /\ (forall rec, In rec seedData ->
                     (exists row, Seed.proposed rt jsonb rec = Some row)
                     /\ Seed.log_line rec = Fulfilled tt)
     /\ forall db2,
          Seed.seed rt jsonb seedData db2 = Seed.seed rt jsonb seedData db)
    (* rejected *)
    /\ (forall e, snd (Seed.seed rt jsonb seedData db) = Rejected e ->
                  fst (Seed.seed rt jsonb seedData db) = db
                  \/ (seedData = []
                      /\ fst (Seed.seed rt jsonb seedData db) = []))
    /\ (forall rec,
          In rec seedData ->
          Seed.proposed rt jsonb rec = None
          \/ Seed.log_line rec <> Fulfilled tt ->
          fst (Seed.seed rt jsonb seedData db) = db
          /\ exists e, snd (Seed.seed rt jsonb seedData db) = Rejected e)
    (* nothing to seed *)
    /\ (seedData = [] ->
        fst (Seed.seed rt jsonb seedData db) = []
        /\ exists e, snd (Seed.seed rt jsonb seedData db) = Rejected e).
Proof.
  intros seedData db. unfold Seed.seed.
  destruct (Seed.insert_all rt jsonb [] seedData) as [seeded|e] eqn:E; simpl.
  - split; [|split; [|split]].
    + intros Hok. split; [|split; [|split; [|split]]].
      * intros ->. discriminate.
      * eapply insert_all_primary_key; [|exact E]. constructor.
      * intros u. rewrite (insert_all_ids seedData [] seeded u E). simpl.
        tauto.
      * intros rec Hin. eapply insert_all_proposed; eauto.
      * reflexivity.
    + intros e He. destruct seedData as [|rec rest]; [|discriminate].
      right. simpl in E. injection E as <-. auto.
    + intros rec Hin Hbad. exfalso.
      destruct (insert_all_proposed seedData [] seeded rec E Hin)
        as ((row & Hrow) & Hlog).
      destruct Hbad as [Hbad|Hbad]; congruence.
    + intros ->. simpl in E. injection E as <-. split; [reflexivity|].
      eexists. reflexivity.
  - split; [discriminate|]. split; [|split].
    + intros e' _. now left.
    + intros rec _ _. split; [reflexivity|]. now exists e.
    + intros ->. discriminate.
Qed.

(** X20. What was seeded can be read.  After a successful [seed], a
    record of the seed data whose identifier no other record shares is a
    row of the table as it was proposed and, when its status is [CLOSED],
    the snapshot lookup of its id under its tenant resolves to its stored
    snapshot and [getById] to its entity. *)
Theorem seeded_record_is_served :
  forall (seedData : list Seed.record) (db : table) (rec : Seed.record)
    (row : Row.t),
    snd (Seed.seed rt jsonb seedData db) = Fulfilled tt ->
    In rec seedData ->
    (forall rec', In rec' seedData ->
                  uuid_in rt (Seed.id rec') = uuid_in rt (Seed.id rec) ->
                  rec' = rec) ->
    Seed.proposed rt jsonb rec = Some row ->
    In row (fst (Seed.seed rt jsonb seedData db))
    /\ (Row.status row = "CLOSED" ->
        Postgres.getSnapshotById rt (fst (Seed.seed rt jsonb seedData db))
          (Seed.id rec) (Row.tenant_id row)
        = Fulfilled (Row.snapshot row)
        /\ Postgres.getById rt (fst (Seed.seed rt jsonb seedData db))
             (Seed.id rec) (Row.tenant_id row)
           = Fulfilled
               (Some (ExecutionProtocol.fromRepositoryData (Driver.row row)))).
Proof.
  intros seedData db rec row Hok Hin Hown Hrow. unfold Seed.seed in *.
  destruct (Seed.insert_all rt jsonb [] seedData) as [seeded|e] eqn:E;
    [|discriminate]. simpl.
  assert (Hrowin : In row seeded).
  { apply (insert_all_serves seedData [] seeded rec row); auto. }
  split; [exact Hrowin|]. intros Hst.
  assert (Hpk : primary_key seeded).
  { eapply insert_all_primary_key; [|exact E]. constructor. }
  unfold Postgres.getSnapshotById, Postgres.getById.
  rewrite (select_by_id_own rt seeded row (Seed.id rec) Hpk Hrowin Hst
             (proposed_id rec row Hrow)).
  auto.
Qed.

End Seeding.

Section Responses.

Variable rt : Runtime.



End Responses.

(* ===================================================================== *)
(** * The further properties on the seeded table *)
(* ===================================================================== *)


(** X2 on the seeded table, whose rows do not tie: the page at offset 0
    of one scan and the page at offset 1 of the scan backwards. *)
Lemma consecutive_pages_are_adjacent_seeded :
  Postgres.getAllForPolling Sample.runtime Sample.seedData
    (Sample.polling "tenant-acme" None (Some 1) (Some 0))
  = Fulfilled {| Page.data := [Postgres.listed Sample.acme1];
                 Page.total := 3 |}
  /\ Postgres.getAllForPolling Sample.runtime (rev Sample.seedData)
       (Sample.polling "tenant-acme" None (Some 1) (Some 1))
     = Fulfilled {| Page.data := [Postgres.listed Sample.acme2];
                    Page.total := 3 |}
  /\ NoDup (map ExecutionProtocol.id
              ([Postgres.listed Sample.acme1]
               ++ [Postgres.listed Sample.acme2])).
Proof.
  assert (Hnd : NoDup (map Row.updated_at
                         (Postgres.matching Sample.seedData "tenant-acme"
                            None))).
  { cbv. repeat (constructor; [simpl; intuition discriminate|]).
    constructor. }
  split; [reflexivity|]. split; [reflexivity|].
  exact (proj2
           (consecutive_pages_are_adjacent Sample.runtime Sample.seedData
              (rev Sample.seedData)
              (Sample.polling "tenant-acme" None (Some 1) (Some 0))
              (Sample.polling "tenant-acme" None (Some 1) (Some 1))
              {| Page.data := [Postgres.listed Sample.acme1];
                 Page.total := 3 |}
              {| Page.data := [Postgres.listed Sample.acme2];
                 Page.total := 3 |}
              primary_key_seedData (Permutation_rev _) Hnd
              eq_refl eq_refl eq_refl eq_refl eq_refl)).
Defined.

(** X3 on the seeded table: the default limit covers the three rows. *)
Lemma full_page_lists_every_matching_row_seeded :
  Postgres.getAllForPolling Sample.runtime (rev Sample.seedData)
    (Sample.polling "tenant-acme" None None None)
  = Fulfilled
      {| Page.data := [Postgres.listed Sample.acme1;
                       Postgres.listed Sample.acme2;
                       Postgres.listed Sample.acme4];
         Page.total := 3 |}
  /\ exists after,
       Postgres.cursor Sample.runtime None = Fulfilled after
       /\ Permutation
            [Postgres.listed Sample.acme1; Postgres.listed Sample.acme2;
             Postgres.listed Sample.acme4]
            (map Postgres.listed
               (Postgres.matching (rev Sample.seedData) "tenant-acme" after)).
Proof.
  split; [reflexivity|].
  refine (full_page_lists_every_matching_row Sample.runtime
            (rev Sample.seedData)
            (Sample.polling "tenant-acme" None None None)
            {| Page.data := [Postgres.listed Sample.acme1;
                             Postgres.listed Sample.acme2;
                             Postgres.listed Sample.acme4];
               Page.total := 3 |} eq_refl eq_refl _).
  simpl. apply Z.leb_le. reflexivity.
Defined.

(** X4 on two rows that tie: a poll of one item delivers [tieA]; [tieB]
    is neither in the page nor after the cursor, it is tied. *)
Lemma poll_misses_only_ties_tied :
  Postgres.getAllForPolling Sample.runtime [Sample.tieA; Sample.tieB]
    (Sample.polling "tenant-acme" None (Some 1) None)
  = Fulfilled {| Page.data := [Postgres.listed Sample.tieA];
                 Page.total := 2 |}
  /\ In Sample.tieB
       (Postgres.matching [Sample.tieA; Sample.tieB] "tenant-acme" None)
  /\ ~ In (Postgres.listed Sample.tieB) [Postgres.listed Sample.tieA]
  /\ Postgres.polling_where "tenant-acme"
       (Some (Row.updated_at Sample.tieA)) Sample.tieB = false
  /\ (In (Postgres.listed Sample.tieB) [Postgres.listed Sample.tieA]
      \/ Postgres.polling_where "tenant-acme"
           (Some (Row.updated_at Sample.tieA)) Sample.tieB = true
      \/ Row.updated_at Sample.tieB = Row.updated_at Sample.tieA).
Proof.
  split; [reflexivity|]. split; [simpl; auto|].
  split; [intros [H|[]]; discriminate H|]. split; [reflexivity|].
  refine (poll_misses_only_ties Sample.runtime [Sample.tieA; Sample.tieB]
            (Sample.polling "tenant-acme" None (Some 1) None)
            {| Page.data := [Postgres.listed Sample.tieA]; Page.total := 2 |}
            None (Postgres.listed Sample.tieA) (Row.updated_at Sample.tieA)
            Sample.tieB eq_refl eq_refl eq_refl _ eq_refl _).
  - simpl. auto.
  - simpl. auto.
Defined.

(** X6 on the seeded table. *)
Lemma own_closed_record_is_found_seeded :
  In Sample.acme2 Sample.seedData
  /\ Postgres.getSnapshotById Sample.runtime Sample.seedData
       "550E8400-E29B-41D4-A716-446655440002" "tenant-acme"
     = Fulfilled (Row.snapshot Sample.acme2).
Proof.
  assert (Hin : In Sample.acme2 Sample.seedData) by (simpl; auto).
  split; [exact Hin|].
  exact (proj2 (own_closed_record_is_found Sample.runtime Sample.seedData
                  Sample.acme2 "550E8400-E29B-41D4-A716-446655440002"
                  primary_key_seedData Hin eq_refl eq_refl)).
Defined.

(** X8 on the seeded table: an offset of 10^21. *)
Lemma list_endpoint_failures_seeded :
  2 ^ 63 <= Controller.parsedOffset (Some "1000000000000000000000")
  /\ statusCode
       (run (PostgresExecutionProtocolRepository Sample.runtime
               Sample.seedData)
          (Controller.getAllForPolling Sample.runtime
             (Sample.list_request "tenant-acme" None None
                (Some "1000000000000000000000"))))
     = 500.
Proof.
  assert (Hbig : 2 ^ 63
                 <= Controller.parsedOffset (Some "1000000000000000000000"))
    by (apply Z.leb_le; reflexivity).
  assert (Hne : "tenant-acme" <> "") by discriminate.
  split; [exact Hbig|].
  apply (proj2 (list_endpoint_failures Sample.runtime Sample.seedData
                  (Sample.list_request "tenant-acme" None None
                     (Some "1000000000000000000000"))
                  "tenant-acme" eq_refl Hne eq_refl)).
  right; left. exact Hbig.
Defined.

(** X9 on the seeded table. *)
Lemma snapshot_endpoints_return_the_snapshot_seeded :
  run (PostgresExecutionProtocolRepository Sample.runtime Sample.seedData)
      (Controller.getSnapshotById
         (Sample.snapshot_request (Some "tenant-globex")
            "550e8400-e29b-41d4-a716-446655440005"))
  = {| statusCode := 200; body := Row.snapshot Sample.globex5 |}.
Proof.
  assert (Hin : In Sample.globex5 Sample.seedData) by (simpl; auto 6).
  assert (Hne : Row.tenant_id Sample.globex5 <> "") by discriminate.
  exact (proj1 (snapshot_endpoints_return_the_snapshot Sample.runtime
                  Sample.seedData Sample.globex5
                  (Sample.snapshot_request (Some "tenant-globex")
                     "550e8400-e29b-41d4-a716-446655440005")
                  primary_key_seedData Hin eq_refl eq_refl Hne eq_refl
                  eq_refl)).
Defined.

(** X10 on the sample engine, which reads every well-formed id. *)
Lemma snapshot_endpoints_never_fail_seeded :
  In (statusCode
        (run (PostgresExecutionProtocolRepository Sample.runtime
                Sample.seedData)
           (Controller.getSnapshotById
              (Sample.snapshot_request (Some "tenant-acme")
                 "550e8400-e29b-41d4-a716-446655440003"))))
     [200; 401; 404].
Proof.
  exact (proj1 (snapshot_endpoints_never_fail Sample.runtime Sample.seedData
                  (Sample.snapshot_request (Some "tenant-acme")
                     "550e8400-e29b-41d4-a716-446655440003")
                  sample_engine_reads_valid_ids)).
Defined.

(** X11 on an identifier of the seed data. *)
Lemma isValidUUID_shape_seeded :
  isValidUUID "550e8400-e29b-41d4-a716-446655440001" = true
  /\ String.length "550e8400-e29b-41d4-a716-446655440001" = 36%nat.
Proof.
  split; [reflexivity|].
  exact (proj1 (isValidUUID_shape "550e8400-e29b-41d4-a716-446655440001"
                  eq_refl)).
Defined.

(** X14 on the seeded table. *)
Lemma repository_calls_carry_the_request_tenant_seeded :
  In (InvokedGetSnapshotById "550e8400-e29b-41d4-a716-446655440001"
        "tenant-acme")
     (invocations (Sample.repository Sample.seedData)
        (Routes.createExecutionProtocolRoutes Sample.runtime Routes.Snapshot
           (Sample.snapshot_request (Some "tenant-acme")
              "550e8400-e29b-41d4-a716-446655440001")))
  /\ Req.tenantId
       (Sample.snapshot_request (Some "tenant-acme")
          "550e8400-e29b-41d4-a716-446655440001")
     = Some "tenant-acme".
Proof.
  assert (Hin : In (InvokedGetSnapshotById
                      "550e8400-e29b-41d4-a716-446655440001" "tenant-acme")
                  (invocations (Sample.repository Sample.seedData)
                     (Routes.createExecutionProtocolRoutes Sample.runtime
                        Routes.Snapshot
                        (Sample.snapshot_request (Some "tenant-acme")
                           "550e8400-e29b-41d4-a716-446655440001"))))
    by (simpl; auto).
  split; [exact Hin|].
  exact (proj1 (repository_calls_carry_the_request_tenant Sample.runtime
                  (Sample.repository Sample.seedData) Routes.Snapshot
                  (Sample.snapshot_request (Some "tenant-acme")
                     "550e8400-e29b-41d4-a716-446655440001")
                  _ Hin)).
Defined.


(** X13 on three configurations that are no object: a string, an empty
    array and [null]. *)
Lemma authMiddleware_lets_through_sample :
  Auth.authMiddleware SampleAuth.JSON_parse SampleAuth.builtin
    (Some (SampleAuth.quoted "abc")) (Some "length")
  = Auth.Next (Auth.Length 3)
  /\ Auth.authMiddleware SampleAuth.JSON_parse SampleAuth.builtin
       (Some "[]") (Some "map")
     = Auth.Next (Auth.Prototype "map")
  /\ Auth.authMiddleware SampleAuth.JSON_parse SampleAuth.builtin
       (Some "null") (Some "test-key-acme")
     = Auth.Thrown.
Proof.
  split; [|split].
  - destruct (authMiddleware_lets_through SampleAuth.JSON_parse
                SampleAuth.builtin (Some (SampleAuth.quoted "abc"))
                (Some "length")) as (_ & _ & Hlength & _).
    apply (Hlength "abc"); [reflexivity | discriminate | reflexivity].
  - destruct (authMiddleware_lets_through SampleAuth.JSON_parse
                SampleAuth.builtin (Some "[]") (Some "map"))
      as (_ & _ & _ & _ & Hproto & _).
    apply (Hproto [] "map"); try reflexivity; try discriminate.
    right. reflexivity.
  - destruct (authMiddleware_lets_through SampleAuth.JSON_parse
                SampleAuth.builtin (Some "null") (Some "test-key-acme"))
      as (_ & _ & _ & _ & _ & Hthrown & _).
    apply Hthrown. exists "test-key-acme".
    split; [reflexivity|]. split; [discriminate | reflexivity].
Defined.

(** X18 on the seeded table: the first record inserted again. *)
Lemma insert_is_an_upsert_seeded :
  Seed.insert Sample.runtime SampleSeed.jsonb Sample.seedData
    (SampleSeed.record_of Sample.acme1)
  = Fulfilled Sample.seedData
  /\ primary_key Sample.seedData.
Proof.
  split; [reflexivity|].
  exact (proj1 (insert_is_an_upsert Sample.runtime SampleSeed.jsonb
                  Sample.seedData Sample.seedData
                  (SampleSeed.record_of Sample.acme1)
                  primary_key_seedData eq_refl)).
Defined.

(** X19 on the seed records, and on no record at all: seeding over any
    table gives the sample table; seeding nothing empties the table and
    fails. *)
Lemma seed_commits_or_rolls_back_seeded :
  Seed.seed Sample.runtime SampleSeed.jsonb SampleSeed.seedData
    [Sample.open6]
  = (Sample.seedData, Fulfilled tt)
  /\ primary_key Sample.seedData
  /\ fst (Seed.seed Sample.runtime SampleSeed.jsonb [] [Sample.open6]) = []
  /\ exists e,
       snd (Seed.seed Sample.runtime SampleSeed.jsonb [] [Sample.open6])
       = Rejected e.
Proof.
  split; [reflexivity|].
  destruct (seed_commits_or_rolls_back Sample.runtime SampleSeed.jsonb
              SampleSeed.seedData [Sample.open6]) as (Hok & _).
  destruct (Hok eq_refl) as (_ & Hpk & _).
  split; [exact Hpk|].
  destruct (seed_commits_or_rolls_back Sample.runtime SampleSeed.jsonb
              [] [Sample.open6]) as (_ & _ & _ & Hempty).
  exact (Hempty eq_refl).
Defined.

(** X20 on the seed records: each record is served from the seeded
    table. *)
Lemma seeded_record_is_served_seeded :
  Seed.seed Sample.runtime SampleSeed.jsonb SampleSeed.seedData
    [Sample.open6]
  = (Sample.seedData, Fulfilled tt)
  /\ Postgres.getSnapshotById Sample.runtime Sample.seedData
       "550e8400-e29b-41d4-a716-446655440004" "tenant-acme"
     = Fulfilled (Row.snapshot Sample.acme4).
Proof.
  split; [reflexivity|].
  assert (Hin : In (SampleSeed.record_of Sample.acme4) SampleSeed.seedData).
  { unfold SampleSeed.seedData. apply in_map. simpl. auto 6. }
  assert (Hown : forall rec',
             In rec' SampleSeed.seedData ->
             uuid_in Sample.runtime (Seed.id rec')
             = uuid_in Sample.runtime
                 (Seed.id (SampleSeed.record_of Sample.acme4)) ->
             rec' = SampleSeed.record_of Sample.acme4).
  { intros rec' [<-|[<-|[<-|[<-|[<-|[]]]]]] Heq;
      try reflexivity; vm_compute in Heq; discriminate. }
  destruct (seeded_record_is_served Sample.runtime SampleSeed.jsonb
              SampleSeed.seedData [Sample.open6]
              (SampleSeed.record_of Sample.acme4) Sample.acme4
              eq_refl Hin Hown eq_refl) as (_ & H).
  exact (proj1 (H eq_refl)).
Defined.


(* ===================================================================== *)
(** * Further properties: protocol executions *)
(* ===================================================================== *)

Section ProtocolExecutions.

Variable rt : Runtime.

Lemma set_status_ids (uuid st : string) (now : Z) (db : list Executions.row) :
  map Executions.id
    (map (fun r => if (Executions.id r =? uuid)%string
                   then Executions.set_status st now r else r) db)
  = map Executions.id db.
Proof.
  rewrite map_map. apply map_ext. intros r.
  now destruct (Executions.id r =? uuid)%string.
Qed.

Lemma find_updated (uuid st : string) (now : Z) (db : list Executions.row) :
  find (fun r => (Executions.id r =? uuid)%string)
    (map (fun r => if (Executions.id r =? uuid)%string
                   then Executions.set_status st now r else r) db)
  = option_map (Executions.set_status st now)
      (find (fun r => (Executions.id r =? uuid)%string) db).
Proof.
  induction db as [|r db IH]; simpl; [reflexivity|].
  destruct (Executions.id r =? uuid)%string eqn:E; simpl; rewrite E; auto.
Qed.

Lemma find_none_id (uuid : string) (db : list Executions.row) :
  find (fun r => (Executions.id r =? uuid)%string) db = None
  <-> ~ In uuid (map Executions.id db).
Proof.
  induction db as [|r db IH]; simpl; [tauto|].
  destruct (Executions.id r =? uuid)%string eqn:E.
  - apply String.eqb_eq in E. split; [discriminate|]. intros H. tauto.
  - apply String.eqb_neq in E. rewrite IH. tauto.
Qed.

(** X22. [updateStatus] changes one row at most.  It keeps the table
    keyed and of the same size, leaves every row with another id as it
    was, and resolves to [undefined] exactly when no row has the id; the
    row it resolves to otherwise is in the table, has the given status and
    the time of the update, and the protocol, site, tenant and creation
    time it had. *)
Theorem updateStatus_changes_one_row :
  forall (now : Z) (db db' : list Executions.row) (id status : string)
    (updated : option Executions.row),
    Executions.keyed db ->
    Executions.updateStatus rt now db id status = Fulfilled (db', updated) ->
    Executions.keyed db'
    /\ List.length db' = List.length db
    /\ exists uuid st,
         uuid_in rt id = Some uuid
         /\ Seed.varchar 50 status = Some st
         /\ (forall r, In r db -> Executions.id r <> uuid -> In r db')
         /\ (updated = None <-> ~ In uuid (map Executions.id db))
         /\ forall r', updated = Some r' ->
               In r' db' /\ Executions.id r' = uuid
               /\ Executions.status r' = st
               /\ Executions.updated_at r' = now
               /\ exists r,
                    In r db /\ r' = Executions.set_status st now r
                    /\ Executions.tenant_id r' = Executions.tenant_id r
                    /\ Executions.created_at r' = Executions.created_at r.
Proof.
  intros now db db' id status updated Hk H. unfold Executions.updateStatus in H.
  destruct (uuid_in rt id) as [uuid|]; [|discriminate].
  destruct (Seed.varchar 50 status) as [st|]; [|discriminate].
  injection H as <- <-.
  split; [unfold Executions.keyed; now rewrite set_status_ids|].
  split; [apply length_map|].
  exists uuid, st. repeat split; auto.
  - intros r Hr Hne. apply in_map_iff. exists r. split; auto.
    apply String.eqb_neq in Hne. now rewrite Hne.
  - rewrite find_updated. intros H.
    apply find_none_id. now destruct (find _ db).
  - rewrite find_updated. intros H. apply find_none_id in H.
    now rewrite H.
  - rewrite find_updated in H.
    destruct (find _ db) as [r|] eqn:E; [|discriminate].
    injection H as <-. apply find_some in E. destruct E as [Hin He].
    apply in_map_iff. exists r. split; auto. now rewrite He.
  - rewrite find_updated in H.
    destruct (find _ db) as [r|] eqn:E; [|discriminate].
    injection H as <-. apply find_some in E. destruct E as [_ He].
    now apply String.eqb_eq in He.
  - rewrite find_updated in H.
    destruct (find _ db) as [r|] eqn:E; [|discriminate].
    now injection H as <-.
  - rewrite find_updated in H.
    destruct (find _ db) as [r|] eqn:E; [|discriminate].
    now injection H as <-.
  - rewrite find_updated in H.
    destruct (find _ db) as [r|] eqn:E; [|discriminate].
    injection H as <-. apply find_some in E. destruct E as [Hin _].
    exists r. auto.
Qed.

Lemma create_inv (now : Z) (db db' : list Executions.row)
  (id protocolId siteId : string) (tenantId : option string)
  (inserted : Executions.row) :
  Executions.create rt now db id protocolId siteId tenantId
  = Fulfilled (db', inserted) ->
  db' = db ++ [inserted]
  /\ uuid_in rt id = Some (Executions.id inserted)
  /\ ~ In (Executions.id inserted) (map Executions.id db)
  /\ Executions.status inserted = "initialized"
  /\ Executions.created_at inserted = now
  /\ Executions.updated_at inserted = now
  /\ exists tenant,
       tenantId = Some tenant
       /\ Seed.varchar 255 tenant = Some (Executions.tenant_id inserted).
Proof.
  unfold Executions.create.
  destruct (uuid_in rt id) as [uuid|]; [|discriminate].
  destruct (Seed.varchar 255 protocolId) as [protocol|]; [|discriminate].
  destruct (Seed.varchar 255 siteId) as [site|]; [|discriminate].
  destruct tenantId as [tenant|]; [|discriminate].
  destruct (Seed.varchar 255 tenant) as [tenant'|] eqn:Et; [|discriminate].
  destruct (existsb _ db) eqn:E; [discriminate|].
  intros [= <- <-]. simpl. repeat split; auto.
  - intros H. apply in_map_iff in H. destruct H as (r & He & Hin).
    assert (existsb (fun r => (Executions.id r =? uuid)%string) db = true).
    { apply existsb_exists. exists r. split; auto. now apply String.eqb_eq. }
    congruence.
  - exists tenant. auto.
Qed.

Lemma keyed_app (db : list Executions.row) (r : Executions.row) :
  Executions.keyed db -> ~ In (Executions.id r) (map Executions.id db) ->
  Executions.keyed (db ++ [r]).
Proof.
  intros Hk Hnot. unfold Executions.keyed. rewrite map_app. simpl.
  apply NoDup_app; auto.
  - repeat constructor. simpl. tauto.
  - intros x Hx [<-|[]]. contradiction.
Qed.

(** X23. What [createExecution] answers and does.  The status is 201,
    400 or 500.  It is 400 exactly when [protocolId] or [siteId] is
    missing or empty.  Unless it is 201 the table is left as it was and no
    timer is set.  When it is 201 exactly one row was added, under the
    drawn id, with status [initialized] and the tenant of the request; the
    body reports that row; and the two timers (2 s to [in_progress], 5 s
    to [completed]) are set exactly when a [webhookUrl] was given. *)
Theorem createExecution_outcomes :
  forall (uuidv4 : string) (now : Z) (db db' : list Executions.row)
    (req : Executions.request) (res : response)
    (timers : list Executions.timer),
    Executions.keyed db ->
    Executions.createExecution rt uuidv4 now db req = (res, db', timers) ->
    In (statusCode res) [201; 400; 500]
    /\ (statusCode res = 400
        <-> Executions.protocolId req = None
            \/ Executions.protocolId req = Some ""
            \/ Executions.siteId req = None
            \/ Executions.siteId req = Some "")
    /\ (statusCode res <> 201 -> db' = db /\ timers = [])
    /\ (statusCode res = 201 ->
        exists inserted tenant,
          db' = db ++ [inserted]
          /\ Executions.keyed db'
          /\ uuid_in rt uuidv4 = Some (Executions.id inserted)
          /\ Executions.status inserted = "initialized"
          /\ Executions.tenantId req = Some tenant
          /\ Seed.varchar 255 tenant = Some (Executions.tenant_id inserted)
          /\ body res
             = VObject
                 [ ("executionId", VString (Executions.id inserted));
                   ("status", VString "initialized");
                   ("tenantId", VString (Executions.tenant_id inserted));
                   ("createdAt", VDate now) ]
          /\ (timers = [] <-> Executions.truthy_webhook
                                (Executions.webhookUrl req) = false)
          /\ (timers <> [] ->
              map (fun t => (Executions.delay t, Executions.next_status t))
                timers
              = [(2000, "in_progress"); (5000, "completed")])).
Proof.
  intros uuidv4 now db db' req res timers Hk H.
  unfold Executions.createExecution in H.
  destruct (Executions.protocolId req) as [protocol|];
    [|injection H as <- <- <-; simpl; intuition (try discriminate; auto)].
  destruct (Executions.siteId req) as [site|];
    [|injection H as <- <- <-; simpl; intuition (try discriminate; auto)].
  destruct (truthy (VString protocol)) eqn:Ep,
    (truthy (VString site)) eqn:Es; simpl in H.
  2:{ injection H as <- <- <-. simpl in Es.
      apply negb_false_iff, String.eqb_eq in Es. subst site.
      simpl. intuition (try discriminate; auto). }
  2:{ injection H as <- <- <-. simpl in Ep.
      apply negb_false_iff, String.eqb_eq in Ep. subst protocol.
      simpl. intuition (try discriminate; auto). }
  2:{ injection H as <- <- <-. simpl in Ep.
      apply negb_false_iff, String.eqb_eq in Ep. subst protocol.
      simpl. intuition (try discriminate; auto). }
  apply truthy_string in Ep, Es.
  destruct (Executions.create rt now db uuidv4 protocol site
              (Executions.tenantId req)) as [[db1 inserted]|e] eqn:Ec.
  - injection H as <- <- <-. apply create_inv in Ec.
    destruct Ec as (-> & Hid & Hfresh & Hst & Hcr & _ & tenant & Ht & Hv).
    simpl. split; [auto|]. split.
    { split; [discriminate|].
      intros [H|[H|[H|H]]]; try discriminate; congruence. }
    split; [intros H; congruence|]. intros _.
    exists inserted, tenant. rewrite Hst, Hcr.
    repeat split; auto.
    + now apply keyed_app.
    + destruct (Executions.truthy_webhook _); [discriminate | reflexivity].
    + intros H. now rewrite H.
    + destruct (Executions.truthy_webhook _); [reflexivity | congruence].
  - injection H as <- <- <-. simpl. split; [auto|]. split.
    { split; [discriminate|].
      intros [H|[H|[H|H]]]; try discriminate; congruence. }
    split; [auto | discriminate].
Qed.

Lemma update_absent (uuid st : string) (now : Z) (db : list Executions.row) :
  ~ In uuid (map Executions.id db) ->
  map (fun r => if (Executions.id r =? uuid)%string
                then Executions.set_status st now r else r) db = db.
Proof.
  intros H. rewrite <- (map_id db) at 2. apply map_ext_in. intros r Hr.
  destruct (Executions.id r =? uuid)%string eqn:E; auto.
  apply String.eqb_eq in E. exfalso. apply H. rewrite <- E.
  now apply in_map.
Qed.

(** X24. A timer either notifies about the update it made or changes
    nothing.  When the callback sends no webhook, the table is as before
    (there was no row of that id, or the update was refused).  When it
    sends one, the row of that id now has the timer's status, every other
    row is as before, the webhook goes to the given URL, its body reports
    that row's id, status and tenant, and its signature is [sha256=]
    followed by the HMAC, under the secret, of exactly the body sent. *)
Theorem on_timer_notifies_its_update :
  forall (hmac : string -> string -> string) (stringify : value -> string)
    (secret : string) (now : Z) (db db' : list Executions.row)
    (id url : string) (t : Executions.timer)
    (sent : option Executions.webhook),
    Executions.keyed db ->
    Executions.on_timer rt hmac stringify secret now db id url t
    = (db', sent) ->
    Executions.keyed db'
    /\ List.length db' = List.length db
    /\ (sent = None -> db' = db)
    /\ forall w, sent = Some w ->
          Executions.url w = url
          /\ Executions.signature w
             = ("sha256=" ++ hmac secret (Executions.content w))%string
          /\ exists r r',
               In r db /\ In r' db'
               /\ uuid_in rt id = Some (Executions.id r)
               /\ Seed.varchar 50 (Executions.next_status t)
                  = Some (Executions.status r')
               /\ r' = Executions.set_status (Executions.status r') now r
               /\ (forall x, In x db ->
                             Executions.id x <> Executions.id r -> In x db')
               /\ Executions.content w
                  = stringify
                      (VObject
                         [ ("executionId", VString (Executions.id r'));
                           ("status", VString (Executions.status r'));
                           ("tenantId", VString (Executions.tenant_id r));
                           (Executions.time_key t, VDate now) ]).
Proof.
  intros hmac stringify secret now db db' id url t sent Hk H.
  unfold Executions.on_timer, Executions.updateStatus in H.
  destruct (uuid_in rt id) as [uuid|];
    [|injection H as <- <-; repeat split; auto; discriminate].
  destruct (Seed.varchar 50 (Executions.next_status t)) as [st|];
    [|injection H as <- <-; repeat split; auto; discriminate].
  rewrite find_updated in H.
  destruct (find _ db) as [r|] eqn:E; simpl in H; injection H as <- <-.
  - split; [unfold Executions.keyed; now rewrite set_status_ids|].
    split; [apply length_map|]. split; [discriminate|].
    intros w [= <-]. simpl. split; [reflexivity|]. split; [reflexivity|].
    apply find_some in E. destruct E as [Hin He].
    pose proof He as He'. apply String.eqb_eq in He'.
    exists r, (Executions.set_status st now r). simpl.
    repeat split; auto.
    + apply in_map_iff. exists r. split; auto. now rewrite He.
    + now rewrite He'.
    + intros x Hx Hne. apply in_map_iff. exists x. split; auto.
      rewrite He' in Hne. apply String.eqb_neq in Hne. now rewrite Hne.
  - apply find_none_id in E. rewrite (update_absent uuid st now db E).
    split; [exact Hk|]. split; [reflexivity|]. split; [reflexivity|].
    discriminate.
Qed.

Lemma find_app_fresh (uuid : string) (db : list Executions.row)
  (x : Executions.row) :
  ~ In uuid (map Executions.id db) -> Executions.id x = uuid ->
  find (fun r => (Executions.id r =? uuid)%string) (db ++ [x]) = Some x.
Proof.
  intros Hfresh Hx. induction db as [|r db IH]; simpl.
  - apply String.eqb_eq in Hx. now rewrite Hx.
  - simpl in Hfresh. destruct (Executions.id r =? uuid)%string eqn:E.
    + apply String.eqb_eq in E. tauto.
    + apply IH. tauto.
Qed.

(** The timer's update of the execution just created, on the table it
    was appended to. *)
Lemma on_timer_after_create (hmac : string -> string -> string)
  (stringify : value -> string) (secret : string) (now : Z)
  (db : list Executions.row) (x : Executions.row) (id url : string)
  (t : Executions.timer) (st : string) :
  uuid_in rt id = Some (Executions.id x) ->
  ~ In (Executions.id x) (map Executions.id db) ->
  Seed.varchar 50 (Executions.next_status t) = Some st ->
  exists w,
    Executions.on_timer rt hmac stringify secret now (db ++ [x]) id url t
    = (db ++ [Executions.set_status st now x], Some w)
    /\ Executions.url w = url
    /\ Executions.content w
       = stringify
           (VObject
              [ ("executionId", VString (Executions.id x));
                ("status", VString st);
                ("tenantId", VString (Executions.tenant_id x));
                (Executions.time_key t, VDate now) ]).
Proof.
  intros Hid Hfresh Hst.
  unfold Executions.on_timer, Executions.updateStatus.
  rewrite Hid, Hst, find_updated, (find_app_fresh _ db x Hfresh eq_refl).
  simpl. rewrite map_app, (update_absent _ st now db Hfresh). simpl.
  rewrite String.eqb_refl. eexists. split; [reflexivity|]. auto.
Qed.

(** X25. The simulated lifecycle.  After [createExecution] answered 201
    to a request with a [webhookUrl], the two callbacks, run in the order
    of their delays, each update the new execution and send one webhook:
    the first reports [in_progress], the second [completed]; the table
    then holds what it held before and the execution with status
    [completed], its tenant and creation time unchanged. *)
Theorem lifecycle_ends_completed :
  forall (hmac : string -> string -> string) (stringify : value -> string)
    (secret uuidv4 url : string) (now now1 now2 : Z)
    (db db1 : list Executions.row) (req : Executions.request)
    (res : response) (timers : list Executions.timer),
    Executions.keyed db ->
    Executions.createExecution rt uuidv4 now db req = (res, db1, timers) ->
    statusCode res = 201 ->
    Executions.webhookUrl req = Some url -> url <> "" ->
    exists t1 t2 inserted db2 w1 w2,
      timers = [t1; t2]
      /\ db1 = db ++ [inserted]
      /\ Executions.on_timer rt hmac stringify secret now1 db1 uuidv4 url t1
         = (db2, Some w1)
      /\ Executions.on_timer rt hmac stringify secret now2 db2 uuidv4 url t2
         = (db ++ [Executions.set_status "completed" now2 inserted], Some w2)
      /\ Executions.content w1
         = stringify
             (VObject
                [ ("executionId", VString (Executions.id inserted));
                  ("status", VString "in_progress");
                  ("tenantId", VString (Executions.tenant_id inserted));
                  ("updatedAt", VDate now1) ])
      /\ Executions.content w2
         = stringify
             (VObject
                [ ("executionId", VString (Executions.id inserted));
                  ("status", VString "completed");
                  ("tenantId", VString (Executions.tenant_id inserted));
                  ("completedAt", VDate now2) ]).
Proof.
  intros hmac stringify secret uuidv4 url now now1 now2 db db1 req res timers
    Hk H H201 Hurl Hne.
  unfold Executions.createExecution in H.
  destruct (Executions.protocolId req) as [protocol|];
    [|injection H as <- <- <-; discriminate].
  destruct (Executions.siteId req) as [site|];
    [|injection H as <- <- <-; discriminate].
  destruct (negb (truthy (VString protocol)) || negb (truthy (VString site)));
    [injection H as <- <- <-; discriminate|].
  destruct (Executions.create rt now db uuidv4 protocol site
              (Executions.tenantId req)) as [[db' inserted]|e] eqn:Ec;
    [|injection H as <- <- <-; discriminate].
  apply create_inv in Ec. destruct Ec as (-> & Hid & Hfresh & _).
  rewrite Hurl in H. unfold Executions.truthy_webhook in H.
  apply truthy_string in Hne. rewrite Hne in H. injection H as <- <- <-.
  destruct (on_timer_after_create hmac stringify secret now1 db inserted
              uuidv4 url
              {| Executions.delay := 2000;
                 Executions.next_status := "in_progress";
                 Executions.time_key := "updatedAt" |}
              "in_progress" Hid Hfresh eq_refl) as (w1 & H1 & _ & Hc1).
  destruct (on_timer_after_create hmac stringify secret now2 db
              (Executions.set_status "in_progress" now1 inserted)
              uuidv4 url
              {| Executions.delay := 5000;
                 Executions.next_status := "completed";
                 Executions.time_key := "completedAt" |}
              "completed" Hid Hfresh eq_refl) as (w2 & H2 & _ & Hc2).
  do 3 eexists. exists (db ++ [Executions.set_status "in_progress" now1
                                 inserted]), w1, w2.
  split; [reflexivity|]. split; [reflexivity|]. split; [exact H1|].
  split; [exact H2|]. split; [exact Hc1 | exact Hc2].
Qed.

End ProtocolExecutions.

(** X22 on the execution just created. *)
Lemma updateStatus_changes_one_row_sample :
  Executions.keyed [SampleExecutions.created]
  /\ Executions.updateStatus Sample.runtime 20 [SampleExecutions.created]
       SampleExecutions.uuidv4 "in_progress"
     = Fulfilled
         ([Executions.set_status "in_progress" 20 SampleExecutions.created],
          Some (Executions.set_status "in_progress" 20
                  SampleExecutions.created))
  /\ Executions.keyed
       [Executions.set_status "in_progress" 20 SampleExecutions.created].
Proof.
  assert (Hk : Executions.keyed [SampleExecutions.created]).
  { repeat constructor. simpl. tauto. }
  split; [exact Hk|]. split; [reflexivity|].
  exact (proj1 (updateStatus_changes_one_row Sample.runtime 20
                  [SampleExecutions.created] _
                  SampleExecutions.uuidv4 "in_progress" _ Hk eq_refl)).
Defined.

(** X23 on an empty table. *)
Lemma createExecution_outcomes_sample :
  Executions.keyed []
  /\ Executions.createExecution Sample.runtime SampleExecutions.uuidv4 10 []
       SampleExecutions.request
     = ({| statusCode := 201;
           body :=
             VObject
               [ ("executionId", VString SampleExecutions.uuidv4);
                 ("status", VString "initialized");
                 ("tenantId", VString "tenant-acme");
                 ("createdAt", VDate 10) ] |},
        [SampleExecutions.created],
        [ {| Executions.delay := 2000;
             Executions.next_status := "in_progress";
             Executions.time_key := "updatedAt" |};
          {| Executions.delay := 5000;
             Executions.next_status := "completed";
             Executions.time_key := "completedAt" |} ])
  /\ In 201 [201; 400; 500].
Proof.
  assert (Hk : Executions.keyed []) by constructor.
  split; [exact Hk|]. split; [reflexivity|].
  exact (proj1 (createExecution_outcomes Sample.runtime
                  SampleExecutions.uuidv4 10 [] _ SampleExecutions.request
                  _ _ Hk eq_refl)).
Defined.

(** X24 on the execution just created. *)
Lemma on_timer_notifies_its_update_sample :
  Executions.keyed [SampleExecutions.created]
  /\ Executions.on_timer Sample.runtime SampleExecutions.hmac
       SampleExecutions.stringify "whsec_proto_default" 20
       [SampleExecutions.created] SampleExecutions.uuidv4 "http://hook"
       {| Executions.delay := 2000; Executions.next_status := "in_progress";
          Executions.time_key := "updatedAt" |}
     = ([Executions.set_status "in_progress" 20 SampleExecutions.created],
        Some {| Executions.url := "http://hook";
                Executions.signature
                  := "sha256=whsec_proto_default:in_progress";
                Executions.content := "in_progress" |})
  /\ Executions.keyed
       [Executions.set_status "in_progress" 20 SampleExecutions.created].
Proof.
  assert (Hk : Executions.keyed [SampleExecutions.created]).
  { repeat constructor. simpl. tauto. }
  split; [exact Hk|]. split; [reflexivity|].
  exact (proj1 (on_timer_notifies_its_update Sample.runtime
                  SampleExecutions.hmac SampleExecutions.stringify
                  "whsec_proto_default" 20 [SampleExecutions.created] _
                  SampleExecutions.uuidv4 "http://hook"
                  {| Executions.delay := 2000;
                     Executions.next_status := "in_progress";
                     Executions.time_key := "updatedAt" |}
                  _ Hk eq_refl)).
Defined.

(** X25 on an empty table. *)
Lemma lifecycle_ends_completed_sample :
  Executions.keyed []
  /\ exists t1 t2 inserted db2 w1 w2,
       [ {| Executions.delay := 2000;
            Executions.next_status := "in_progress";
            Executions.time_key := "updatedAt" |};
         {| Executions.delay := 5000;
            Executions.next_status := "completed";
            Executions.time_key := "completedAt" |} ] = [t1; t2]
       /\ [SampleExecutions.created] = [] ++ [inserted]
       /\ Executions.on_timer Sample.runtime SampleExecutions.hmac
            SampleExecutions.stringify "whsec_proto_default" 20
            [SampleExecutions.created] SampleExecutions.uuidv4
            "http://localhost:4001/webhook-receiver" t1
          = (db2, Some w1)
       /\ Executions.on_timer Sample.runtime SampleExecutions.hmac
            SampleExecutions.stringify "whsec_proto_default" 50
            db2 SampleExecutions.uuidv4
            "http://localhost:4001/webhook-receiver" t2
          = ([] ++ [Executions.set_status "completed" 50 inserted], Some w2)
       /\ Executions.content w1
          = SampleExecutions.stringify
              (VObject
                 [ ("executionId", VString (Executions.id inserted));
                   ("status", VString "in_progress");
                   ("tenantId", VString (Executions.tenant_id inserted));
                   ("updatedAt", VDate 20) ])
       /\ Executions.content w2
          = SampleExecutions.stringify
              (VObject
                 [ ("executionId", VString (Executions.id inserted));
                   ("status", VString "completed");
                   ("tenantId", VString (Executions.tenant_id inserted));
                   ("completedAt", VDate 50) ]).
Proof.
  assert (Hk : Executions.keyed []) by constructor.
  assert (Hne : "http://localhost:4001/webhook-receiver" <> "")
    by discriminate.
  split; [exact Hk|].
  exact (lifecycle_ends_completed Sample.runtime SampleExecutions.hmac
           SampleExecutions.stringify "whsec_proto_default"
           SampleExecutions.uuidv4 "http://localhost:4001/webhook-receiver"
           10 20 50 [] [SampleExecutions.created] SampleExecutions.request
           _ _ Hk eq_refl eq_refl eq_refl Hne).
Defined.
